(** * ATS_CALCULATION: the scoring and matching pipeline, embedded in Rocq

    A shallow embedding of the rule-based scoring pipeline of the
    repository:

    - [app/services/checkers/*.py]            the checker modules,
    - [app/services/ml_core/experience_parser.py],
    - [app/services/perfect_analysis_engine.py]  the orchestrator,
    - [app/services/ml_core/adaptive_scorer.py] and
      [app/services/ml_enhanced_analyzer.py]     display scale and fusion,
    - [app/services/smart_skill_matcher.py]      the skill matcher.

    Conventions of the embedding.

    - Python [float] and [int] scores are exact rationals ([Q]); every
      comparison and arithmetic operation is the one of the source, read
      over the rationals.  Equality of scores is [Qeq] ([==]).
    - Python [str] is [string]; case mapping and white space are the ASCII
      ones.
    - A Python [dict] is an insertion-ordered association list ([Dict]).
    - Code that raises returns [Raise e]; code that returns normally
      returns [Ok v] ([result]).
    - What the source obtains from libraries outside the repository
      (dateutil, the clock, re, fitz, python-docx, textstat, spaCy,
      scikit-learn, sentence-transformers, the knowledge base, difflib) is
      a field of the record [Externals]; an exception of such a call that
      the source catches is the [None] of the field's result, and a call
      the source leaves outside any [try] has a [result]. *)

From Stdlib Require Import QArith Qminmax Qround Qabs Lqa Lia ZArith.
From Stdlib Require Import List String Ascii Bool Arith.
From Stdlib Require Import Sorting.Permutation Sorting.Sorted.
From Stdlib Require Import DecimalString Decimal.
Import ListNotations.

Local Open Scope string_scope.
Local Open Scope Q_scope.

(** ** Results of code that may raise *)

Inductive exn : Type :=
| TypeError
| ValueError
| OtherError (name : string).

Inductive result (A : Type) : Type :=
| Ok (v : A)
| Raise (e : exn).

Arguments Ok {A} v.
Arguments Raise {A} e.

Definition bind {A B : Type} (m : result A) (k : A -> result B) : result B :=
  match m with
  | Ok v => k v
  | Raise e => Raise e
  end.

Notation "x <- m ;; k" := (bind m (fun x => k))
  (at level 61, m at next level, right associativity).

(** ** Python strings *)

Module PyStr.

Definition is_upper (c : ascii) : bool :=
  let n := nat_of_ascii c in (65 <=? n)%nat && (n <=? 90)%nat.

Definition lower_char (c : ascii) : ascii :=
  if is_upper c then ascii_of_nat (nat_of_ascii c + 32) else c.

(** [s.lower()] *)
Fixpoint lower (s : string) : string :=
  match s with
  | EmptyString => EmptyString
  | String c t => String (lower_char c) (lower t)
  end.

(** The characters [str.strip] and [str.split] treat as white space. *)
Definition is_space (c : ascii) : bool :=
  let n := nat_of_ascii c in
  ((9 <=? n)%nat && (n <=? 13)%nat)
  || ((28 <=? n)%nat && (n <=? 32)%nat).

Fixpoint lstrip (s : string) : string :=
  match s with
  | EmptyString => EmptyString
  | String c t => if is_space c then lstrip t else s
  end.

Fixpoint rstrip (s : string) : string :=
  match s with
  | EmptyString => EmptyString
  | String c t =>
      match rstrip t with
      | EmptyString => if is_space c then EmptyString else String c EmptyString
      | t' => String c t'
      end
  end.

(** [s.strip()] *)
Definition strip (s : string) : string := rstrip (lstrip s).

(** [s.split()]: the maximal runs of characters that are not white
    space.  [cur] is the run being read, reversed. *)
Fixpoint rev_string (acc s : string) : string :=
  match s with
  | EmptyString => acc
  | String c t => rev_string (String c acc) t
  end.

Definition flush (cur : string) (out : list string) : list string :=
  match cur with
  | EmptyString => out
  | _ => rev_string EmptyString cur :: out
  end.

Fixpoint split_go (cur : string) (s : string) : list string :=
  match s with
  | EmptyString => flush cur []
  | String c t =>
      if is_space c then flush cur (split_go EmptyString t)
      else split_go (String c cur) t
  end.

Definition split (s : string) : list string := split_go EmptyString s.

(** [sub in s] *)
Fixpoint contains (sub s : string) : bool :=
  prefix sub s
  || match s with
     | EmptyString => false
     | String _ t => contains sub t
     end.

(** [s.endswith(suf)] *)
Definition endswith (s suf : string) : bool :=
  prefix (rev_string EmptyString suf) (rev_string EmptyString s).

(** [s[:n]] *)
Fixpoint take (n : nat) (s : string) : string :=
  match n, s with
  | O, _ => EmptyString
  | _, EmptyString => EmptyString
  | S n', String c t => String c (take n' t)
  end.

(** [x in l] for a list of strings *)
Definition mem (x : string) (l : list string) : bool :=
  existsb (String.eqb x) l.

(** Truth value of a string: [if s:] *)
Definition truthy (s : string) : bool :=
  match s with
  | EmptyString => false
  | _ => true
  end.

(** [sep.join(l)] *)
Definition join (sep : string) (l : list string) : string :=
  String.concat sep l.

(** [str(n)] and [f"{n}"] for a non-negative integer *)
Definition of_nat (n : nat) : string :=
  NilEmpty.string_of_uint (Nat.to_uint n).

Definition of_Z (z : Z) : string :=
  match z with
  | Zneg p => "-" ++ of_nat (Pos.to_nat p)
  | _ => of_nat (Z.to_nat z)
  end.

(** [s.startswith(p)] *)
Definition startswith (s p : string) : bool := prefix p s.

(** [s.split(sep)] for a one-character separator: the pieces between the
    separators, empty ones included.  [cur] is the piece being read,
    reversed. *)
Fixpoint split_on_go (sep : ascii) (cur : string) (s : string)
  : list string :=
  match s with
  | EmptyString => [rev_string EmptyString cur]
  | String c t =>
      if Ascii.eqb c sep
      then rev_string EmptyString cur :: split_on_go sep EmptyString t
      else split_on_go sep (String c cur) t
  end.

Definition split_on (sep : ascii) (s : string) : list string :=
  split_on_go sep EmptyString s.

End PyStr.

(** ** Comparisons of scores *)

(** [x < y] and [x <= y] as tests *)
Definition Qltb (x y : Q) : bool := negb (Qle_bool y x).
Definition Qleb (x y : Q) : bool := Qle_bool x y.

(** [min(l)] and [max(l)] of a non-empty list, given as head and tail *)
Definition Qlist_min (x : Q) (l : list Q) : Q := fold_left Qmin l x.
Definition Qlist_max (x : Q) (l : list Q) : Q := fold_left Qmax l x.

(** ** Rounding and number formatting *)

(** Round to the nearest integer, ties to the even one: the rounding of
    [round] and of the [f] format. *)
Definition round_half_even (q : Q) : Z :=
  let f := Qfloor q in
  let r := q - inject_Z f in
  match Qcompare r (1 # 2) with
  | Lt => f
  | Gt => (f + 1)%Z
  | Eq => if Z.even f then f else (f + 1)%Z
  end.

(** [round(x, 1)] *)
Definition round1 (x : Q) : Q := inject_Z (round_half_even (x * 10)) / 10.

(** [round(x, 2)] *)
Definition round2 (x : Q) : Q := inject_Z (round_half_even (x * 100)) / 100.

(** [f"{x:.0f}"] *)
Definition format_0f (x : Q) : string :=
  if Qltb x 0
  then "-" ++ PyStr.of_Z (round_half_even (- x))
  else PyStr.of_Z (round_half_even x).

(** [f"{x:.1f}"] *)
Definition format_1f (x : Q) : string :=
  let t := round_half_even (Qabs x * 10) in
  (if Qltb x 0 then "-" else "")
  ++ PyStr.of_Z (t / 10) ++ "." ++ PyStr.of_Z (t mod 10).

(** [len(l)] as a score *)
Definition Qlen {A : Type} (l : list A) : Q :=
  inject_Z (Z.of_nat (List.length l)).

(** ** Dictionaries *)

Module Dict.

Definition t (V : Type) : Type := list (string * V).

(** [d.get(k)] *)
Fixpoint get {V : Type} (d : t V) (k : string) : option V :=
  match d with
  | [] => None
  | (k', v) :: d' => if String.eqb k k' then Some v else get d' k
  end.

(** [d.get(k, dflt)] *)
Definition get_default {V : Type} (d : t V) (k : string) (dflt : V) : V :=
  match get d k with
  | Some v => v
  | None => dflt
  end.

(** [d[k] = v]: an existing key keeps its place, a new one goes last. *)
Fixpoint set {V : Type} (d : t V) (k : string) (v : V) : t V :=
  match d with
  | [] => [(k, v)]
  | (k', v') :: d' =>
      if String.eqb k k' then (k', v) :: d' else (k', v') :: set d' k v
  end.

(** [d.values()] *)
Definition values {V : Type} (d : t V) : list V := map snd d.

End Dict.

(** ** Dates *)

(** A [datetime]: year, month, day, the time of day (in microseconds) and
    the offset from UTC of its [tzinfo] (in microseconds), [None] for a
    naive datetime.  Only the year and the month enter the month
    arithmetic; all fields take part in comparisons. *)
Record datetime : Type := mk_datetime {
  year : Z;
  month : Z;
  day : Z;
  time_of_day : Z;
  utcoffset : option Z
}.

Definition is_aware (d : datetime) : bool :=
  match utcoffset d with
  | Some _ => true
  | None => false
  end.

(** The date and time of [d] without a time zone, as [datetime.now()]
    gives them. *)
Definition naive (d : datetime) : datetime :=
  {| year := year d;
     month := month d;
     day := day d;
     time_of_day := time_of_day d;
     utcoffset := None |}.

(** The order of the date and time fields: lexicographic. *)
Definition dt_ltb (a b : datetime) : bool :=
  (year a <? year b)%Z
  || ((year a =? year b)%Z
      && ((month a <? month b)%Z
          || ((month a =? month b)%Z
              && ((day a <? day b)%Z
                  || ((day a =? day b)%Z
                      && (time_of_day a <? time_of_day b)%Z))))).

(** [datetime.toordinal()]: the day number in the proleptic Gregorian
    calendar. *)
Definition is_leap (y : Z) : bool :=
  (y mod 4 =? 0)%Z && (negb (y mod 100 =? 0)%Z || (y mod 400 =? 0)%Z).

Definition days_before_year (y : Z) : Z :=
  let p := (y - 1)%Z in (p * 365 + p / 4 - p / 100 + p / 400)%Z.

Definition days_before_month (y m : Z) : Z :=
  (nth (Z.to_nat (m - 1))
       [0; 31; 59; 90; 120; 151; 181; 212; 243; 273; 304; 334]%Z 0
   + (if (2 <? m)%Z && is_leap y then 1 else 0))%Z.

Definition toordinal (d : datetime) : Z :=
  (days_before_year (year d) + days_before_month (year d) (month d)
   + day d)%Z.

(** The instant of an aware datetime with offset [offset]: microseconds
    on the UTC time line. *)
Definition utc_instant (d : datetime) (offset : Z) : Z :=
  (toordinal d * 86400000000 + time_of_day d - offset)%Z.

(** [a < b] on [datetime] values.  Two naive datetimes are compared by
    their fields and two aware ones by their UTC instants (for equal
    offsets that is the order of the fields); comparing a naive with an
    aware datetime raises [TypeError]. *)
Definition dt_lt (a b : datetime) : result bool :=
  match utcoffset a, utcoffset b with
  | None, None => Ok (dt_ltb a b)
  | Some offset_a, Some offset_b =>
      Ok (utc_instant a offset_a <? utc_instant b offset_b)%Z
  | _, _ => Raise TypeError
  end.

(** [(b.year - a.year) * 12 + (b.month - a.month)] *)
Definition months_between (a b : datetime) : Z :=
  ((year b - year a) * 12 + (month b - month a))%Z.

(** ** The candidate's work history *)

(** One entry of [work_history].  Every field is read with
    [job.get(key, '')], so a missing key is the empty string. *)
Record job : Type := mk_job {
  title : string;
  company : string;
  start_date : string;
  end_date : string
}.

(** [parsed_data]: the structured output of the entity extractor, with the
    defaults of [parsed_data.get]. *)
Record parsed : Type := mk_parsed {
  skills : list string;
  work_history : list job;
  experience_text : string;
  contact_text : string;
  experience_bullets : list string
}.

(** ** What the pipeline takes from outside the repository *)

Record Externals : Type := mk_externals {
  (** [datetime.now()], one reading for the whole call; the source reads
      it without a time zone ([naive]) *)
  datetime_now : datetime;
  (** [dateutil.parser.parse(s, fuzzy=True)]; [None] when it raises.  The
      datetime is aware when the string names a time zone or an offset,
      naive otherwise *)
  parser_parse : string -> option datetime;
  (** [re.match(pattern, s)] is a match *)
  re_match : string -> string -> bool;
  (** [len(re.findall(pattern, s))], the flag is [re.IGNORECASE] *)
  re_findall_len : string -> bool -> string -> nat;
  (** fitz: per page read, whether [find_tables()] and [get_images()] are
      non-empty; the list stops where the scan raised *)
  fitz_pages : string -> list (bool * bool);
  (** python-docx: [len(doc.tables)] and the number of pictures; the outer
      [None] when the document cannot be opened, the inner one when
      counting the pictures raises *)
  docx_tables_images : string -> option (nat * option nat);
  (** the font names (a set) and the font sizes of the spans of a PDF;
      [None] when the scan raises *)
  fitz_fonts : string -> option (list string * list Q);
  (** the same for the runs of a DOCX *)
  docx_fonts : string -> option (list string * list Q);
  (** [textstat.flesch_reading_ease]; [None] when it raises *)
  flesch_reading_ease : string -> option Q;
  (** [len(matcher(nlp(text)))]; [None] when spaCy is not loaded or raises *)
  spacy_match_count : string -> option nat;
  (** terms of the JD with a positive TF-IDF weight, by decreasing weight
      ([jd_terms] of check 9, fitted on the JD and the resume); [None]
      when scikit-learn raises *)
  tfidf_jd_terms : string -> string -> option (list string);
  (** the top-10 TF-IDF terms of the JD alone ([critical_terms] of check
      11); [None] when scikit-learn raises *)
  tfidf_critical_terms : string -> option (list string);
  (** whether the knowledge base singleton is available ([self.kb]) *)
  kb_loaded : bool;
  (** cosine similarity of the sentence embeddings of two texts; [None]
      when encoding raises *)
  embedding_similarity : string -> string -> option Q;
  (** [kb.search(query, type_filter='skill', top_k=k)]: labels and scores;
      [None] when it raises *)
  kb_search : string -> nat -> option (list (string * Q));
  (** [SequenceMatcher(None, a, b).ratio()] *)
  sequence_ratio : string -> string -> Q
}.

(** ** Phase 3: experience and chronology ([experience_checker.py]) *)

Module ExperienceChecker.
Section WithExternals.
Variable E : Externals.

Definition DATE_PATTERNS : list string :=
  [ "^\d{2}/\d{4}$"; "^\w{3} \d{4}$"; "^\w+ \d{4}$"; "^\d{4}$" ].

(** [_parse_date]: "present" and the empty string are now, a naive
    datetime; a string dateutil cannot read is [None].  What dateutil
    reads is aware when the string names a time zone. *)
Definition _parse_date (date_str : string) : option datetime :=
  if negb (PyStr.truthy date_str)
     || String.eqb (PyStr.lower date_str) "present"
  then Some (naive (datetime_now E))
  else parser_parse E date_str.

(** [check_date_consistency]: check 6, 5 points *)
Definition check_date_consistency (wh : list job) : Q * list string :=
  match wh with
  | [] => (5, [])
  | _ =>
      let date_strings :=
        flat_map (fun j =>
          ((if PyStr.truthy (start_date j) then [start_date j] else [])
           ++ (if PyStr.truthy (end_date j) then [end_date j] else []))%list)
          wh in
      match date_strings with
      | [] => (5, [])
      | d0 :: rest =>
          match find (fun p => re_match E p d0) DATE_PATTERNS with
          | Some first_pattern =>
              let inconsistent :=
                filter (fun d => negb (re_match E first_pattern d)) rest in
              match inconsistent with
              | [] => (Qmax 0 5, [])
              | _ => (Qmax 0 (5 - 3),
                      ["Inconsistent date formatting - use same format throughout"])
              end
          | None => (Qmax 0 5, [])
          end
      end
  end.

(** [sorted(work_history, key=...)].  The key of a job is its parsed
    start date.  [sorted] compares keys with [<]; a key that is [None]
    cannot be compared (with a [datetime] or with [None]), and in a list
    of two or more every key is compared at least once, so one [None]
    key makes [sorted] raise [TypeError].  The comparisons of datetime
    keys are those of [dt_lt]: the first one between a naive and an
    aware key raises [TypeError] too.  Otherwise the sort is the stable
    one. *)
Fixpoint decorate (wh : list job) : option (list (datetime * job)) :=
  match wh with
  | [] => Some []
  | j :: wh' =>
      match _parse_date (start_date j), decorate wh' with
      | Some k, Some l => Some ((k, j) :: l)
      | _, _ => None
      end
  end.

Fixpoint insert_by_key (x : datetime * job) (l : list (datetime * job))
  : result (list (datetime * job)) :=
  match l with
  | [] => Ok [x]
  | y :: l' =>
      y_before_x <- dt_lt (fst y) (fst x) ;;
      if y_before_x : bool
      then (rest <- insert_by_key x l' ;; Ok (y :: rest))
      else Ok (x :: l)
  end.

Fixpoint sort_by_key (l : list (datetime * job))
  : result (list (datetime * job)) :=
  match l with
  | [] => Ok []
  | x :: l' => (sorted_rest <- sort_by_key l' ;; insert_by_key x sorted_rest)
  end.

Definition sorted_by_start (wh : list job) : result (list job) :=
  match decorate wh with
  | Some l => (sorted_keys <- sort_by_key l ;; Ok (map snd sorted_keys))
  | None => Raise TypeError
  end.

(** The loop over [range(len(sorted_history) - 1)]: the gaps longer than
    six months between the end of a job and the start of the next. *)
Fixpoint collect_gaps (sorted_history : list job) : list Z :=
  match sorted_history with
  | a :: (b :: _) as rest =>
      match _parse_date (end_date a), _parse_date (start_date b) with
      | Some end_dt, Some next_start =>
          let gap_months := months_between end_dt next_start in
          if (6 <? gap_months)%Z
          then gap_months :: collect_gaps rest
          else collect_gaps rest
      | _, _ => collect_gaps rest
      end
  | _ => []
  end.

Definition gaps_feedback (n : nat) : string :=
  PyStr.of_nat n ++ " employment gap(s) > 6 months detected".

(** [check_employment_gaps]: check 7, 10 points *)
Definition check_employment_gaps (wh : list job)
  : result (Q * list string) :=
  if (List.length wh <? 2)%nat then Ok (10, [])
  else
    sorted_history <- sorted_by_start wh ;;
    let gaps := collect_gaps sorted_history in
    match gaps with
    | [] => Ok (Qmax 0 10, [])
    | _ =>
        Ok (Qmax 0 (10 - Qmin 10 (Qlen gaps * 3)),
            [gaps_feedback (List.length gaps)])
    end.

(** [_calculate_total_years] *)
Definition total_months (wh : list job) : Z :=
  fold_left (fun acc j =>
    match _parse_date (start_date j), _parse_date (end_date j) with
    | Some s, Some e => (acc + Z.max 0 (months_between s e))%Z
    | _, _ => acc
    end) wh 0%Z.

Definition _calculate_total_years (wh : list job) : Q :=
  inject_Z (total_months wh) / 12.

(** The dictionary [companies]: for each non-empty company name, the
    titles held there, in the order of the history. *)
Definition companies_of (wh : list job) : Dict.t (list string) :=
  fold_left (fun d j =>
    if PyStr.truthy (company j)
    then Dict.set d (company j)
           (Dict.get_default d (company j) [] ++ [title j])%list
    else d) wh [].

Definition promotions_of (wh : list job) : nat :=
  List.length
    (filter (fun titles => (1 <? List.length titles)%nat)
            (Dict.values (companies_of wh))).

Definition seniority_keywords : list string :=
  [ "junior"; "senior"; "lead"; "principal"; "manager"; "director" ].

Definition has_progression (wh : list job) : bool :=
  existsb (fun t => existsb (fun kw => PyStr.contains kw t) seniority_keywords)
          (map (fun j => PyStr.lower (title j)) wh).

(** [check_career_progression]: check 8, 5 points *)
Definition check_career_progression (wh : list job) : Q * list string :=
  match wh with
  | [] => (0, ["No work experience listed"])
  | _ =>
      let total_years := _calculate_total_years wh in
      let '(score1, fb1) :=
        if Qltb total_years 2
        then (5 - 2,
              ["Limited experience (" ++ format_1f total_years ++ " years)"])
        else (5, []) in
      let promotions := promotions_of wh in
      let '(score2, fb2) :=
        if (0 <? promotions)%nat
        then (score1 + 2,
              (fb1 ++ [("Career progression: " ++ PyStr.of_nat promotions
                        ++ " promotion(s) detected")%string])%list)
        else (score1, fb1) in
      let '(score3, fb3) :=
        if negb (has_progression wh) && (2 <? List.length wh)%nat
        then (score2 - 1,
              (fb2 ++ ["No clear seniority progression in titles"])%list)
        else (score2, fb2) in
      (Qmin 10 (Qmax 0 score3), fb3)
  end.

End WithExternals.
End ExperienceChecker.

(** ** Phase 1: formatting ([formatting_checker.py]) *)

Module FormattingChecker.
Section WithExternals.
Variable E : Externals.

Definition STANDARD_FONTS : list string :=
  [ "Arial"; "Calibri"; "Times New Roman"; "Helvetica"; "Georgia" ].

(** [_check_pdf_layout]: five points off for every page with tables and
    for every page with images. *)
Definition _check_pdf_layout (file_path : string) : Q * list string :=
  fold_left (fun '(score, feedback) '(tables, images) =>
    let '(score, feedback) :=
      if (tables : bool)
      then (score - 5,
            (feedback ++ ["Tables detected - may break ATS parsers"])%list)
      else (score, feedback) in
    if (images : bool)
    then (score - 5,
          (feedback
           ++ ["Images/graphics detected - avoid visual elements"])%list)
    else (score, feedback))
    (fitz_pages E file_path) (0, []).

(** [_check_docx_layout] *)
Definition _check_docx_layout (file_path : string) : Q * list string :=
  match docx_tables_images E file_path with
  | None => (0, [])
  | Some (tables, images) =>
      let '(score, feedback) :=
        if (0 <? tables)%nat
        then (0 - 5,
              [PyStr.of_nat tables
               ++ " tables found - use simple formatting"])
        else (0, []) in
      match images with
      | None => (score, feedback)
      | Some image_count =>
          if (0 <? image_count)%nat
          then (score - 5,
                (feedback ++ ["Images detected - remove visual elements"])%list)
          else (score, feedback)
      end
  end.

(** [check_file_layout]: check 1, 20 points *)
Definition check_file_layout (file_path : string) : Q * list string :=
  let '(score, feedback) :=
    if PyStr.endswith file_path ".pdf" then
      let '(score_delta, msgs) := _check_pdf_layout file_path in
      (20 + score_delta, msgs)
    else if PyStr.endswith file_path ".docx" then
      let '(score_delta, msgs) := _check_docx_layout file_path in
      (20 + score_delta, msgs)
    else if PyStr.endswith file_path ".txt" then
      (20 - 10, ["TXT format lacks formatting - use PDF or DOCX"])
    else (20, []) in
  (Qmax 0 score, feedback).

(** The font-size test shared by the two font checks: some size within
    9..13 exists, and the smallest is under 10 or the largest over 12. *)
Definition body_size_issue (sizes : list Q) : bool :=
  match filter (fun s => Qleb 9 s && Qleb s 13) sizes with
  | [] => false
  | s :: body_sizes =>
      Qltb (Qlist_min s body_sizes) 10 || Qltb 12 (Qlist_max s body_sizes)
  end.

(** The three font penalties; [too_many] and [use_standard] and
    [use_size] are the messages of the file type. *)
Definition font_penalties (fonts : list string) (non_standard : list string)
    (sizes : list Q) (too_many use_standard use_size : string)
  : Q * list string :=
  let '(score, feedback) :=
    if (3 <? List.length fonts)%nat
    then (0 - 3, ["Too many fonts (" ++ PyStr.of_nat (List.length fonts)
                  ++ too_many])
    else (0, []) in
  let '(score, feedback) :=
    match non_standard with
    | [] => (score, feedback)
    | _ => (score - 2, (feedback ++ [use_standard])%list)
    end in
  if body_size_issue sizes
  then (score - 2, (feedback ++ [use_size])%list)
  else (score, feedback).

(** [_check_pdf_fonts]: a font is standard when its name contains a
    standard name. *)
Definition _check_pdf_fonts (file_path : string) : Q * list string :=
  match fitz_fonts E file_path with
  | None => (0, [])
  | Some (fonts, sizes) =>
      font_penalties fonts
        (filter (fun f =>
           negb (existsb (fun sf => PyStr.contains sf f) STANDARD_FONTS))
           fonts)
        sizes
        ") - use 1-2 standard fonts"
        "Use standard fonts (Arial, Calibri, Times New Roman)"
        "Use 10-12pt font for body text"
  end.

(** [_check_docx_fonts]: a font is standard when its name is a standard
    name. *)
Definition _check_docx_fonts (file_path : string) : Q * list string :=
  match docx_fonts E file_path with
  | None => (0, [])
  | Some (fonts, sizes) =>
      font_penalties fonts
        (filter (fun f => negb (PyStr.mem f STANDARD_FONTS)) fonts)
        sizes
        ") - simplify formatting"
        "Use standard fonts"
        "Use 10-12pt font size"
  end.

(** [check_font_consistency]: check 2, 10 points *)
Definition check_font_consistency (file_path : string) : Q * list string :=
  let '(score, feedback) :=
    if PyStr.endswith file_path ".pdf" then
      let '(score_delta, msgs) := _check_pdf_fonts file_path in
      (10 + score_delta, msgs)
    else if PyStr.endswith file_path ".docx" then
      let '(score_delta, msgs) := _check_docx_fonts file_path in
      (10 + score_delta, msgs)
    else (10, []) in
  (Qmax 0 score, feedback).

End WithExternals.
End FormattingChecker.

(** ** Phase 2: readability ([readability_checker.py]) *)

Module ReadabilityChecker.
Section WithExternals.
Variable E : Externals.

Definition ACTION_VERBS : list string :=
  [ "led"; "managed"; "developed"; "created"; "implemented"; "designed";
    "built"; "launched"; "increased"; "improved"; "reduced"; "achieved";
    "delivered"; "executed"; "established"; "optimized"; "streamlined";
    "coordinated"; "directed"; "spearheaded"; "initiated"; "drove" ].

(** A set in the source; its iteration order (which decides the two
    buzzwords quoted in the feedback) is taken to be the written one. *)
Definition BUZZWORDS : list string :=
  [ "team player"; "hardworking"; "go-getter"; "synergy"; "leverage";
    "think outside the box"; "results-driven"; "detail-oriented";
    "self-starter"; "motivated"; "passionate"; "dynamic" ].

(** [check_readability]: check 4, 10 points *)
Definition check_readability (text : string) : Q * list string :=
  match flesch_reading_ease E text with
  | Some flesch_score =>
      if Qleb 60 flesch_score && Qleb flesch_score 80 then (10, [])
      else if Qltb flesch_score 60
      then (6, ["Consider simplifying complex sentences"])
      else if Qltb 80 flesch_score then (8, [])
      else (7, [])
  | None => (7, [])
  end.

(** The first word of a bullet, lower-cased; empty for a blank bullet. *)
Definition first_word (bullet : string) : string :=
  match PyStr.split (PyStr.strip bullet) with
  | w :: _ => PyStr.lower w
  | [] => ""
  end.

(** [check_professional_language]: check 5, 10 points *)
Definition check_professional_language (text : string)
    (experience_bullets : list string) : Q * list string :=
  let '(score, feedback) :=
    match experience_bullets with
    | [] => (7, [])
    | _ =>
        let action_verb_count :=
          filter (fun b => PyStr.mem (first_word b) ACTION_VERBS)
                 experience_bullets in
        let action_verb_pct :=
          Qlen action_verb_count / Qlen experience_bullets in
        if Qleb 0.8 action_verb_pct then (10, [])
        else if Qleb 0.5 action_verb_pct then (8, [])
        else if Qleb 0.3 action_verb_pct then (7, [])
        else (6, ["Use more action verbs (currently "
                  ++ format_0f (action_verb_pct * 100) ++ "%)"])
    end in
  let text_lower := PyStr.lower text in
  let found_buzzwords :=
    filter (fun bw => PyStr.contains bw text_lower) BUZZWORDS in
  let '(score, feedback) :=
    if (3 <? List.length found_buzzwords)%nat
    then (score - 1,
          (feedback ++ [("Reduce buzzwords: "
                         ++ PyStr.join ", " (firstn 2 found_buzzwords))%string])%list)
    else (score, feedback) in
  (Qmax 0 score, feedback).

End WithExternals.
End ReadabilityChecker.

(** ** Phase 5: impact and online presence ([impact_checker.py]) *)

Module ImpactChecker.
Section WithExternals.
Variable E : Externals.

Definition experience_words : list string :=
  [ "developed"; "created"; "implemented"; "managed"; "led"; "designed";
    "built"; "worked"; "responsible" ].

(** [check_quantified_achievements]: check 12, 10 points *)
Definition check_quantified_achievements (experience_text : string)
  : Q * list string :=
  if negb (PyStr.truthy experience_text)
  then (0, ["No experience section to analyze"])
  else
    let metrics_found :=
      (re_findall_len E "\d+%" false experience_text
       + re_findall_len E "\$\d+[KMB]?" true experience_text
       + re_findall_len E
           "\d+\+?\s+(users|customers|clients|employees|projects)"
           true experience_text
       + match spacy_match_count E (PyStr.take 5000 experience_text) with
         | Some n => n
         | None => 0
         end)%nat in
    let has_experience :=
      (100 <? String.length experience_text)%nat
      && existsb (fun word =>
                    PyStr.contains word (PyStr.lower experience_text))
                 experience_words in
    let score :=
      if (5 <=? metrics_found)%nat then 10
      else if (3 <=? metrics_found)%nat then 8
      else if (1 <=? metrics_found)%nat then 6
      else if has_experience then 5
      else 0 in
    let feedback :=
      if (metrics_found =? 0)%nat
      then ["Add quantified achievements (%, $, numbers)"]
      else if (metrics_found <? 3)%nat
      then [PyStr.of_nat metrics_found
            ++ " metric(s) found - add more for stronger impact"]
      else ["Strong quantification: " ++ PyStr.of_nat metrics_found
            ++ " metrics found"] in
    (score, feedback).

(** [check_online_presence]: check 13, 5 points.  The three patterns
    searched are literal, so [re.search] is a substring test. *)
Definition check_online_presence (contact_text : string)
  : Q * list string :=
  if negb (PyStr.truthy contact_text) then (0, [])
  else
    let contact_lower := PyStr.lower contact_text in
    let '(score, feedback) :=
      if PyStr.contains "linkedin.com" contact_lower
      then (0 + 2, ["LinkedIn profile included"])
      else (0, ["Add LinkedIn profile URL"]) in
    if PyStr.contains "github.com" contact_lower
    then (score + 3, (feedback ++ ["GitHub profile included"])%list)
    else if PyStr.contains "portfolio" contact_lower
            || PyStr.contains "website" contact_lower
            || PyStr.contains "blog" contact_lower
    then (score + 2, (feedback ++ ["Portfolio/website included"])%list)
    else (score,
          (feedback ++ ["Consider adding GitHub or portfolio link"])%list).

End WithExternals.
End ImpactChecker.

(** ** The lighter pattern-based variant ([ml_core/experience_parser.py]) *)

Module ExperienceParser.
Section WithExternals.
Variable E : Externals.

Definition patterns : list string :=
  [ "\b\d+%";
    "\$\d+[KMB]?";
    "\b\d+\s*(increase|reduction|growth|improvement|saved|generated)";
    "\b\d+\s*(users|customers|clients|projects)";
    "\b\d+x\b" ].

(** [quantify_impact]: a score out of 100 *)
Definition quantify_impact (text : string) : Q :=
  if negb (PyStr.truthy text) then 0
  else
    let matches :=
      fold_left (fun acc pattern =>
                   (acc + re_findall_len E pattern true text)%nat)
                patterns 0%nat in
    if (5 <=? matches)%nat then 100
    else if (3 <=? matches)%nat then 75
    else if (1 <=? matches)%nat then 50
    else 0.

Definition junior_keywords : list string :=
  [ "junior"; "associate"; "intern"; "trainee"; "entry" ].
Definition mid_keywords : list string :=
  [ "developer"; "engineer"; "analyst"; "consultant" ].
Definition senior_keywords : list string :=
  [ "senior"; "lead"; "principal"; "architect"; "manager"; "director";
    "head" ].

Definition level_of (exp : job) : Z :=
  let t := PyStr.lower (title exp) in
  if existsb (fun k => PyStr.contains k t) senior_keywords then 3
  else if existsb (fun k => PyStr.contains k t) mid_keywords then 2
  else if existsb (fun k => PyStr.contains k t) junior_keywords then 1
  else 2.

(** [detect_progression]: a score out of 100 *)
Definition detect_progression (experience_blocks : list job) : Q :=
  if (List.length experience_blocks <? 2)%nat then 0
  else
    let levels := map level_of experience_blocks in
    let first := hd 0%Z levels in
    let last := List.last levels 0%Z in
    if (first <? last)%Z then 80
    else if (last =? first)%Z
            && (first <? fold_left Z.max levels first)%Z then 60
    else if forallb (fun l => (l =? first)%Z) levels then 40
    else 20.

(** [enhance_impact_score]: the pair of the dictionary's two entries,
    ['quantified_impact'] and ['career_progression'] *)
Definition enhance_impact_score (text : string)
    (experience_blocks : list job) : Q * Q :=
  (quantify_impact text, detect_progression experience_blocks).

End WithExternals.
End ExperienceParser.

(** ** Phase 4: alignment with the job description
       ([jd_alignment_checker.py]) *)

(** The dictionary [skill_details] of check 9; its six keys are fixed. *)
Record skill_details : Type := mk_skill_details {
  matched : list string;
  missing : list string;
  matched_technical : list string;
  matched_soft : list string;
  missing_technical : list string;
  missing_soft : list string
}.

Definition empty_skill_details : skill_details :=
  mk_skill_details [] [] [] [] [] [].

Module JDAlignmentChecker.
Section WithExternals.
Variable E : Externals.

Definition GENERIC : list string :=
  [ "using"; "experience"; "knowledge"; "ability"; "working";
    "understanding"; "strong"; "good"; "excellent"; "proficient";
    "familiar"; "expertise"; "background"; "years"; "work"; "team";
    "teams"; "business"; "performance"; "support"; "applications";
    "services"; "quality"; "technical"; "skills"; "required"; "preferred";
    "must"; "should"; "will"; "can"; "able"; "including"; "related";
    "relevant"; "various"; "multiple"; "several"; "different"; "new";
    "current"; "existing"; "future"; "based"; "driven"; "focused";
    "oriented"; "data"; "tools"; "technologies"; "systems"; "solutions";
    "processes"; "projects"; "development"; "design"; "implementation";
    "integration"; "testing"; "deployment"; "maintenance"; "documentation";
    "requirements"; "analysis"; "reporting"; "monitoring" ].

Definition SOFT_SKILLS : list string :=
  [ "leadership"; "communication"; "teamwork"; "collaboration";
    "mentoring"; "management"; "planning"; "organization";
    "problem solving"; "critical thinking"; "adaptability"; "creativity";
    "presentation"; "negotiation"; "decision making"; "strategic thinking";
    "analytical thinking"; "interpersonal"; "emotional intelligence" ].

Definition tech_patterns : list string :=
  [ "sql"; "python"; "java"; "javascript"; "react"; "angular"; "node";
    "aws"; "azure"; "docker"; "kubernetes"; "api"; "server"; "cloud";
    ".net"; "c#"; "typescript"; "html"; "css"; "rest"; "graphql";
    "mongodb"; "postgresql"; "redis"; "kafka"; "spark"; "hadoop";
    "tableau"; "power bi"; "powerbi"; "excel"; "git"; "jenkins";
    "terraform"; "ansible"; "framework"; "library"; "devops"; "ml"; "ai";
    "etl"; "warehouse"; "pipeline"; "mvc"; "orm"; "wcf"; "nunit"; "entity";
    "linq"; "razor"; "blazor"; "xamarin"; "ssas"; "ssis"; "ssrs"; "olap";
    "oltp"; "dax"; "mdx"; "cube"; "qlikview"; "looker"; "microstrategy";
    "cognos"; "sap"; "oracle"; "mysql"; "nosql"; "snowflake"; "redshift";
    "bigquery"; "databricks"; "airflow"; "talend"; "informatica";
    "pentaho"; "alteryx"; "knime"; "rapidminer"; "spss"; "sas"; "stata";
    "matlab"; "scala"; "golang"; "ruby"; "php"; "swift"; "kotlin"; "rust";
    "vue"; "svelte"; "django"; "flask"; "spring"; "express"; "fastapi";
    "graphql"; "grpc"; "rabbitmq"; "elasticsearch"; "solr"; "neo4j";
    "cassandra"; "dynamodb"; "firebase"; "supabase"; "vercel"; "netlify";
    "heroku"; "digitalocean"; "gcp"; "ibm"; "salesforce"; "servicenow";
    "jira"; "confluence"; "slack"; "teams"; "zoom"; "webex"; "miro";
    "figma"; "sketch"; "adobe"; "photoshop"; "illustrator"; "xd";
    "invision"; "zeplin"; "abstract"; "framer"; "principle"; "origami";
    "flinto"; "proto"; "marvel"; "balsamiq"; "axure"; "justinmind";
    "mockplus"; "uxpin"; "craft"; "avocode"; "sympli"; "measure" ].

Definition common_words : list string :=
  [ "the"; "and"; "for"; "with"; "from"; "this"; "that"; "have"; "has";
    "had"; "will"; "would"; "could"; "should" ].

Definition is_soft_skill (term : string) : bool :=
  existsb (fun soft => PyStr.contains soft (PyStr.lower term)) SOFT_SKILLS.

Definition first_isupper (term : string) : bool :=
  match term with
  | String c _ => PyStr.is_upper c
  | EmptyString => false
  end.

Definition is_valid_tech (term : string) : bool :=
  if (String.length term <? 2)%nat
     || PyStr.mem (PyStr.lower term) GENERIC
     || is_soft_skill term
  then false
  else
    existsb (fun pat => PyStr.contains pat (PyStr.lower term)) tech_patterns
    || (first_isupper term
        && (2 <? String.length term)%nat
        && negb (PyStr.mem (PyStr.lower term) common_words)).

(** [check_keyword_alignment]: check 9, 15 points *)
Definition check_keyword_alignment (resume_text jd_text : string)
  : Q * list string * skill_details :=
  if negb (PyStr.truthy jd_text) || negb (PyStr.truthy resume_text)
  then (15, [], empty_skill_details)
  else
    match tfidf_jd_terms E jd_text resume_text with
    | None => (7.5, [], empty_skill_details)
    | Some jd_terms =>
        let resume_lower := PyStr.lower resume_text in
        let in_resume t := PyStr.contains (PyStr.lower t) resume_lower in
        let matched := filter in_resume jd_terms in
        let missing := filter (fun t => negb (in_resume t)) jd_terms in
        let matched_tech := firstn 15 (filter is_valid_tech matched) in
        let matched_soft := firstn 10 (filter is_soft_skill matched) in
        let missing_tech := firstn 10 (filter is_valid_tech missing) in
        let missing_soft := firstn 5 (filter is_soft_skill missing) in
        let details :=
          mk_skill_details (firstn 15 matched) (firstn 10 missing)
            matched_tech matched_soft missing_tech missing_soft in
        let match_rate :=
          match jd_terms with
          | [] => 0
          | _ => Qlen matched / Qlen jd_terms
          end in
        let total_tech :=
          (List.length matched_tech + List.length missing_tech)%nat in
        let tech_match_rate :=
          if (0 <? total_tech)%nat
          then Qlen matched_tech / inject_Z (Z.of_nat total_tech)
          else 1 in
        if (3 <=? total_tech)%nat && Qltb tech_match_rate 0.4 then
          (match_rate * 15 * 0.2,
           ["CRITICAL MISMATCH: Only "
            ++ PyStr.of_nat (List.length matched_tech) ++ "/"
            ++ PyStr.of_nat total_tech ++ " technical skills matched"],
           details)
        else if (3 <=? total_tech)%nat && Qltb tech_match_rate 0.6 then
          (match_rate * 15 * 0.4,
           ["Major gap: Missing " ++ PyStr.of_nat (List.length missing_tech)
            ++ " key technical skills"],
           details)
        else if Qltb tech_match_rate 0.8 then
          (match_rate * 15 * 0.7,
           ["Missing " ++ PyStr.of_nat (List.length missing_tech)
            ++ " technical skills"],
           details)
        else
          (match_rate * 15,
           if Qleb 0.8 match_rate
           then ["Excellent match: "
                 ++ PyStr.of_nat (List.length matched_tech)
                 ++ " technical skills"]
           else [],
           details)
    end.

(** [check_skill_context]: check 10, 5 points *)
Definition check_skill_context (skills : list string)
    (experience_text : string) : Q * list string :=
  match skills with
  | [] => (0, ["No skills listed"])
  | _ =>
      let experience_lower := PyStr.lower experience_text in
      let contextual_skills :=
        filter (fun skill =>
          let skill_lower := PyStr.lower skill in
          PyStr.contains skill_lower experience_lower
          || existsb (fun word => PyStr.contains word experience_lower)
                     (PyStr.split skill_lower)) skills in
      let context_rate := Qlen contextual_skills / Qlen skills in
      let score :=
        if Qleb 0.7 context_rate then 5
        else if Qleb 0.5 context_rate then 4
        else if Qleb 0.3 context_rate then 3.5
        else 2.5 in
      let counts :=
        PyStr.of_nat (List.length contextual_skills) ++ "/"
        ++ PyStr.of_nat (List.length skills) in
      let feedback :=
        if Qltb context_rate 0.3
        then ["Only " ++ counts ++ " skills demonstrated in experience"]
        else if Qltb context_rate 0.6
        then ["Fair skill context: " ++ counts ++ " skills shown"]
        else ["Strong skill context: " ++ counts ++ " skills demonstrated"] in
      (score, feedback)
  end.

Definition MAX_TEXT_LENGTH : nat := 2000.

(** The second stage of [_kb_enhanced_semantic_fit]: the similarity of
    the embeddings, scaled by the rate of critical terms found. *)
Definition scaled_similarity (similarity critical_match_rate : Q)
  : Q * list string :=
  let score :=
    if Qleb 0.6 critical_match_rate
    then similarity * 20 * Qmin 1.2 (0.8 + critical_match_rate * 0.4)
    else if Qleb 0.35 critical_match_rate
    then similarity * 20 * Qmax 0.7 (critical_match_rate + 0.3)
    else similarity * 20 * 0.5 in
  let sem := format_0f (similarity * 100) in
  let kw := format_0f (critical_match_rate * 100) in
  let feedback :=
    if Qleb 0.65 similarity && Qleb 0.5 critical_match_rate
    then ["Strong match (" ++ sem ++ "% semantic, " ++ kw ++ "% keywords)"]
    else if Qleb 0.5 similarity && Qleb 0.35 critical_match_rate
    then ["Good match (" ++ sem ++ "% semantic, " ++ kw ++ "% keywords)"]
    else if Qltb critical_match_rate 0.3
    then ["Weak match (" ++ sem ++ "%) - wrong role fit"]
    else ["Moderate match (" ++ sem ++ "% semantic, " ++ kw
          ++ "% keywords)"] in
  (score, feedback).

Definition embedding_stage (resume_text jd_text : string)
    (critical_match_rate : Q) : Q * list string :=
  match embedding_similarity E (PyStr.take MAX_TEXT_LENGTH resume_text)
                               (PyStr.take MAX_TEXT_LENGTH jd_text) with
  | Some similarity => scaled_similarity similarity critical_match_rate
  | None => (5, ["Semantic analysis failed"])
  end.

(** [_kb_enhanced_semantic_fit] *)
Definition _kb_enhanced_semantic_fit (resume_text jd_text : string)
  : Q * list string :=
  let resume_lower := PyStr.lower resume_text in
  match tfidf_critical_terms E jd_text with
  | Some critical_terms =>
      let in_resume term := PyStr.contains (PyStr.lower term) resume_lower in
      let found_critical := filter in_resume critical_terms in
      let critical_match_rate :=
        match critical_terms with
        | [] => 0.5
        | _ => Qlen found_critical / Qlen critical_terms
        end in
      if Qltb critical_match_rate 0.25
      then
        let missing_terms :=
          filter (fun t => negb (in_resume t)) (firstn 5 critical_terms) in
        (0 + critical_match_rate * 10,
         ["Critical mismatch - missing: " ++ PyStr.join ", " missing_terms])
      else embedding_stage resume_text jd_text critical_match_rate
  | None => embedding_stage resume_text jd_text 0.5
  end.

(** [_direct_semantic_fit]; [None] when encoding raises *)
Definition _direct_semantic_fit (resume_text jd_text : string)
  : option (Q * list string) :=
  match embedding_similarity E (PyStr.take 2000 resume_text)
                               (PyStr.take 2000 jd_text) with
  | Some similarity =>
      Some (similarity * 20,
            if Qleb 0.7 similarity
            then ["Strong semantic match (" ++ format_0f (similarity * 100)
                  ++ "%)"]
            else if Qltb similarity 0.5
            then ["Low job-fit (" ++ format_0f (similarity * 100)
                  ++ "%) - tailor resume to JD"]
            else [])
  | None => None
  end.

(** [check_semantic_fit]: check 11, 20 points.  Both arguments are
    strings here, so the [isinstance] tests of the source hold. *)
Definition check_semantic_fit (resume_text jd_text : string)
  : Q * list string :=
  if negb (PyStr.truthy resume_text) then (0, ["Invalid resume text"])
  else if negb (PyStr.truthy jd_text) then (20, [])
  else if kb_loaded E then _kb_enhanced_semantic_fit resume_text jd_text
  else
    match _direct_semantic_fit resume_text jd_text with
    | Some r => r
    | None => (5, ["Semantic analysis failed"])
    end.

End WithExternals.
End JDAlignmentChecker.

(** ** The orchestrator ([perfect_analysis_engine.py]) *)

Inductive grade : Type :=
| GradeA
| GradeB
| GradeC
| GradeD
| GradeF.

(** The dictionary returned by [analyze].  [skill_match_details] is [None]
    for the empty dictionary returned when there is no JD. *)
Record analysis : Type := mk_analysis {
  final_score : Q;
  grade_of : grade;
  breakdown : Dict.t Q;
  feedback : list string;
  total_checks : nat;
  skill_match_details : option skill_details
}.

Module PerfectAnalysisEngine.

Definition max_points : Dict.t Q :=
  [ ("file_layout", 20);
    ("font_consistency", 10);
    ("readability", 10);
    ("professional_language", 10);
    ("date_consistency", 5);
    ("employment_gaps", 10);
    ("career_progression", 5);
    ("keyword_alignment", 15);
    ("skill_context", 5);
    ("semantic_fit", 20);
    ("quantified_impact", 10);
    ("online_presence", 5) ].

Definition weights : Dict.t Q :=
  [ ("file_layout", 0.10);
    ("font_consistency", 0.05);
    ("readability", 0.05);
    ("professional_language", 0.05);
    ("date_consistency", 0.025);
    ("employment_gaps", 0.05);
    ("career_progression", 0.025);
    ("keyword_alignment", 0.15);
    ("skill_context", 0.05);
    ("semantic_fit", 0.25);
    ("quantified_impact", 0.15);
    ("online_presence", 0.05) ].

(** [_calculate_weighted_score] *)
Definition _calculate_weighted_score (scores : Dict.t Q) : Q :=
  let final_score :=
    fold_left (fun final_score '(key, raw_score) =>
      let max_val := Dict.get_default max_points key 10 in
      let normalized := (raw_score / max_val) * 100 in
      final_score + normalized * Dict.get_default weights key 0)
      scores 0 in
  Qmin 100 (Qmax 0 final_score).

(** [_calculate_grade] *)
Definition _calculate_grade (score : Q) : grade :=
  if Qleb 90 score then GradeA
  else if Qleb 80 score then GradeB
  else if Qleb 70 score then GradeC
  else if Qleb 60 score then GradeD
  else GradeF.

(** [jd_text or ""] and the test [if jd_text] *)
Definition jd_or_empty (jd_text : option string) : string :=
  match jd_text with
  | Some s => s
  | None => ""
  end.

Definition jd_present (jd_text : option string) : bool :=
  PyStr.truthy (jd_or_empty jd_text).

Definition CRITICAL_MISMATCH : string :=
  "⚠️ CRITICAL: Resume does not match job role requirements".

Definition WEAK_ALIGNMENT : string :=
  "⚠️ WARNING: Weak job-role alignment detected".

(** The mismatch override: the capped score and the feedback with the
    message put first. *)
Definition mismatch_override (jd_text : option string) (scores : Dict.t Q)
    (final_score : Q) (all_feedback : list string) : Q * list string :=
  if jd_present jd_text
     && Qltb (Dict.get_default scores "semantic_fit" 0) 4.0
  then (Qmin final_score 30.0, CRITICAL_MISMATCH :: all_feedback)
  else if jd_present jd_text
          && Qltb (Dict.get_default scores "semantic_fit" 0) 7.0
  then (Qmin final_score 50.0, WEAK_ALIGNMENT :: all_feedback)
  else (final_score, all_feedback).

(** The end of [analyze], from the weighted score on: what it returns
    for the scores, the feedback and the skill details the checkers
    gave. *)
Definition finish (jd_text : option string) (scores : Dict.t Q)
    (all_feedback : list string) (details : skill_details) : analysis :=
  let final_score := _calculate_weighted_score scores in
  let '(final_score, all_feedback) :=
    mismatch_override jd_text scores final_score all_feedback in
  let grade := _calculate_grade final_score in
  {| final_score := round1 final_score;
     grade_of := grade;
     breakdown := scores;
     feedback := all_feedback;
     total_checks := List.length scores;
     skill_match_details :=
       if jd_present jd_text then Some details else None |}.

Section WithExternals.
Variable E : Externals.

(** The checkers of [analyze], in its order: the scores, the feedback
    and the skill details before the final score is computed. *)
Definition run_checkers (resume_file_path resume_text : string)
    (jd_text : option string) (parsed_data : parsed)
  : result (Dict.t Q * list string * skill_details) :=
  let scores : Dict.t Q := [] in
  let all_feedback : list string := [] in
  (* Phase 1 *)
  let '(layout_score, layout_feedback) :=
    FormattingChecker.check_file_layout E resume_file_path in
  let scores := Dict.set scores "file_layout" layout_score in
  let all_feedback := (all_feedback ++ layout_feedback)%list in
  let '(font_score, font_feedback) :=
    FormattingChecker.check_font_consistency E resume_file_path in
  let scores := Dict.set scores "font_consistency" font_score in
  let all_feedback := (all_feedback ++ font_feedback)%list in
  (* Phase 2 *)
  let '(readability_score, readability_feedback) :=
    ReadabilityChecker.check_readability E resume_text in
  let scores := Dict.set scores "readability" readability_score in
  let all_feedback := (all_feedback ++ readability_feedback)%list in
  let '(language_score, language_feedback) :=
    ReadabilityChecker.check_professional_language resume_text
      (experience_bullets parsed_data) in
  let scores := Dict.set scores "professional_language" language_score in
  let all_feedback := (all_feedback ++ language_feedback)%list in
  (* Phase 3 *)
  let '(date_score, date_feedback) :=
    ExperienceChecker.check_date_consistency E (work_history parsed_data) in
  let scores := Dict.set scores "date_consistency" date_score in
  let all_feedback := (all_feedback ++ date_feedback)%list in
  gaps <- ExperienceChecker.check_employment_gaps E
            (work_history parsed_data) ;;
  let '(gaps_score, gaps_feedback) := gaps in
  let scores := Dict.set scores "employment_gaps" gaps_score in
  let all_feedback := (all_feedback ++ gaps_feedback)%list in
  let '(progression_score, progression_feedback) :=
    ExperienceChecker.check_career_progression E
      (work_history parsed_data) in
  let scores := Dict.set scores "career_progression" progression_score in
  let all_feedback := (all_feedback ++ progression_feedback)%list in
  (* Phase 4 *)
  let '(keyword_score, keyword_feedback, details) :=
    JDAlignmentChecker.check_keyword_alignment E resume_text
      (jd_or_empty jd_text) in
  let scores := Dict.set scores "keyword_alignment" keyword_score in
  let all_feedback := (all_feedback ++ keyword_feedback)%list in
  let '(context_score, context_feedback) :=
    JDAlignmentChecker.check_skill_context (skills parsed_data)
      (experience_text parsed_data) in
  let scores := Dict.set scores "skill_context" context_score in
  let all_feedback := (all_feedback ++ context_feedback)%list in
  let '(semantic_score, semantic_feedback) :=
    JDAlignmentChecker.check_semantic_fit E resume_text
      (jd_or_empty jd_text) in
  let scores := Dict.set scores "semantic_fit" semantic_score in
  let all_feedback := (all_feedback ++ semantic_feedback)%list in
  (* Phase 5 *)
  let '(impact_score, impact_feedback) :=
    ImpactChecker.check_quantified_achievements E
      (experience_text parsed_data) in
  let '(enhanced_impact, enhanced_progression) :=
    ExperienceParser.enhance_impact_score E (experience_text parsed_data)
      (work_history parsed_data) in
  let scores :=
    Dict.set scores "quantified_impact"
      (Qmax impact_score (enhanced_impact / 10)) in
  let scores :=
    Dict.set scores "career_progression"
      (Qmax progression_score (enhanced_progression / 20)) in
  let all_feedback := (all_feedback ++ impact_feedback)%list in
  let '(presence_score, presence_feedback) :=
    ImpactChecker.check_online_presence (contact_text parsed_data) in
  let scores := Dict.set scores "online_presence" presence_score in
  let all_feedback := (all_feedback ++ presence_feedback)%list in
  Ok (scores, all_feedback, details).

(** [analyze] *)
Definition analyze (resume_file_path resume_text : string)
    (jd_text : option string) (parsed_data : parsed) : result analysis :=
  checked <- run_checkers resume_file_path resume_text jd_text parsed_data ;;
  let '(scores, all_feedback, details) := checked in
  Ok (finish jd_text scores all_feedback details).

End WithExternals.
End PerfectAnalysisEngine.

(** The dictionary returned by [AdaptiveScorer.enhance_analysis]. *)
Record enhanced_analysis : Type := mk_enhanced_analysis {
  enhanced_final_score : Q;
  enhanced_grade : grade;
  enhanced_breakdown : Dict.t Q;
  enhanced_feedback : list string;
  enhanced_total_checks : nat;
  improvements : list string
}.

(** ** The display scale ([ml_core/adaptive_scorer.py]) *)

Module AdaptiveScorer.

Definition max_points : Dict.t Q := PerfectAnalysisEngine.max_points.

(** [normalize_scores]: every raw score on the 0-100 display scale *)
Definition normalize_scores (raw_scores : Dict.t Q) : Dict.t Q :=
  fold_left (fun normalized '(key, raw_score) =>
    let max_val := Dict.get_default max_points key 10 in
    Dict.set normalized key ((raw_score / max_val) * 100))
    raw_scores [].

(** [_calculate_grade] *)
Definition _calculate_grade (score : Q) : grade :=
  if Qleb 90 score then GradeA
  else if Qleb 80 score then GradeB
  else if Qleb 70 score then GradeC
  else if Qleb 60 score then GradeD
  else GradeF.

(** [apply_adaptive_boost]: five display points more for the online
    presence when the candidate gave an e-mail address and a phone
    number. *)
Definition apply_adaptive_boost (normalized_scores : Dict.t Q)
    (email phone : string) : Dict.t Q :=
  if PyStr.truthy email && PyStr.truthy phone
  then Dict.set normalized_scores "online_presence"
         (Qmin 100 (Dict.get_default normalized_scores "online_presence" 0 + 5))
  else normalized_scores.

Definition tips : Dict.t string :=
  [ ("semantic_fit",
     "Tailor content to match job requirements more closely");
    ("keyword_alignment",
     "Include more job-specific keywords and technical terms");
    ("skill_context",
     "Demonstrate skills with concrete examples in experience section");
    ("quantified_impact",
     "Add measurable achievements (%, $, time saved)");
    ("professional_language",
     "Use stronger action verbs and professional terminology");
    ("file_layout", "Improve document structure and formatting");
    ("readability", "Simplify language and improve clarity");
    ("career_progression", "Highlight career growth and advancement");
    ("employment_gaps", "Address any gaps in employment history");
    ("online_presence", "Add LinkedIn or professional portfolio links") ].

(** [_get_improvement_tip] *)
Definition _get_improvement_tip (category : string) (score : Q) : string :=
  Dict.get_default tips category ("Improve " ++ category).

(** [sorted(scores.items(), key=lambda x: x[1])]: the stable sort by
    value. *)
Fixpoint insert_by_score (x : string * Q) (l : list (string * Q))
  : list (string * Q) :=
  match l with
  | [] => [x]
  | y :: l' =>
      if Qltb (snd y) (snd x) then y :: insert_by_score x l' else x :: l
  end.

Fixpoint sort_by_score (l : list (string * Q)) : list (string * Q) :=
  match l with
  | [] => []
  | x :: l' => insert_by_score x (sort_by_score l')
  end.

(** [_generate_improvements]: a tip for each of the three lowest display
    scores that is under 70. *)
Definition _generate_improvements (scores : Dict.t Q) : list string :=
  flat_map (fun '(key, score) =>
              if Qltb score 70 then [_get_improvement_tip key score] else [])
           (firstn 3 (sort_by_score scores)).

(** [enhance_analysis], for a result of the orchestrator (a non-empty
    dictionary that has its keys, so the two validity tests pass);
    [email] and [phone] are the entries of [parsed_data]. *)
Definition enhance_analysis (raw_analysis : analysis) (email phone : string)
  : enhanced_analysis :=
  let normalized := normalize_scores (breakdown raw_analysis) in
  let boosted := apply_adaptive_boost normalized email phone in
  {| enhanced_final_score := round1 (final_score raw_analysis);
     enhanced_grade := grade_of raw_analysis;
     enhanced_breakdown := map (fun '(k, v) => (k, round1 v)) boosted;
     enhanced_feedback := feedback raw_analysis;
     enhanced_total_checks := total_checks raw_analysis;
     improvements := _generate_improvements boosted |}.

End AdaptiveScorer.

(** ** The parser's output and the collaborators of the ML path *)

(** The dictionary returned by [FinalResumeParser.parse], as far as the
    analyzers read it. *)
Record entities : Type := mk_entities {
  ent_status : string;
  ent_name : string;
  ent_email : string;
  ent_phone : string;
  ent_linkedin : string;
  ent_skills : list string;
  ent_companies : list string;
  ent_job_titles : list string;
  ent_degrees : list string
}.

(** The dictionary returned by [DataAdapter.adapt_ner_to_analysis]: the
    entries the orchestrator reads and the four contact entries. *)
Record analysis_data : Type := mk_analysis_data {
  data : parsed;
  data_name : string;
  data_email : string;
  data_phone : string;
  data_linkedin : string
}.

(** What the ML path takes from outside the repository, and the parser
    and preprocessor, which are other parts of it. *)
Record Collaborators : Type := mk_collaborators {
  (** whether the sentence-embedding model is loaded ([self.embedder]) *)
  embedder_loaded : bool;
  (** the dot product of the normalized embeddings of two texts; [None]
      when encoding raises *)
  embedder_dot : string -> string -> option Q;
  (** whether the cross-encoder is loaded *)
  cross_encoder_loaded : bool;
  (** the sigmoid of the cross-encoder's logit for (JD, resume); [None]
      when the prediction raises *)
  cross_encoder_sigmoid : string -> string -> option Q;
  (** cosine similarity of the TF-IDF vectors of JD and resume; [None]
      when scikit-learn raises *)
  tfidf_cosine : string -> string -> option Q;
  (** [re.search(pattern, text, re.DOTALL).group(2)]; [None] when there
      is no match *)
  re_search_group2 : string -> string -> option string;
  (** [FinalResumeParser.parse(resume_path)]: the parser's dictionary, or
      the exception its unguarded library calls raise *)
  parser_output : string -> result entities;
  (** [preprocessor.process(resume_path).get('clean_text', '')], or the
      exception the preprocessor raises *)
  preprocess_clean_text : string -> result string;
  (** the length of [embedding_engine.encode([text])[0]], or the
      exception the encoder raises *)
  encode_dim : string -> result nat;
  (** [EmbeddingEngine.compute_similarity], or the exception the encoder
      raises *)
  compute_similarity : string -> string -> result Q
}.

(** [np.clip(x, lo, hi)] *)
Definition clip (x lo hi : Q) : Q := Qmin (Qmax x lo) hi.

(** ** The ML score ([ml_core/ml_scorer.py]) *)

Module MLScorer.
Section WithCollaborators.
Variable K : Collaborators.

(** [_generate_explanation] *)
Definition _generate_explanation (score ce_score : Q) : string :=
  let pct := format_0f (ce_score * 100) in
  if Qleb 85 score
  then "Excellent match (" ++ pct ++ "% semantic similarity)"
  else if Qleb 70 score
  then "Strong match (" ++ pct ++ "% semantic similarity)"
  else if Qleb 50 score
  then "Moderate match (" ++ pct ++ "% semantic similarity)"
  else "Weak match (" ++ pct
       ++ "% semantic similarity) - consider tailoring resume".

(** [_fallback_score]: the TF-IDF similarity, 0.5 when it cannot be
    computed. *)
Definition _fallback_score (resume_text jd_text : string) : Q :=
  match tfidf_cosine K jd_text resume_text with
  | Some similarity => similarity
  | None => 0.5
  end.

(** [_cross_encoder_score]: the sigmoid of the logit, with 0.4 .. 0.9
    stretched to 0 .. 1. *)
Definition _cross_encoder_score (resume_text jd_text : string) : Q :=
  if negb (cross_encoder_loaded K) then _fallback_score resume_text jd_text
  else
    match cross_encoder_sigmoid K (PyStr.take 512 jd_text)
            (PyStr.take 512 resume_text) with
    | Some normalized => clip ((normalized - 0.4) / (0.9 - 0.4)) 0 1
    | None => _fallback_score resume_text jd_text
    end.

(** The rescaling of the embedding similarity: 0.25 .. 0.85 onto
    40 .. 95. *)
Definition rescale_similarity (similarity : Q) : Q :=
  clip ((similarity - 0.25) / (0.85 - 0.25) * 55 + 40) 40 95.

(** [ml_score] *)
Definition ml_score (resume_text jd_text : string) : Q * string :=
  if negb (PyStr.truthy resume_text) || negb (PyStr.truthy jd_text)
  then (0.0, "Invalid input")
  else
    let cross_encoder_path :=
      let ce_score := _cross_encoder_score resume_text jd_text in
      let final_score := ce_score * 100 in
      (round2 final_score, _generate_explanation final_score ce_score) in
    if embedder_loaded K then
      match embedder_dot K (PyStr.take 2000 resume_text)
              (PyStr.take 2000 jd_text) with
      | Some similarity =>
          let ml := rescale_similarity similarity in
          (round2 ml, _generate_explanation ml similarity)
      | None => cross_encoder_path
      end
    else cross_encoder_path.

End WithCollaborators.
End MLScorer.

(** ** From the parser's output to the orchestrator's input
       ([data_adapter.py]) *)

Module DataAdapter.
Section WithCollaborators.
Variable K : Collaborators.

(** The three patterns of [_extract_section] for a section name. *)
Definition section_patterns (section_name : string) : list string :=
  [ "(?i)(?:^|\n)(" ++ section_name ++ "[:\s]*\n)(.*?)(?=\n[A-Z]{3,}|\Z)";
    "(?i)(" ++ section_name
      ++ ".*?\n)(.*?)(?=\n(?:[A-Z][A-Z]+|EDUCATION|SKILLS|PROJECTS)|\Z)";
    "(?i)(WORK " ++ section_name ++ "|PROFESSIONAL " ++ section_name
      ++ ")(.*?)(?=\n[A-Z]{3,}|\Z)" ].

(** [_extract_section]: the text of the first pattern whose second group,
    stripped, is longer than 50 characters; the whole text otherwise. *)
Definition _extract_section (text section_name : string) : string :=
  let candidates :=
    flat_map (fun pattern =>
      match re_search_group2 K pattern text with
      | Some group2 =>
          let section_text := PyStr.strip group2 in
          if (50 <? String.length section_text)%nat
          then [section_text] else []
      | None => []
      end) (section_patterns section_name) in
  match candidates with
  | section_text :: _ => section_text
  | [] => text
  end.

(** The loop over [enumerate(entities['companies'])]: one job per
    company, with the title of the same rank when there is one, and no
    dates. *)
Definition jobs_of (companies job_titles : list string) : list job :=
  map (fun '(i, company) => mk_job (nth i job_titles "") company "" "")
      (combine (seq 0 (List.length companies)) companies).

Definition is_bullet (line : string) : bool :=
  PyStr.truthy (PyStr.strip line)
  && (PyStr.startswith (PyStr.strip line) "•"
      || PyStr.startswith (PyStr.strip line) "-").

(** [adapt_ner_to_analysis] *)
Definition adapt_ner_to_analysis (ents : entities) (resume_text : string)
  : analysis_data :=
  let work_history :=
    match ent_companies ents, ent_job_titles ents with
    | _ :: _, _ :: _ => jobs_of (ent_companies ents) (ent_job_titles ents)
    | _, _ => []
    end in
  let experience_text := _extract_section resume_text "EXPERIENCE" in
  let experience_bullets :=
    if PyStr.truthy experience_text
    then map PyStr.strip
           (filter is_bullet (PyStr.split_on "010"%char experience_text))
    else [] in
  {| data :=
       {| skills := ent_skills ents;
          work_history := work_history;
          experience_text := experience_text;
          contact_text := PyStr.take 300 resume_text;
          experience_bullets := experience_bullets |};
     data_name := ent_name ents;
     data_email := ent_email ents;
     data_phone := ent_phone ents;
     data_linkedin := ent_linkedin ents |}.

End WithCollaborators.
End DataAdapter.

(** ** The template feedback ([ml_core/feedback_generator.py]) *)

Module FeedbackGenerator.

(** A set in the source; the order in which its members are listed in
    the feedback is taken to be the written one. *)
Definition common_tech : list string :=
  [ "python"; "java"; "sql"; "aws"; "docker"; "kubernetes"; "react"; "api" ].

(** [_generate_keyword_feedback] *)
Definition _generate_keyword_feedback (skills : list string)
    (jd_text : string) : list string :=
  if negb (PyStr.truthy jd_text)
  then ["Add 3 key terms from the job description: relevant technical terms"]
  else
    let jd_words := PyStr.split (PyStr.lower jd_text) in
    let resume_skills := map PyStr.lower skills in
    let missing :=
      filter (fun w => PyStr.mem w jd_words && negb (PyStr.mem w resume_skills))
             common_tech in
    match missing with
    | [] => ["Include industry-specific keywords: job-specific terms"]
    | _ => ["Add " ++ PyStr.of_nat (List.length missing)
            ++ " key terms from the job description: "
            ++ PyStr.join ", " (firstn 5 missing)]
    end.

(** [generate_feedback]: [scores] is the display breakdown of the
    analysis, a missing entry counting as 100. *)
Definition generate_feedback (scores : Dict.t Q) (skills : list string)
    (jd_text : string) : list string :=
  let below (key : string) (limit : Q) (items : list string) :=
    if Qltb (Dict.get_default scores key 100) limit then items else [] in
  firstn 5
    (below "keyword_alignment" 50 (_generate_keyword_feedback skills jd_text)
     ++ below "semantic_fit" 50
          ["Expand on relevant experience in target role"]
     ++ below "quantified_impact" 70
          ["Quantify achievements with metrics (e.g., 'Increased sales by 25%')"]
     ++ below "professional_language" 70
          ["Replace weak verbs with strong action words: Led, Achieved, Implemented, Optimized"]
     ++ below "file_layout" 85
          ["Use consistent formatting throughout (fonts, spacing, bullets)"]
     ++ below "readability" 85
          ["Simplify complex sentences for better clarity"])%list.

Definition grade_letter (g : grade) : string :=
  match g with
  | GradeA => "A"
  | GradeB => "B"
  | GradeC => "C"
  | GradeD => "D"
  | GradeF => "F"
  end.

(** [generate_summary] *)
Definition generate_summary (final_score : Q) (g : grade) : string :=
  if Qleb 85 final_score
  then "Excellent resume (Grade " ++ grade_letter g
       ++ "). Strong ATS compatibility with minor refinements possible."
  else if Qleb 70 final_score
  then "Good resume (Grade " ++ grade_letter g
       ++ "). Solid foundation with room for targeted improvements."
  else if Qleb 55 final_score
  then "Fair resume (Grade " ++ grade_letter g
       ++ "). Needs significant enhancements for better ATS performance."
  else "Needs improvement (Grade " ++ grade_letter g
       ++ "). Major revisions required for ATS optimization.".

End FeedbackGenerator.

(** ** Skill inputs ([utils/kb_helpers.py]) *)


Module KBHelpers.



End KBHelpers.

(** ** The rule features ([ml_core/feature_fusion.py]) *)

Module FeatureFusion.

(** [_calculate_duration]: one year for a job with both dates. *)
Definition _calculate_duration (j : job) : Q :=
  if PyStr.truthy (start_date j) && PyStr.truthy (end_date j)
  then 1.0 else 0.0.

(** [s.count(c)] for a character *)
Fixpoint count_char (c : ascii) (s : string) : nat :=
  match s with
  | EmptyString => 0
  | String c' t => ((if Ascii.eqb c' c then 1 else 0) + count_char c t)%nat
  end.

Definition flag (s : string) : Q := if PyStr.truthy s then 1 else 0.

(** [extract_rule_features]: the eleven features, in the order of the
    source.  The adapter's dictionary has no ['degrees'] entry, so the
    fourth feature is the length of the default, the empty list. *)
Definition extract_rule_features (parsed_data : analysis_data)
    (resume_text : string) : list Q :=
  let wh := work_history (data parsed_data) in
  let total_years := fold_left Qplus (map _calculate_duration wh) 0 in
  let words := Qlen (PyStr.split resume_text) in
  [ Qlen (skills (data parsed_data));
    Qlen wh;
    words;
    Qlen (@nil string);
    total_years;
    Qlen wh / Qmax total_years 1;
    flag (data_email parsed_data);
    flag (data_phone parsed_data);
    flag (data_linkedin parsed_data);
    inject_Z (Z.of_nat (String.length resume_text)) / Qmax words 1;
    inject_Z (Z.of_nat (count_char "%" resume_text
                        + count_char "$" resume_text)) ].

End FeatureFusion.

(** ** The fusion of the rule score and the ML score
       ([ml_enhanced_analyzer.py]) *)

Module MLEnhancedAnalyzer.

(** The formatting penalty subtracted from the fused score.
    [raw_breakdown] is [raw_analysis['breakdown']], the dictionary of raw
    scores returned by the orchestrator. *)
Definition formatting_penalty (raw_breakdown : Dict.t Q) : Q :=
  Qmax 0 ((100 - Dict.get_default raw_breakdown "file_layout" 50) / 10).

(** The fusion step of [analyze], once [ml_score] has returned: the
    fused score before rounding. *)
Definition fused_score (rule_score ml_score : Q) (raw_breakdown : Dict.t Q)
  : Q :=
  let fused := 0.5 * rule_score + 0.5 * ml_score in
  Qmax (fused - Qmin (0.1 * formatting_penalty raw_breakdown) 10) 0.

(** The two entries the fusion step writes into the enhanced analysis:
    ['final_score'] and ['grade']. *)
Definition fuse (rule_score ml_score : Q) (raw_breakdown : Dict.t Q)
  : Q * grade :=
  let fused := fused_score rule_score ml_score raw_breakdown in
  (round1 fused, AdaptiveScorer._calculate_grade fused).

(** The entries [analyze] adds when a job description is given. *)
Record jd_analysis : Type := mk_jd_analysis {
  ml_score_entry : option Q;
  ml_explanation : string;
  semantic_score : Q;
  analysis_entry : enhanced_analysis;
  details_entry : option skill_details;
  enhanced_feedback_entry : list string;
  summary : string
}.

(** The dictionary returned by [analyze]: the parser's dictionary when
    its status is not ok; otherwise the extraction, the three feature
    dimensions and, with a job description, the analysis. *)
Inductive outcome : Type :=
| ParseFailed (parsed_entities : entities)
| Analysed (extraction : entities) (ml_features : nat * nat * nat)
    (with_jd : option jd_analysis).

Section WithExternals.
Variable E : Externals.
Variable K : Collaborators.

(** The body of [if job_description:].  The orchestrator and
    [compute_similarity] are called outside any [try]; the ML score is
    computed inside one, and [ml_score] guards its own library calls. *)
Definition analyze_with_jd (resume_path resume_text job_description : string)
    (adapted : analysis_data) : result jd_analysis :=
  raw_analysis <- PerfectAnalysisEngine.analyze E resume_path resume_text
                    (Some job_description) (data adapted) ;;
  let enhanced :=
    AdaptiveScorer.enhance_analysis raw_analysis (data_email adapted)
      (data_phone adapted) in
  let '(ml, ml_explanation) :=
    MLScorer.ml_score K resume_text job_description in
  let '(fused_final, fused_grade) :=
    fuse (enhanced_final_score enhanced) ml (breakdown raw_analysis) in
  let enhanced :=
    {| enhanced_final_score := fused_final;
       enhanced_grade := fused_grade;
       enhanced_breakdown := enhanced_breakdown enhanced;
       enhanced_feedback := enhanced_feedback enhanced;
       enhanced_total_checks := enhanced_total_checks enhanced;
       improvements := improvements enhanced |} in
  similarity <- compute_similarity K resume_text job_description ;;
  Ok {| ml_score_entry := Some ml;
        ml_explanation := ml_explanation;
        semantic_score := round1 (similarity * 100);
        analysis_entry := enhanced;
        details_entry := skill_match_details raw_analysis;
        enhanced_feedback_entry :=
          FeedbackGenerator.generate_feedback (enhanced_breakdown enhanced)
            (skills (data adapted)) job_description;
        summary :=
          FeedbackGenerator.generate_summary (enhanced_final_score enhanced)
            (enhanced_grade enhanced) |}.

(** [analyze].  The parser, the preprocessor and the feature extraction
    (which encodes the text) are called outside any [try]: what they
    raise leaves [analyze]. *)
Definition analyze (resume_path : string) (job_description : option string)
  : result outcome :=
  parsed_entities <- parser_output K resume_path ;;
  if negb (String.eqb (ent_status parsed_entities) "ok")
  then Ok (ParseFailed parsed_entities)
  else
    resume_text <- preprocess_clean_text K resume_path ;;
    let adapted :=
      DataAdapter.adapt_ner_to_analysis K parsed_entities resume_text in
    embedding_dim <- encode_dim K resume_text ;;
    let rule_dim :=
      List.length (FeatureFusion.extract_rule_features adapted resume_text) in
    let ml_features :=
      (embedding_dim, rule_dim, (embedding_dim + rule_dim)%nat) in
    match job_description with
    | Some jd =>
        if PyStr.truthy jd then
          (with_jd <- analyze_with_jd resume_path resume_text jd adapted ;;
           Ok (Analysed parsed_entities ml_features (Some with_jd)))
        else Ok (Analysed parsed_entities ml_features None)
    | None => Ok (Analysed parsed_entities ml_features None)
    end.

End WithExternals.

End MLEnhancedAnalyzer.

(** ** Parsing and analysis in one call
       ([integrated_resume_analyzer.py]) *)

Module IntegratedResumeAnalyzer.
Section WithExternals.
Variable E : Externals.
Variable K : Collaborators.

(** The dictionary returned by [analyze]: the parser's dictionary when
    its status is not ok; otherwise the extraction and, with a job
    description, the orchestrator's analysis. *)
Inductive outcome : Type :=
| ParseFailed (parsed_entities : entities)
| Analysed (extraction : entities) (analysis_entry : option analysis).

(** [analyze].  The parser and, with a job description, the
    preprocessor are called outside any [try]: what they raise leaves
    [analyze]. *)
Definition analyze (resume_path : string) (job_description : option string)
  : result outcome :=
  parsed_entities <- parser_output K resume_path ;;
  if negb (String.eqb (ent_status parsed_entities) "ok")
  then Ok (ParseFailed parsed_entities)
  else
    match job_description with
    | Some jd =>
        if PyStr.truthy jd then
          (resume_text <- preprocess_clean_text K resume_path ;;
           let adapted :=
             DataAdapter.adapt_ner_to_analysis K parsed_entities
               resume_text in
           a <- PerfectAnalysisEngine.analyze E resume_path resume_text
                  (Some jd) (data adapted) ;;
           Ok (Analysed parsed_entities (Some a)))
        else Ok (Analysed parsed_entities None)
    | None => Ok (Analysed parsed_entities None)
    end.

End WithExternals.
End IntegratedResumeAnalyzer.

(** ** The skill matcher ([smart_skill_matcher.py]) *)

Module SmartSkillMatcher.
Section WithExternals.
Variable E : Externals.
(** The two arguments of the constructor (0.8 and 0.5 by default) *)
Variable fuzzy_threshold : Q.
Variable kb_threshold : Q.

Definition EQUIVALENTS : Dict.t (list string) :=
  [ ("sql", ["t-sql"; "sql server"; "mysql"; "postgresql"; "plsql"]);
    ("power bi", ["powerbi"; "power bi desktop"; "power bi service";
                  "power bi dataflows"]);
    ("etl", ["etl automation"; "etl tools"; "etl processes";
             "data integration"]);
    ("data modeling", ["data modelling"; "database modeling"; "data model"]);
    ("data warehousing", ["data warehouse"; "dwh"; "data mart"]);
    ("python", ["python3"; "python 3"; "py"]);
    ("javascript", ["js"; "node.js"; "nodejs"]);
    ("machine learning", ["ml"; "deep learning"; "neural networks"]);
    ("aws", ["amazon web services"; "ec2"; "s3"; "lambda"]);
    ("azure", ["microsoft azure"; "azure cloud"]);
    ("docker", ["containerization"; "containers"]);
    ("kubernetes", ["k8s"; "container orchestration"]);
    ("tableau", ["tableau desktop"; "tableau server"]);
    ("excel", ["microsoft excel"; "ms excel"; "spreadsheets"]);
    ("communication", ["communication skills"; "interpersonal skills"]);
    ("problem solving", ["problem-solving"; "analytical skills";
                         "critical thinking"]) ].

(** [_normalize]: [skill.lower().strip()] *)
Definition _normalize (skill : string) : string :=
  PyStr.strip (PyStr.lower skill).

(** Rule 3, the loop over the resume skills inside the [try]: an
    exception of a search leaves the block without a match. *)
Fixpoint kb_loop (jd_skill jd_kb_skill : string)
    (resume_skills : list string) : bool :=
  match resume_skills with
  | [] => false
  | resume_skill :: rest =>
      match kb_search E resume_skill 1 with
      | None => false
      | Some [] => kb_loop jd_skill jd_kb_skill rest
      | Some ((label, score) :: _) =>
          let resume_kb_skill := PyStr.lower label in
          if String.eqb jd_kb_skill resume_kb_skill
             && Qleb kb_threshold score
          then true
          else if Qleb kb_threshold score
                  && (PyStr.contains jd_skill resume_kb_skill
                      || PyStr.contains resume_kb_skill jd_skill)
          then true
          else kb_loop jd_skill jd_kb_skill rest
      end
  end.

Definition kb_match (jd_skill : string) (resume_skills : list string)
  : bool :=
  kb_loaded E
  && match kb_search E jd_skill 5 with
     | Some ((label, _) :: _) =>
         kb_loop jd_skill (PyStr.lower label) resume_skills
     | _ => false
     end.

(** Rule 4 *)
Definition equivalents_match (jd_skill : string)
    (resume_skills : list string) : bool :=
  existsb (fun '(base_skill, variants) =>
    (String.eqb jd_skill base_skill || PyStr.mem jd_skill variants)
    && existsb (fun resume_skill =>
                  String.eqb resume_skill base_skill
                  || PyStr.mem resume_skill variants) resume_skills)
    EQUIVALENTS.

(** [_is_match]: the five rules, the first that applies decides. *)
Definition _is_match (jd_skill : string) (resume_skills : list string)
  : bool :=
  if PyStr.mem jd_skill resume_skills then true
  else if existsb (fun resume_skill =>
                     PyStr.contains jd_skill resume_skill
                     || PyStr.contains resume_skill jd_skill) resume_skills
  then true
  else if kb_match jd_skill resume_skills then true
  else if equivalents_match jd_skill resume_skills then true
  else existsb (fun resume_skill =>
                  Qleb fuzzy_threshold (sequence_ratio E jd_skill resume_skill))
               resume_skills.

(** [matched.add(x)] on a set kept as a list without repetition *)
Definition set_add (s : list string) (x : string) : list string :=
  if PyStr.mem x s then s else (s ++ [x])%list.

(** [match_skills]: the matched JD skills (a set, listed in the order of
    first insertion), the missing ones and the percentage. *)
Definition match_skills (resume_skills jd_skills : list string)
  : list string * list string * Q :=
  match jd_skills with
  | [] => ([], [], 100.0)
  | _ =>
      let resume_normalized := map _normalize resume_skills in
      let '(matched, missing) :=
        fold_left (fun '(matched, missing) jd_skill =>
          let jd_norm := _normalize jd_skill in
          if _is_match jd_norm resume_normalized
          then (set_add matched jd_skill, missing)
          else (matched, (missing ++ [jd_skill])%list))
          jd_skills ([], []) in
      (matched, missing, (Qlen matched / Qlen jd_skills) * 100)
  end.

(** The dictionary returned by [get_match_details]. *)
Record match_details : Type := mk_match_details {
  matched_skills : list string;
  missing_skills : list string;
  match_percentage : Q;
  match_map : Dict.t string;
  total_jd_skills : nat;
  total_resume_skills : nat
}.

(** [get_match_details]: for every matched JD skill, the first resume
    skill that matches it on its own. *)
Definition get_match_details (resume_skills jd_skills : list string)
  : match_details :=
  let '(matched, missing, match_pct) := match_skills resume_skills jd_skills in
  let match_map :=
    fold_left (fun match_map jd_skill =>
      let jd_norm := _normalize jd_skill in
      match find (fun resume_skill =>
                    _is_match jd_norm [_normalize resume_skill])
                 resume_skills with
      | Some resume_skill => Dict.set match_map jd_skill resume_skill
      | None => match_map
      end) matched [] in
  {| matched_skills := matched;
     missing_skills := missing;
     match_percentage := match_pct;
     match_map := match_map;
     total_jd_skills := List.length jd_skills;
     total_resume_skills := List.length resume_skills |}.

End WithExternals.
End SmartSkillMatcher.

(** ** The tables and formulas of the specification *)

(** The twelve categories of the data model, with the points table and
    the weight table as the specification lists them. *)
Inductive category : Type :=
| file_layout
| font_consistency
| readability
| professional_language
| date_consistency
| employment_gaps
| career_progression
| keyword_alignment
| skill_context
| semantic_fit
| quantified_impact
| online_presence.

Definition all_categories : list category :=
  [ file_layout; font_consistency; readability; professional_language;
    date_consistency; employment_gaps; career_progression;
    keyword_alignment; skill_context; semantic_fit; quantified_impact;
    online_presence ].

Definition category_name (c : category) : string :=
  match c with
  | file_layout => "file_layout"
  | font_consistency => "font_consistency"
  | readability => "readability"
  | professional_language => "professional_language"
  | date_consistency => "date_consistency"
  | employment_gaps => "employment_gaps"
  | career_progression => "career_progression"
  | keyword_alignment => "keyword_alignment"
  | skill_context => "skill_context"
  | semantic_fit => "semantic_fit"
  | quantified_impact => "quantified_impact"
  | online_presence => "online_presence"
  end.

Definition spec_max_points (c : category) : Q :=
  match c with
  | file_layout => 20
  | font_consistency => 10
  | readability => 10
  | professional_language => 10
  | date_consistency => 5
  | employment_gaps => 10
  | career_progression => 5
  | keyword_alignment => 15
  | skill_context => 5
  | semantic_fit => 20
  | quantified_impact => 10
  | online_presence => 5
  end.

Definition spec_weight (c : category) : Q :=
  match c with
  | file_layout => 0.10
  | font_consistency => 0.05
  | readability => 0.05
  | professional_language => 0.05
  | date_consistency => 0.025
  | employment_gaps => 0.05
  | career_progression => 0.025
  | keyword_alignment => 0.15
  | skill_context => 0.05
  | semantic_fit => 0.25
  | quantified_impact => 0.15
  | online_presence => 0.05
  end.

(** The sum of (raw / max_points) x 100 x weight over the categories [cs]
    of a breakdown [b], and its clamp to [0, 100]. *)
Definition spec_weighted_sum (b : category -> Q) (cs : list category) : Q :=
  fold_right
    (fun c acc => (b c / spec_max_points c) * 100 * spec_weight c + acc) 0 cs.

Definition clamp_0_100 (x : Q) : Q := Qmin 100 (Qmax 0 x).

(** The dictionary that holds the breakdown [b] for the categories [cs]. *)
Definition breakdown_dict (b : category -> Q) (cs : list category)
  : Dict.t Q :=
  map (fun c => (category_name c, b c)) cs.

(** The score before the orchestrator rounds it: the weighted score after
    the mismatch override. *)
Definition unrounded_score (jd_text : option string) (scores : Dict.t Q) : Q :=
  fst (PerfectAnalysisEngine.mismatch_override jd_text scores
         (PerfectAnalysisEngine._calculate_weighted_score scores) []).

(** *** Employment gaps, as the specification words them *)

Section GapsSpec.
Variable E : Externals.

(** The order of two jobs by parsed start date: the start of [b] is not
    before the start of [a]. *)
Definition start_le (a b : job) : Prop :=
  match ExperienceChecker._parse_date E (start_date a),
        ExperienceChecker._parse_date E (start_date b) with
  | Some x, Some y => dt_lt y x = Ok false
  | _, _ => False
  end.

(** The start dates of a history can be compared with one another: they
    all parse, and either all are aware or all are naive. *)
Definition comparable_starts (wh : list job) : Prop :=
  exists aware : bool,
    Forall (fun j =>
              exists d,
                ExperienceChecker._parse_date E (start_date j) = Some d
                /\ is_aware d = aware) wh.




(** A job paired with its sort key is keyed when the key is its parsed
    start date. *)
Definition keyed (p : datetime * job) : Prop :=
  ExperienceChecker._parse_date E (start_date (snd p)) = Some (fst p).

End GapsSpec.

(** The order of the keyed jobs the sort works on. *)
Definition key_le (p q : datetime * job) : Prop :=
  dt_lt (fst q) (fst p) = Ok false.

(** *** Career progression, as the specification words it *)

Section ProgressionSpec.
Variable E : Externals.

(** Some company appears with more than one distinct title. *)
Definition distinct_title_promotion (wh : list job) : bool :=
  existsb (fun titles =>
             (1 <? List.length (nodup string_dec titles))%nat)
          (Dict.values (ExperienceChecker.companies_of wh)).

Definition spec_career_progression (wh : list job) : Q :=
  match wh with
  | [] => 0
  | _ =>
      let s := 5 in
      let s :=
        if Qltb (ExperienceChecker._calculate_total_years E wh) 2
        then s - 2 else s in
      let s := if distinct_title_promotion wh then s + 2 else s in
      let s :=
        if negb (ExperienceChecker.has_progression wh)
           && (2 <? List.length wh)%nat
        then s - 1 else s in
      Qmin 10 (Qmax 0 s)
  end.

End ProgressionSpec.

(** *** The fusion, as the specification words it *)

(** The display score of the file layout: raw / max x 100, read from the
    display breakdown of the adaptive scorer. *)
Definition file_layout_display (raw_breakdown : Dict.t Q) : Q :=
  Dict.get_default (AdaptiveScorer.normalize_scores raw_breakdown)
    "file_layout" 50.

(** The fused score with a penalty proportional (by the factor [k]) to
    how far the display score is below 100, capped at 10, the result
    floored at 0. *)
Definition spec_fused_score (k rule_score ml_score : Q)
    (raw_breakdown : Dict.t Q) : Q :=
  let penalty := k * Qmax 0 (100 - file_layout_display raw_breakdown) in
  Qmax (0.5 * rule_score + 0.5 * ml_score - Qmin penalty 10) 0.

(** ** Sample data *)

(** A stand-in for the external libraries: the clock reads 4 November
    2026, noon; the date parser reads the month/year strings listed and
    raises on everything else; no document can be opened; the texts read
    easily; no model is loaded and the embedding similarity is 0.1. *)
Definition sample_now : datetime :=
  mk_datetime 2026 11 4 43200000000 None.

Definition sample_dates : Dict.t datetime :=
  [ ("01/2015", mk_datetime 2015 1 4 0 None);
    ("01/2017", mk_datetime 2017 1 4 0 None);
    ("01/2018", mk_datetime 2018 1 4 0 None);
    ("03/2018", mk_datetime 2018 3 4 0 None);
    ("01/2021", mk_datetime 2021 1 4 0 None);
    ("2015-01-01T00:00:00Z", mk_datetime 2015 1 1 0 (Some 0%Z)) ].

Definition sample_externals : Externals :=
  {| datetime_now := sample_now;
     parser_parse := Dict.get sample_dates;
     re_match := fun _ _ => false;
     re_findall_len := fun _ _ _ => 0%nat;
     fitz_pages := fun _ => [];
     docx_tables_images := fun _ => None;
     fitz_fonts := fun _ => None;
     docx_fonts := fun _ => None;
     flesch_reading_ease := fun _ => Some 70;
     spacy_match_count := fun _ => None;
     tfidf_jd_terms := fun _ _ => None;
     tfidf_critical_terms := fun _ => None;
     kb_loaded := false;
     embedding_similarity := fun _ _ => Some 0.1;
     kb_search := fun _ _ => None;
     sequence_ratio := fun _ _ => 0 |}.

(** Two jobs at one company under one title. *)
Definition same_title_history : list job :=
  [ mk_job "Engineer" "Acme" "01/2015" "01/2018";
    mk_job "Engineer" "Acme" "01/2018" "01/2021" ].

(** A promotion at one company. *)
Definition promoted_history : list job :=
  [ mk_job "Engineer" "Acme" "01/2015" "01/2018";
    mk_job "Senior Engineer" "Acme" "01/2018" "01/2021" ].


(** A history whose first start date is not a date. *)
Definition unparseable_history : list job :=
  [ mk_job "Analyst" "Initech" "unknown" "01/2017";
    mk_job "Analyst" "Globex" "03/2018" "present" ].

Definition sample_parsed (wh : list job) : parsed :=
  {| skills := ["Python"];
     work_history := wh;
     experience_text := "Developed services in Python";
     contact_text := "linkedin.com/in/someone";
     experience_bullets := ["Developed services in Python"] |}.

(** A breakdown within the points table whose weighted score is 89.96:
    every category at its maximum but the semantic fit, at 11.968. *)
Definition rounding_breakdown : Dict.t Q :=
  [ ("file_layout", 20);
    ("font_consistency", 10);
    ("readability", 10);
    ("professional_language", 10);
    ("date_consistency", 5);
    ("employment_gaps", 10);
    ("career_progression", 5);
    ("keyword_alignment", 15);
    ("skill_context", 5);
    ("semantic_fit", 11.968);
    ("quantified_impact", 10);
    ("online_presence", 5) ].

(** A breakdown with the semantic fit at 2 and everything else at its
    maximum. *)
Definition mismatch_breakdown : Dict.t Q :=
  Dict.set rounding_breakdown "semantic_fit" 2.0.

(** A breakdown with a perfect file layout. *)
Definition perfect_layout_breakdown : Dict.t Q :=
  [ ("file_layout", 20) ].

(** A stand-in in which the knowledge base is loaded, the one critical
    term of the JD is "python" and the two embeddings coincide. *)
Definition boosting_externals : Externals :=
  {| datetime_now := sample_now;
     parser_parse := Dict.get sample_dates;
     re_match := fun _ _ => false;
     re_findall_len := fun _ _ _ => 0%nat;
     fitz_pages := fun _ => [];
     docx_tables_images := fun _ => None;
     fitz_fonts := fun _ => None;
     docx_fonts := fun _ => None;
     flesch_reading_ease := fun _ => Some 70;
     spacy_match_count := fun _ => None;
     tfidf_jd_terms := fun _ _ => None;
     tfidf_critical_terms := fun _ => Some ["python"];
     kb_loaded := true;
     embedding_similarity := fun _ _ => Some 1;
     kb_search := fun _ _ => None;
     sequence_ratio := fun _ _ => 0 |}.

(** ** The breakdown, entry by entry *)

(** The dictionary [scores] that [analyze] holds after its checkers, when
    the employment-gap check returned [gaps_score]. *)
Definition checked_scores (E : Externals)
    (resume_file_path resume_text : string) (jd_text : option string)
    (parsed_data : parsed) (gaps_score : Q) : Dict.t Q :=
  let jd := PerfectAnalysisEngine.jd_or_empty jd_text in
  let wh := work_history parsed_data in
  let text := experience_text parsed_data in
  [ ("file_layout",
     fst (FormattingChecker.check_file_layout E resume_file_path));
    ("font_consistency",
     fst (FormattingChecker.check_font_consistency E resume_file_path));
    ("readability",
     fst (ReadabilityChecker.check_readability E resume_text));
    ("professional_language",
     fst (ReadabilityChecker.check_professional_language resume_text
            (experience_bullets parsed_data)));
    ("date_consistency",
     fst (ExperienceChecker.check_date_consistency E wh));
    ("employment_gaps", gaps_score);
    ("career_progression",
     Qmax (fst (ExperienceChecker.check_career_progression E wh))
          (ExperienceParser.detect_progression wh / 20));
    ("keyword_alignment",
     fst (fst (JDAlignmentChecker.check_keyword_alignment E resume_text jd)));
    ("skill_context",
     fst (JDAlignmentChecker.check_skill_context (skills parsed_data) text));
    ("semantic_fit",
     fst (JDAlignmentChecker.check_semantic_fit E resume_text jd));
    ("quantified_impact",
     Qmax (fst (ImpactChecker.check_quantified_achievements E text))
          (ExperienceParser.quantify_impact E text / 10));
    ("online_presence",
     fst (ImpactChecker.check_online_presence (contact_text parsed_data))) ].

(** ** More sample data *)

(** A stand-in for the collaborators of the ML path: the models are
    loaded, every similarity is 0.7, no section pattern matches, and the
    parser reads two jobs at one company. *)
Definition sample_entities : entities :=
  {| ent_status := "ok";
     ent_name := "A. Candidate";
     ent_email := "a.candidate@example.org";
     ent_phone := "5550100100";
     ent_linkedin := "linkedin.com/in/candidate";
     ent_skills := ["Python"; "SQL"];
     ent_companies := ["Acme"; "Acme"];
     ent_job_titles := ["Engineer"];
     ent_degrees := ["BSc"] |}.

Definition sample_collaborators : Collaborators :=
  {| embedder_loaded := true;
     embedder_dot := fun _ _ => Some 0.7;
     cross_encoder_loaded := true;
     cross_encoder_sigmoid := fun _ _ => Some 0.7;
     tfidf_cosine := fun _ _ => Some 0.3;
     re_search_group2 := fun _ _ => None;
     parser_output := fun _ => Ok sample_entities;
     preprocess_clean_text := fun _ => Ok "Developed services in Python";
     encode_dim := fun _ => Ok 384%nat;
     compute_similarity := fun _ _ => Ok 0.7 |}.

(** A stand-in in which the knowledge base is loaded and the critical
    terms of the JD are four terms a resume in another field lacks. *)
Definition mismatch_externals : Externals :=
  {| datetime_now := sample_now;
     parser_parse := Dict.get sample_dates;
     re_match := fun _ _ => false;
     re_findall_len := fun _ _ _ => 0%nat;
     fitz_pages := fun _ => [];
     docx_tables_images := fun _ => None;
     fitz_fonts := fun _ => None;
     docx_fonts := fun _ => None;
     flesch_reading_ease := fun _ => Some 70;
     spacy_match_count := fun _ => None;
     tfidf_jd_terms :=
       fun _ _ => Some ["python"; "django"; "teamwork"; "aws"];
     tfidf_critical_terms :=
       fun _ => Some ["python"; "django"; "aws"; "kafka"];
     kb_loaded := true;
     embedding_similarity := fun _ _ => None;
     kb_search := fun _ _ => None;
     sequence_ratio := fun _ _ => 0 |}.

(** ** Names for parts of the checks *)

(** A job without dates, as the adapter of the parser output builds
    them. *)
Definition undated (j : job) : Prop := start_date j = "" /\ end_date j = "".

(** The list [date_strings] of [check_date_consistency]: the non-empty
    start and end dates, job by job. *)
Definition date_strings_of (wh : list job) : list string :=
  flat_map (fun j =>
    ((if PyStr.truthy (start_date j) then [start_date j] else [])
     ++ (if PyStr.truthy (end_date j) then [end_date j] else []))%list) wh.

(** The rate of critical terms of a JD found in a resume, as
    [_kb_enhanced_semantic_fit] computes it. *)
Definition critical_match_rate (resume_text : string)
    (critical_terms : list string) : Q :=
  Qlen (filter (fun term =>
                  PyStr.contains (PyStr.lower term) (PyStr.lower resume_text))
               critical_terms)
  / Qlen critical_terms.

(** Two dictionaries with the same keys in the same order, every value
    of the first at most the value of the second. *)
Definition scores_le (s1 s2 : Dict.t Q) : Prop :=
  Forall2 (fun a b => fst a = fst b /\ snd a <= snd b) s1 s2.

(** * Properties *)

(** ** Comparisons *)

Lemma Qltb_lt (x y : Q) : Qltb x y = true <-> x < y.
Proof.
  unfold Qltb. rewrite negb_true_iff. split.
  - intros H. apply Qnot_le_lt. intros Hle.
    apply Qle_bool_iff in Hle. congruence.
  - intros H. destruct (Qle_bool y x) eqn:Hb; [|reflexivity].
    apply Qle_bool_iff in Hb. exfalso. apply (Qlt_not_le _ _ H Hb).
Qed.

Lemma Qltb_ge (x y : Q) : Qltb x y = false <-> y <= x.
Proof.
  unfold Qltb. rewrite negb_false_iff. apply Qle_bool_iff.
Qed.

Lemma Qleb_le (x y : Q) : Qleb x y = true <-> x <= y.
Proof. apply Qle_bool_iff. Qed.

Lemma Qleb_gt (x y : Q) : Qleb x y = false <-> y < x.
Proof.
  unfold Qleb. split.
  - intros H. apply Qnot_le_lt. intros Hle.
    apply Qle_bool_iff in Hle. congruence.
  - intros H. destruct (Qle_bool x y) eqn:Hb; [|reflexivity].
    apply Qle_bool_iff in Hb. exfalso. apply (Qlt_not_le _ _ H Hb).
Qed.

(** Turn the tests of a goal or hypothesis into order statements. *)
Ltac q_tests :=
  repeat match goal with
  | H : Qltb _ _ = true |- _ => apply Qltb_lt in H
  | H : Qltb _ _ = false |- _ => apply Qltb_ge in H
  | H : Qleb _ _ = true |- _ => apply Qleb_le in H
  | H : Qleb _ _ = false |- _ => apply Qleb_gt in H
  end.

Lemma Qmin_cases (x y : Q) :
  (x <= y /\ Qmin x y == x) \/ (y <= x /\ Qmin x y == y).
Proof.
  destruct (Qlt_le_dec y x) as [H|H].
  - right. split; [apply Qlt_le_weak, H|]. apply Q.min_r, Qlt_le_weak, H.
  - left. split; [exact H|]. apply Q.min_l, H.
Qed.

Lemma Qmax_cases (x y : Q) :
  (y <= x /\ Qmax x y == x) \/ (x <= y /\ Qmax x y == y).
Proof.
  destruct (Qlt_le_dec x y) as [H|H].
  - right. split; [apply Qlt_le_weak, H|]. apply Q.max_r, Qlt_le_weak, H.
  - left. split; [exact H|]. apply Q.max_l, H.
Qed.

(** Name the value of every [Qmin] and [Qmax] in sight and leave the
    linear facts that define it. *)
Ltac q_minmax :=
  repeat match goal with
  | |- context [Qmin ?a ?b] =>
      let v := fresh "v" in let Hv := fresh "Hv" in let Hq := fresh "Hq" in
      destruct (Qmin_cases a b) as [[? Hv]|[? Hv]];
      remember (Qmin a b) as v eqn:Hq; clear Hq
  | |- context [Qmax ?a ?b] =>
      let v := fresh "v" in let Hv := fresh "Hv" in let Hq := fresh "Hq" in
      destruct (Qmax_cases a b) as [[? Hv]|[? Hv]];
      remember (Qmax a b) as v eqn:Hq; clear Hq
  | H : context [Qmin ?a ?b] |- _ =>
      let v := fresh "v" in let Hv := fresh "Hv" in let Hq := fresh "Hq" in
      destruct (Qmin_cases a b) as [[? Hv]|[? Hv]];
      remember (Qmin a b) as v eqn:Hq; clear Hq
  | H : context [Qmax ?a ?b] |- _ =>
      let v := fresh "v" in let Hv := fresh "Hv" in let Hq := fresh "Hq" in
      destruct (Qmax_cases a b) as [[? Hv]|[? Hv]];
      remember (Qmax a b) as v eqn:Hq; clear Hq
  end.

(** ** Rounding *)

Lemma round_half_even_le (q : Q) (n : Z) :
  q <= inject_Z n -> (round_half_even q <= n)%Z.
Proof.
  intros Hq. unfold round_half_even.
  pose proof (Qfloor_le q) as Hf.
  assert (Hfn : (Qfloor q <= n)%Z).
  { rewrite Zle_Qle. eapply Qle_trans; eassumption. }
  destruct (Qcompare_spec (q - inject_Z (Qfloor q)) (1 # 2)) as [He|Hl|Hg];
    try exact Hfn.
  - destruct (Z.even (Qfloor q)); [exact Hfn|].
    assert (Hlt : inject_Z (Qfloor q) < inject_Z n) by lra.
    rewrite <- Zlt_Qlt in Hlt. lia.
  - assert (Hlt : inject_Z (Qfloor q) < inject_Z n) by lra.
    rewrite <- Zlt_Qlt in Hlt. lia.
Qed.

Lemma round_half_even_ge (q : Q) (n : Z) :
  inject_Z n <= q -> (n <= round_half_even q)%Z.
Proof.
  intros Hq. unfold round_half_even.
  assert (Hfn : (n <= Qfloor q)%Z).
  { rewrite <- (Qfloor_Z n). apply Qfloor_resp_le, Hq. }
  destruct (Qcompare (q - inject_Z (Qfloor q)) (1 # 2));
    [destruct (Z.even (Qfloor q))| |]; lia.
Qed.

(** The rounded value is within a half of the argument. *)
Lemma round_half_even_near (q : Q) :
  q - (1 # 2) <= inject_Z (round_half_even q) <= q + (1 # 2).
Proof.
  unfold round_half_even.
  pose proof (Qfloor_le q) as Hf.
  pose proof (Qlt_floor q) as Hc.
  rewrite inject_Z_plus in Hc. change (inject_Z 1) with 1 in Hc.
  destruct (Qcompare_spec (q - inject_Z (Qfloor q)) (1 # 2)) as [He|Hl|Hg].
  - destruct (Z.even (Qfloor q));
      [|rewrite inject_Z_plus; change (inject_Z 1) with 1]; lra.
  - lra.
  - rewrite inject_Z_plus. change (inject_Z 1) with 1. lra.
Qed.

Lemma round1_le (x : Q) (n : Z) :
  x <= inject_Z n -> round1 x <= inject_Z n.
Proof.
  intros H. unfold round1.
  assert (Hr : (round_half_even (x * 10) <= n * 10)%Z).
  { apply round_half_even_le. rewrite inject_Z_mult.
    change (inject_Z 10) with 10. lra. }
  rewrite Zle_Qle, inject_Z_mult in Hr. change (inject_Z 10) with 10 in Hr.
  apply Qle_shift_div_r; [reflexivity|]. exact Hr.
Qed.

Lemma round1_ge (x : Q) (n : Z) :
  inject_Z n <= x -> inject_Z n <= round1 x.
Proof.
  intros H. unfold round1.
  assert (Hr : (n * 10 <= round_half_even (x * 10))%Z).
  { apply round_half_even_ge. rewrite inject_Z_mult.
    change (inject_Z 10) with 10. lra. }
  rewrite Zle_Qle, inject_Z_mult in Hr. change (inject_Z 10) with 10 in Hr.
  apply Qle_shift_div_l; [reflexivity|]. exact Hr.
Qed.

Lemma round1_near (x : Q) :
  x - (1 # 20) <= round1 x <= x + (1 # 20).
Proof.
  unfold round1. pose proof (round_half_even_near (x * 10)) as [H1 H2].
  split.
  - apply Qle_shift_div_l; [reflexivity|]. lra.
  - apply Qle_shift_div_r; [reflexivity|]. lra.
Qed.

(** ** The weighted score and the grade *)

Lemma max_points_table (c : category) :
  Dict.get_default PerfectAnalysisEngine.max_points (category_name c) 10
  = spec_max_points c.
Proof. destruct c; reflexivity. Qed.

Lemma weights_table (c : category) :
  Dict.get_default PerfectAnalysisEngine.weights (category_name c) 0
  = spec_weight c.
Proof. destruct c; reflexivity. Qed.

(** The loop of [_calculate_weighted_score] adds the specification's sum
    to its accumulator. *)
Lemma weighted_loop (b : category -> Q) (cs : list category) (acc : Q) :
  fold_left
    (fun final_score '(key, raw_score) =>
       final_score
       + (raw_score / Dict.get_default PerfectAnalysisEngine.max_points key 10)
         * 100 * Dict.get_default PerfectAnalysisEngine.weights key 0)
    (breakdown_dict b cs) acc
  == acc + spec_weighted_sum b cs.
Proof.
  revert acc. induction cs as [|c cs IH]; intros acc; simpl.
  - lra.
  - rewrite IH, max_points_table, weights_table. lra.
Qed.

Lemma weighted_score_formula (b : category -> Q) (cs : list category) :
  PerfectAnalysisEngine._calculate_weighted_score (breakdown_dict b cs)
  == clamp_0_100 (spec_weighted_sum b cs).
Proof.
  unfold PerfectAnalysisEngine._calculate_weighted_score, clamp_0_100.
  rewrite weighted_loop. rewrite Qplus_0_l. reflexivity.
Qed.

Lemma weighted_score_bounds (scores : Dict.t Q) :
  0 <= PerfectAnalysisEngine._calculate_weighted_score scores <= 100.
Proof.
  unfold PerfectAnalysisEngine._calculate_weighted_score.
  split.
  - apply Q.min_glb; [lra|apply Q.le_max_l].
  - apply Q.le_min_l.
Qed.

Lemma grade_bands (s : Q) :
  (PerfectAnalysisEngine._calculate_grade s = GradeA <-> 90 <= s)
  /\ (PerfectAnalysisEngine._calculate_grade s = GradeB <-> 80 <= s < 90)
  /\ (PerfectAnalysisEngine._calculate_grade s = GradeC <-> 70 <= s < 80)
  /\ (PerfectAnalysisEngine._calculate_grade s = GradeD <-> 60 <= s < 70)
  /\ (PerfectAnalysisEngine._calculate_grade s = GradeF <-> s < 60).
Proof.
  unfold PerfectAnalysisEngine._calculate_grade.
  destruct (Qleb 90 s) eqn:H90; [|destruct (Qleb 80 s) eqn:H80;
    [|destruct (Qleb 70 s) eqn:H70; [|destruct (Qleb 60 s) eqn:H60]]];
    q_tests; repeat split; intros; try discriminate; try lra.
Qed.

Lemma unrounded_score_bounds (jd_text : option string) (scores : Dict.t Q) :
  0 <= unrounded_score jd_text scores <= 100.
Proof.
  pose proof (weighted_score_bounds scores) as Hw.
  unfold unrounded_score, PerfectAnalysisEngine.mismatch_override.
  destruct (_ && _); [|destruct (_ && _)]; simpl; q_minmax; lra.
Qed.

(** What [finish] returns, in terms of the unrounded score. *)
Lemma finish_fields (jd_text : option string) (scores : Dict.t Q)
    (fb : list string) (d : skill_details) :
  let r := PerfectAnalysisEngine.finish jd_text scores fb d in
  final_score r = round1 (unrounded_score jd_text scores)
  /\ grade_of r
     = PerfectAnalysisEngine._calculate_grade (unrounded_score jd_text scores)
  /\ breakdown r = scores.
Proof.
  unfold PerfectAnalysisEngine.finish, unrounded_score,
    PerfectAnalysisEngine.mismatch_override.
  destruct (_ && _); [|destruct (_ && _)]; simpl; repeat split.
Qed.

(** C3, as the claim states it, fails: for the breakdown
    [rounding_breakdown] (every score within the points table) and a JD,
    the result has [final_score] 90.0, which is in the band of grade A,
    and grade B. *)
Lemma C3_grade_of_rounded_score_counterexample :
  let r := PerfectAnalysisEngine.finish (Some "Data analyst") rounding_breakdown
             [] empty_skill_details in
  ~ (grade_of r = GradeA <-> 90 <= final_score r).
Proof.
  intros r [_ H].
  assert (Hg : grade_of r = GradeB) by reflexivity.
  assert (Hs : 90 <= final_score r) by (vm_compute; discriminate).
  specialize (H Hs). congruence.
Qed.

(** C3 (amended): the weighted score is the clamped sum of
    (raw / max_points) x 100 x weight over the categories of the
    breakdown; the grade function follows the bands A >= 90, B in [80,90),
    C in [70,80), D in [60,70), F below 60; and every result of the
    orchestrator has a [final_score] in [0,100] that is the unrounded
    score (in [0,100], and within 0.05) rounded to one decimal, with the
    grade of the unrounded score. *)
Theorem C3_weighted_score_and_grade :
  (forall (b : category -> Q) (cs : list category),
      PerfectAnalysisEngine._calculate_weighted_score (breakdown_dict b cs)
      == clamp_0_100 (spec_weighted_sum b cs))
  /\ (forall s : Q,
         (PerfectAnalysisEngine._calculate_grade s = GradeA <-> 90 <= s)
         /\ (PerfectAnalysisEngine._calculate_grade s = GradeB <-> 80 <= s < 90)
         /\ (PerfectAnalysisEngine._calculate_grade s = GradeC <-> 70 <= s < 80)
         /\ (PerfectAnalysisEngine._calculate_grade s = GradeD <-> 60 <= s < 70)
         /\ (PerfectAnalysisEngine._calculate_grade s = GradeF <-> s < 60))
  /\ (forall (jd_text : option string) (scores : Dict.t Q)
             (fb : list string) (d : skill_details),
         let r := PerfectAnalysisEngine.finish jd_text scores fb d in
         let x := unrounded_score jd_text scores in
         0 <= final_score r <= 100
         /\ 0 <= x <= 100
         /\ final_score r = round1 x
         /\ x - (1 # 20) <= final_score r <= x + (1 # 20)
         /\ grade_of r = PerfectAnalysisEngine._calculate_grade x).
Proof.
  split; [exact weighted_score_formula|].
  split; [exact grade_bands|].
  intros jd_text scores fb d r x.
  destruct (finish_fields jd_text scores fb d) as (Hf & Hg & _).
  fold r in Hf, Hg. fold x in Hf, Hg.
  pose proof (unrounded_score_bounds jd_text scores) as [H0 H100].
  fold x in H0, H100.
  rewrite Hf. repeat split; try assumption.
  - apply (round1_ge x 0), H0.
  - apply (round1_le x 100), H100.
  - apply round1_near.
  - apply round1_near.
Qed.

(** ** The checkers inside the orchestrator *)

Section RunCheckers.
Variable E : Externals.
Variables (resume_file_path resume_text : string).
Variable jd_text : option string.
Variable parsed_data : parsed.

(** Once the employment-gap check returns, so do the checkers as a
    whole, and three entries of the breakdown are the values of their
    checks: the career progression is the larger of its two variants. *)
Lemma run_checkers_ok (g : Q * list string) :
  ExperienceChecker.check_employment_gaps E (work_history parsed_data) = Ok g ->
  exists scores fb d,
    PerfectAnalysisEngine.run_checkers E resume_file_path resume_text
      jd_text parsed_data = Ok (scores, fb, d)
    /\ Dict.get scores "career_progression"
       = Some (Qmax
                 (fst (ExperienceChecker.check_career_progression E
                         (work_history parsed_data)))
                 (ExperienceParser.detect_progression
                    (work_history parsed_data) / 20))
    /\ Dict.get scores "semantic_fit"
       = Some (fst (JDAlignmentChecker.check_semantic_fit E resume_text
                      (PerfectAnalysisEngine.jd_or_empty jd_text)))
    /\ Dict.get scores "keyword_alignment"
       = Some (fst (fst (JDAlignmentChecker.check_keyword_alignment E
                           resume_text
                           (PerfectAnalysisEngine.jd_or_empty jd_text)))).
Proof.
  intros Hg. unfold PerfectAnalysisEngine.run_checkers.
  rewrite Hg. destruct g as [gaps_score gaps_feedback].
  unfold ExperienceParser.enhance_impact_score.
  repeat match goal with
  | |- context [match ?e with pair _ _ => _ end] =>
      destruct e as [? ?] eqn:?
  end.
  simpl. do 3 eexists. split; [reflexivity|]. repeat split.
Qed.

Lemma run_checkers_raise (e : exn) :
  ExperienceChecker.check_employment_gaps E (work_history parsed_data)
  = Raise e ->
  PerfectAnalysisEngine.run_checkers E resume_file_path resume_text
    jd_text parsed_data = Raise e.
Proof.
  intros Hg. unfold PerfectAnalysisEngine.run_checkers.
  repeat match goal with
  | |- context [match ?e with pair _ _ => _ end] =>
      destruct e as [? ?] eqn:?
  end.
  rewrite Hg. reflexivity.
Qed.

Lemma analyze_of_run_checkers (scores : Dict.t Q) (fb : list string)
    (d : skill_details) :
  PerfectAnalysisEngine.run_checkers E resume_file_path resume_text
    jd_text parsed_data = Ok (scores, fb, d) ->
  PerfectAnalysisEngine.analyze E resume_file_path resume_text jd_text
    parsed_data
  = Ok (PerfectAnalysisEngine.finish jd_text scores fb d).
Proof.
  intros H. unfold PerfectAnalysisEngine.analyze. rewrite H. reflexivity.
Qed.

End RunCheckers.

(** ** The mismatch override *)

Lemma round_half_even_comp (x y : Q) :
  x == y -> round_half_even x = round_half_even y.
Proof.
  intros H. unfold round_half_even.
  rewrite (Qfloor_comp _ _ H).
  assert (Hr : x - inject_Z (Qfloor y) == y - inject_Z (Qfloor y))
    by (rewrite H; reflexivity).
  rewrite (Qcompare_comp _ _ Hr (1 # 2) (1 # 2) (Qeq_refl _)).
  reflexivity.
Qed.

Lemma round1_comp (x y : Q) : x == y -> round1 x = round1 y.
Proof.
  intros H. unfold round1.
  rewrite (round_half_even_comp (x * 10) (y * 10)); [reflexivity|].
  rewrite H. reflexivity.
Qed.

Lemma truthy_nonempty (s : string) : s <> "" -> PyStr.truthy s = true.
Proof. destruct s; [congruence|reflexivity]. Qed.

Lemma truthy_false (s : string) : PyStr.truthy s = false -> s = "".
Proof. destruct s; [reflexivity|discriminate]. Qed.

Lemma grade_F_below_60 (s : Q) :
  s < 60 -> PerfectAnalysisEngine._calculate_grade s = GradeF.
Proof. intros H. apply (grade_bands s), H. Qed.

(** C2: with a JD present, a semantic fit below 4.0 caps the returned
    final score at 30 (the weighted score or 30, whichever is lower,
    rounded), gives grade F and puts the critical-mismatch message first
    in the feedback; a semantic fit in [4.0, 7.0) caps it at 50 and puts
    the warning first.  [analyze] returns such a result whenever its
    employment-gap check returns, the semantic fit being the value of
    [check_semantic_fit]. *)
Theorem C2_mismatch_override :
  (forall (jd : string) (scores : Dict.t Q) (fb : list string)
          (d : skill_details),
      jd <> "" ->
      let r := PerfectAnalysisEngine.finish (Some jd) scores fb d in
      let sem := Dict.get_default scores "semantic_fit" 0 in
      let w := PerfectAnalysisEngine._calculate_weighted_score scores in
      (sem < 4 ->
       final_score r = round1 (Qmin w 30)
       /\ final_score r <= 30
       /\ grade_of r = GradeF
       /\ feedback r = PerfectAnalysisEngine.CRITICAL_MISMATCH :: fb)
      /\ (4 <= sem -> sem < 7 ->
          final_score r = round1 (Qmin w 50)
          /\ final_score r <= 50
          /\ feedback r = PerfectAnalysisEngine.WEAK_ALIGNMENT :: fb))
  /\ (forall (E : Externals) (resume_file_path resume_text jd : string)
             (parsed_data : parsed) (g : Q * list string),
         jd <> "" ->
         ExperienceChecker.check_employment_gaps E (work_history parsed_data)
         = Ok g ->
         exists scores fb d,
           PerfectAnalysisEngine.run_checkers E resume_file_path resume_text
             (Some jd) parsed_data = Ok (scores, fb, d)
           /\ PerfectAnalysisEngine.analyze E resume_file_path resume_text
                (Some jd) parsed_data
              = Ok (PerfectAnalysisEngine.finish (Some jd) scores fb d)
           /\ Dict.get_default scores "semantic_fit" 0
              = fst (JDAlignmentChecker.check_semantic_fit E resume_text jd)).
Proof.
  split.
  - intros jd scores fb d Hjd r sem w.
    assert (Hp : PerfectAnalysisEngine.jd_present (Some jd) = true)
      by (apply truthy_nonempty, Hjd).
    subst r. unfold PerfectAnalysisEngine.finish,
      PerfectAnalysisEngine.mismatch_override.
    rewrite Hp. fold sem. fold w. simpl andb. split.
    + intros Hs.
      assert (Hb : Qltb sem 4.0 = true) by (apply Qltb_lt; lra).
      rewrite Hb. simpl. repeat split.
      * apply round1_comp. apply Q.min_compat; reflexivity.
      * apply (round1_le _ 30). unfold inject_Z. q_minmax; lra.
      * apply grade_F_below_60. q_minmax; lra.
    + intros Hs4 Hs7.
      assert (Hb4 : Qltb sem 4.0 = false) by (apply Qltb_ge; lra).
      assert (Hb7 : Qltb sem 7.0 = true) by (apply Qltb_lt; lra).
      rewrite Hb4, Hb7. simpl. repeat split.
      * apply round1_comp. apply Q.min_compat; reflexivity.
      * apply (round1_le _ 50). unfold inject_Z. q_minmax; lra.
  - intros E file resume jd pd g Hjd Hg.
    destruct (run_checkers_ok E file resume (Some jd) pd g Hg)
      as (scores & fb & d & Hrun & _ & Hsem & _).
    exists scores, fb, d. split; [exact Hrun|]. split.
    + apply analyze_of_run_checkers, Hrun.
    + unfold Dict.get_default. rewrite Hsem. reflexivity.
Qed.

Lemma C2_mismatch_override_witness :
  (let r := PerfectAnalysisEngine.finish (Some "Data analyst")
              mismatch_breakdown [] empty_skill_details in
   final_score r <= 30 /\ grade_of r = GradeF
   /\ feedback r = [PerfectAnalysisEngine.CRITICAL_MISMATCH])
  /\ exists scores fb d,
       PerfectAnalysisEngine.analyze sample_externals "cv.pdf"
         "Some resume text" (Some "Data analyst")
         (sample_parsed promoted_history)
       = Ok (PerfectAnalysisEngine.finish (Some "Data analyst") scores fb d).
Proof.
  destruct C2_mismatch_override as [Hfinish Hanalyze]. split.
  - destruct (Hfinish "Data analyst" mismatch_breakdown []
                empty_skill_details ltac:(discriminate)) as [H _].
    destruct (H ltac:(reflexivity)) as (_ & H1 & H2 & H3).
    repeat split; assumption.
  - destruct (Hanalyze sample_externals "cv.pdf" "Some resume text"
                "Data analyst" (sample_parsed promoted_history) (10, [])
                ltac:(discriminate) ltac:(reflexivity))
      as (scores & fb & d & _ & H & _).
    exists scores, fb, d. exact H.
Defined.

(** ** The checks on empty texts *)

(** C4: with a non-empty resume and an empty JD the semantic-fit check
    returns the full 20 points and no feedback; with an empty resume it
    returns 0 for every JD (with the message "Invalid resume text"),
    whatever the external libraries do. *)
Theorem C4_semantic_fit_empty_inputs :
  forall (E : Externals),
    (forall resume_text : string,
        resume_text <> "" ->
        JDAlignmentChecker.check_semantic_fit E resume_text "" = (20, []))
    /\ (forall jd_text : string,
           JDAlignmentChecker.check_semantic_fit E "" jd_text
           = (0, ["Invalid resume text"])).
Proof.
  intros E. split.
  - intros resume_text H. unfold JDAlignmentChecker.check_semantic_fit.
    rewrite (truthy_nonempty _ H). reflexivity.
  - intros jd_text. reflexivity.
Qed.

Lemma C4_semantic_fit_empty_inputs_witness :
  JDAlignmentChecker.check_semantic_fit sample_externals
    "Python developer, five years" "" = (20, []).
Proof.
  apply (proj1 (C4_semantic_fit_empty_inputs sample_externals)).
  discriminate.
Defined.

(** C10: with an empty JD or an empty resume the keyword-alignment check
    returns the full 15 points, no feedback and empty skill details; so
    every analysis without a JD has 15 for keyword alignment in its
    breakdown. *)
Theorem C10_keyword_alignment_without_jd :
  (forall (E : Externals) (resume_text jd_text : string),
      resume_text = "" \/ jd_text = "" ->
      JDAlignmentChecker.check_keyword_alignment E resume_text jd_text
      = (15, [], empty_skill_details))
  /\ (forall (E : Externals) (resume_file_path resume_text : string)
             (jd_text : option string) (parsed_data : parsed) (r : analysis),
         PerfectAnalysisEngine.jd_present jd_text = false ->
         PerfectAnalysisEngine.analyze E resume_file_path resume_text jd_text
           parsed_data = Ok r ->
         Dict.get (breakdown r) "keyword_alignment" = Some 15).
Proof.
  assert (Hcheck : forall (E : Externals) (resume_text jd_text : string),
             resume_text = "" \/ jd_text = "" ->
             JDAlignmentChecker.check_keyword_alignment E resume_text jd_text
             = (15, [], empty_skill_details)).
  { intros E resume_text jd_text [H|H]; subst;
      unfold JDAlignmentChecker.check_keyword_alignment.
    - destruct (PyStr.truthy jd_text); reflexivity.
    - reflexivity. }
  split; [exact Hcheck|].
  intros E file resume jd_text pd r Hjd Hr.
  destruct (ExperienceChecker.check_employment_gaps E (work_history pd))
    as [g|e] eqn:Hg.
  - destruct (run_checkers_ok E file resume jd_text pd g Hg)
      as (scores & fb & d & Hrun & _ & _ & Hkw).
    rewrite (analyze_of_run_checkers _ _ _ _ _ _ _ _ Hrun) in Hr.
    injection Hr as <-.
    destruct (finish_fields jd_text scores fb d) as (_ & _ & Hb).
    rewrite Hb, Hkw.
    rewrite Hcheck; [reflexivity|].
    right. apply truthy_false, Hjd.
  - unfold PerfectAnalysisEngine.analyze in Hr.
    rewrite (run_checkers_raise E file resume jd_text pd e Hg) in Hr.
    discriminate.
Qed.

Lemma C10_keyword_alignment_without_jd_witness :
  JDAlignmentChecker.check_keyword_alignment sample_externals
    "Python developer" "" = (15, [], empty_skill_details)
  /\ exists r,
       PerfectAnalysisEngine.analyze sample_externals "cv.pdf"
         "Python developer" None (sample_parsed promoted_history) = Ok r
       /\ Dict.get (breakdown r) "keyword_alignment" = Some 15.
Proof.
  destruct C10_keyword_alignment_without_jd as [Hcheck Hanalyze]. split.
  - apply Hcheck. right. reflexivity.
  - eexists. split; [reflexivity|].
    eapply (Hanalyze sample_externals "cv.pdf" "Python developer" None
              (sample_parsed promoted_history)); reflexivity.
Defined.

(** ** Career progression *)

(** The score of [check_career_progression] on a non-empty history, in
    one expression. *)
Lemma career_progression_score (E : Externals) (wh : list job) :
  wh <> [] ->
  fst (ExperienceChecker.check_career_progression E wh)
  == Qmin 10
       (Qmax 0
          (5
           - (if Qltb (ExperienceChecker._calculate_total_years E wh) 2
              then 2 else 0)
           + (if (0 <? ExperienceChecker.promotions_of wh)%nat
              then 2 else 0)
           - (if negb (ExperienceChecker.has_progression wh)
                 && (2 <? List.length wh)%nat
              then 1 else 0))).
Proof.
  intros Hwh. unfold ExperienceChecker.check_career_progression.
  destruct wh as [|j wh']; [congruence|].
  remember (j :: wh') as wh eqn:Hw. clear Hw Hwh.
  destruct (Qltb _ 2); destruct (0 <? _)%nat; destruct (negb _ && _);
    simpl; apply Q.min_compat; try reflexivity;
    apply Q.max_compat; try reflexivity; lra.
Qed.

Lemma career_progression_bounds (E : Externals) (wh : list job) :
  0 <= fst (ExperienceChecker.check_career_progression E wh) <= 7.
Proof.
  destruct wh as [|j wh'].
  - simpl. lra.
  - rewrite career_progression_score by discriminate.
    destruct (Qltb _ 2); destruct (0 <? _)%nat; destruct (negb _ && _);
      q_minmax; lra.
Qed.

(** The specification's reading agrees with the code on every history in
    which no company repeats a title. *)
Lemma career_progression_agrees_without_repeated_titles
    (E : Externals) (wh : list job) :
  Forall (@NoDup string) (Dict.values (ExperienceChecker.companies_of wh)) ->
  fst (ExperienceChecker.check_career_progression E wh)
  == spec_career_progression E wh.
Proof.
  intros Hnd. destruct wh as [|j wh']; [reflexivity|].
  rewrite career_progression_score by discriminate.
  unfold spec_career_progression.
  remember (j :: wh') as wh eqn:Hw. clear Hw.
  assert (Hp : (0 <? ExperienceChecker.promotions_of wh)%nat
               = distinct_title_promotion wh).
  { unfold ExperienceChecker.promotions_of, distinct_title_promotion.
    induction Hnd as [|titles l Ht Hl IH]; [reflexivity|].
    simpl. rewrite (nodup_fixed_point string_dec Ht).
    destruct (1 <? List.length titles)%nat; [reflexivity|exact IH]. }
  rewrite Hp.
  destruct (Qltb _ 2); destruct (distinct_title_promotion wh);
    destruct (negb _ && _); simpl;
    apply Q.min_compat; try reflexivity;
    apply Q.max_compat; try reflexivity; lra.
Qed.

(** C1 fails on the code: for the history [promoted_history] (two jobs at
    one company, the second under a senior title), once the dates give
    two years or more of experience, every result of [analyze] has 7 for
    career progression in its breakdown, above the 5 points of the
    table: the rule-based variant returns 5 + 2, the pattern variant
    80 / 20 = 4, and the larger one is stored unclamped. *)
Theorem C1_career_progression_exceeds_ceiling :
  forall (E : Externals) (resume_file_path resume_text : string)
         (jd_text : option string) (parsed_data : parsed) (r : analysis),
    work_history parsed_data = promoted_history ->
    2 <= ExperienceChecker._calculate_total_years E promoted_history ->
    PerfectAnalysisEngine.analyze E resume_file_path resume_text jd_text
      parsed_data = Ok r ->
    exists v,
      Dict.get (breakdown r) "career_progression" = Some v
      /\ v == 7
      /\ Dict.get PerfectAnalysisEngine.max_points "career_progression"
         = Some 5.
Proof.
  intros E file resume jd_text pd r Hwh Hyears Hr.
  destruct (ExperienceChecker.check_employment_gaps E (work_history pd))
    as [g|e] eqn:Hg.
  - destruct (run_checkers_ok E file resume jd_text pd g Hg)
      as (scores & fb & d & Hrun & Hcp & _).
    rewrite (analyze_of_run_checkers _ _ _ _ _ _ _ _ Hrun) in Hr.
    injection Hr as <-.
    destruct (finish_fields jd_text scores fb d) as (_ & _ & Hb).
    rewrite Hb, Hcp, Hwh. eexists. split; [reflexivity|].
    split; [|reflexivity].
    rewrite career_progression_score by discriminate.
    apply Qltb_ge in Hyears. rewrite Hyears.
    reflexivity.
  - unfold PerfectAnalysisEngine.analyze in Hr.
    rewrite (run_checkers_raise E file resume jd_text pd e Hg) in Hr.
    discriminate.
Qed.

Lemma C1_career_progression_exceeds_ceiling_witness :
  exists r v,
    PerfectAnalysisEngine.analyze sample_externals "cv.pdf"
      "Some resume text" None (sample_parsed promoted_history) = Ok r
    /\ Dict.get (breakdown r) "career_progression" = Some v
    /\ v == 7.
Proof.
  eexists.
  destruct (C1_career_progression_exceeds_ceiling sample_externals "cv.pdf"
              "Some resume text" None (sample_parsed promoted_history) _
              ltac:(reflexivity) ltac:(vm_compute; discriminate)
              ltac:(reflexivity)) as (v & Hv & H7 & _).
  exists v. split; [reflexivity|]. split; assumption.
Defined.

(** C8 fails on the code: the promotion bonus is given to a company that
    appears twice under the same title.  For [same_title_history], once
    the dates give two years or more of experience, the check returns 7
    and reports a promotion, where the rule of the claim (more than one
    distinct title) gives 5. *)
Theorem C8_promotion_bonus_without_distinct_titles :
  forall (E : Externals),
    2 <= ExperienceChecker._calculate_total_years E same_title_history ->
    (exists v,
        ExperienceChecker.check_career_progression E same_title_history
        = (v, ["Career progression: 1 promotion(s) detected"])
        /\ v == 7)
    /\ distinct_title_promotion same_title_history = false
    /\ spec_career_progression E same_title_history == 5.
Proof.
  intros E Hyears. apply Qltb_ge in Hyears.
  split; [|split].
  - unfold ExperienceChecker.check_career_progression.
    change (match same_title_history with [] => ?a | _ :: _ => ?b end)
      with b.
    rewrite Hyears.
    eexists. split; [reflexivity|]. reflexivity.
  - reflexivity.
  - unfold spec_career_progression.
    change (match same_title_history with [] => ?a | _ :: _ => ?b end)
      with b.
    rewrite Hyears. reflexivity.
Qed.

Lemma C8_promotion_bonus_without_distinct_titles_witness :
  fst (ExperienceChecker.check_career_progression sample_externals
         same_title_history) == 7
  /\ spec_career_progression sample_externals same_title_history == 5.
Proof.
  destruct (C8_promotion_bonus_without_distinct_titles sample_externals
              ltac:(vm_compute; discriminate)) as ((v & Hv & H7) & _ & H5).
  split; [rewrite Hv; exact H7|exact H5].
Defined.

(** ** The fusion of the rule score and the ML score *)

(** The penalty the code subtracts, for a raw file-layout score within
    its 20 points: between 0.8 and 1, largest for the worst layout. *)
Lemma fusion_penalty_range (raw_breakdown : Dict.t Q) (raw : Q) :
  Dict.get raw_breakdown "file_layout" = Some raw ->
  0 <= raw <= 20 ->
  let p := Qmin (0.1 * MLEnhancedAnalyzer.formatting_penalty raw_breakdown) 10 in
  p == (100 - raw) / 100 /\ 0.8 <= p <= 1.
Proof.
  intros Hget [H0 H20]. unfold MLEnhancedAnalyzer.formatting_penalty,
    Dict.get_default. rewrite Hget. cbv zeta.
  assert (He : (100 - raw) / 100 == (100 - raw) * (1 # 100)) by reflexivity.
  assert (Hd : (100 - raw) / 10 == (100 - raw) * (1 # 10)) by reflexivity.
  rewrite He, Hd. clear He Hd. split; q_minmax; lra.
Qed.

(** C7 fails on the code: the penalty is computed from the raw
    file-layout score (0 to 20) of the orchestrator's breakdown, not from
    its display score.  With a perfect layout (raw 20, display 100) and
    rule and ML scores of 80, the code returns 79.2 and grade C; a
    penalty proportional, by any factor, to the distance of the display
    score from 100 gives 80, and 80 is grade B. *)
Theorem C7_fusion_penalises_perfect_layout :
  file_layout_display perfect_layout_breakdown == 100
  /\ MLEnhancedAnalyzer.fused_score 80 80 perfect_layout_breakdown == 79.2
  /\ MLEnhancedAnalyzer.fuse 80 80 perfect_layout_breakdown = (79.2, GradeC)
  /\ (forall k : Q, spec_fused_score k 80 80 perfect_layout_breakdown == 80)
  /\ AdaptiveScorer._calculate_grade 80 = GradeB.
Proof.
  split; [reflexivity|]. split; [reflexivity|]. split; [reflexivity|].
  split; [|reflexivity].
  intros k. unfold spec_fused_score.
  assert (Hd : file_layout_display perfect_layout_breakdown == 100)
    by reflexivity.
  rewrite Hd.
  assert (Hz : Qmax 0 (100 - 100) == 0) by reflexivity.
  rewrite Hz, Qmult_0_r. reflexivity.
Qed.

(** ** Unparseable dates *)

Lemma decorate_none (E : Externals) (wh : list job) :
  (exists j, In j wh
             /\ ExperienceChecker._parse_date E (start_date j) = None) ->
  ExperienceChecker.decorate E wh = None.
Proof.
  intros (j & Hin & Hj). induction wh as [|j' wh IH]; [contradiction|].
  simpl. destruct Hin as [->|Hin].
  - rewrite Hj. reflexivity.
  - rewrite (IH Hin).
    destruct (ExperienceChecker._parse_date E (start_date j')); reflexivity.
Qed.

(** A job with a date that cannot be parsed adds nothing to the months of
    experience. *)
Lemma total_months_skips_unparseable (E : Externals) (l1 l2 : list job)
    (j : job) :
  ExperienceChecker._parse_date E (start_date j) = None
  \/ ExperienceChecker._parse_date E (end_date j) = None ->
  ExperienceChecker.total_months E (l1 ++ j :: l2)
  = ExperienceChecker.total_months E (l1 ++ l2).
Proof.
  intros Hj. unfold ExperienceChecker.total_months.
  rewrite !fold_left_app. simpl.
  destruct Hj as [Hj|Hj]; rewrite Hj.
  - reflexivity.
  - destruct (ExperienceChecker._parse_date E (start_date j)); reflexivity.
Qed.

(** C6 fails on the code: with two or more jobs, one start date that
    cannot be parsed makes the sort of [check_employment_gaps] raise
    [TypeError], and [analyze] with it. *)
Theorem C6_unparseable_start_date_raises :
  forall (E : Externals) (wh : list job),
    (2 <= List.length wh)%nat ->
    (exists j, In j wh
               /\ ExperienceChecker._parse_date E (start_date j) = None) ->
    ExperienceChecker.check_employment_gaps E wh = Raise TypeError
    /\ forall (resume_file_path resume_text : string)
              (jd_text : option string) (parsed_data : parsed),
         work_history parsed_data = wh ->
         PerfectAnalysisEngine.analyze E resume_file_path resume_text
           jd_text parsed_data = Raise TypeError.
Proof.
  intros E wh Hlen Hbad.
  assert (Hg : ExperienceChecker.check_employment_gaps E wh = Raise TypeError).
  { unfold ExperienceChecker.check_employment_gaps.
    destruct (List.length wh <? 2)%nat eqn:Hl.
    - apply Nat.ltb_lt in Hl. lia.
    - unfold ExperienceChecker.sorted_by_start.
      rewrite (decorate_none E wh Hbad). reflexivity. }
  split; [exact Hg|].
  intros file resume jd_text pd Hwh. subst wh.
  unfold PerfectAnalysisEngine.analyze.
  rewrite (run_checkers_raise E file resume jd_text pd TypeError Hg).
  reflexivity.
Qed.

Lemma C6_unparseable_start_date_raises_witness :
  ExperienceChecker.check_employment_gaps sample_externals
    unparseable_history = Raise TypeError
  /\ PerfectAnalysisEngine.analyze sample_externals "cv.pdf"
       "Some resume text" None (sample_parsed unparseable_history)
     = Raise TypeError.
Proof.
  destruct (C6_unparseable_start_date_raises sample_externals
              unparseable_history ltac:(simpl; lia)
              ltac:(eexists; split; [left; reflexivity|reflexivity]))
    as [Hg Ha].
  split; [exact Hg|]. apply Ha. reflexivity.
Defined.

(** ** The sort by start date *)

(** [dt_ltb] as a statement about the fields. *)
Lemma dt_ltb_spec (a b : datetime) :
  dt_ltb a b = true <->
  (year a < year b
   \/ (year a = year b
       /\ (month a < month b
           \/ (month a = month b
               /\ (day a < day b
                   \/ (day a = day b
                       /\ time_of_day a < time_of_day b))))))%Z.
Proof.
  unfold dt_ltb.
  rewrite !orb_true_iff, !andb_true_iff, !orb_true_iff, !andb_true_iff,
    !orb_true_iff, !andb_true_iff, !Z.ltb_lt, !Z.eqb_eq.
  tauto.
Qed.

(** [dt_lt] returns exactly when both datetimes are aware or both are
    naive. *)
Lemma dt_lt_returns (a b : datetime) :
  is_aware a = is_aware b -> exists v, dt_lt a b = Ok v.
Proof.
  unfold is_aware, dt_lt.
  destruct (utcoffset a), (utcoffset b); intros H; try discriminate;
    eexists; reflexivity.
Qed.

Lemma dt_lt_raises (a b : datetime) :
  is_aware a <> is_aware b -> dt_lt a b = Raise TypeError.
Proof.
  unfold is_aware, dt_lt.
  destruct (utcoffset a), (utcoffset b); intros H; congruence.
Qed.

Lemma dt_lt_same_awareness (a b : datetime) (v : bool) :
  dt_lt a b = Ok v -> is_aware a = is_aware b.
Proof.
  unfold is_aware, dt_lt.
  destruct (utcoffset a), (utcoffset b); intros H; congruence.
Qed.

(** [a < b] excludes [b < a]. *)
Lemma dt_lt_asym (a b : datetime) :
  dt_lt a b = Ok true -> dt_lt b a = Ok false.
Proof.
  unfold dt_lt.
  destruct (utcoffset a) as [oa|], (utcoffset b) as [ob|];
    intros H; try discriminate; injection H as H; f_equal.
  - apply Z.ltb_lt in H. apply Z.ltb_ge. lia.
  - destruct (dt_ltb b a) eqn:Hba; [|reflexivity].
    apply dt_ltb_spec in H. apply dt_ltb_spec in Hba. lia.
Qed.

Lemma key_le_trans (p q r : datetime * job) :
  key_le p q -> key_le q r -> key_le p r.
Proof.
  unfold key_le, dt_lt.
  destruct (utcoffset (fst p)) as [op|], (utcoffset (fst q)) as [oq|],
    (utcoffset (fst r)) as [or|]; intros Hpq Hqr; try discriminate;
    injection Hpq as Hpq; injection Hqr as Hqr; f_equal.
  - apply Z.ltb_ge in Hpq, Hqr. apply Z.ltb_ge. lia.
  - destruct (dt_ltb (fst r) (fst p)) eqn:Hrp; [|reflexivity].
    apply dt_ltb_spec in Hrp.
    assert (Hnqp : ~ dt_ltb (fst q) (fst p) = true) by congruence.
    assert (Hnrq : ~ dt_ltb (fst r) (fst q) = true) by congruence.
    rewrite dt_ltb_spec in Hnqp, Hnrq. lia.
Qed.

(** When the insertion returns, it returns a permutation, sorted when
    the list was. *)
Lemma insert_by_key_ok (x : datetime * job) (l r : list (datetime * job)) :
  ExperienceChecker.insert_by_key x l = Ok r ->
  Permutation (x :: l) r
  /\ (StronglySorted key_le l -> StronglySorted key_le r).
Proof.
  revert r. induction l as [|y l IH]; intros r; simpl.
  - intros H. injection H as <-. split; [apply Permutation_refl|].
    intros _. constructor; constructor.
  - destruct (dt_lt (fst y) (fst x)) as [[|]|e] eqn:Hyx; simpl;
      [| |discriminate].
    + destruct (ExperienceChecker.insert_by_key x l) as [rest|e] eqn:Hins;
        simpl; [|discriminate].
      intros H. injection H as <-.
      destruct (IH rest eq_refl) as [Hperm Hsorted]. split.
      * apply perm_trans with (y :: x :: l); [apply perm_swap|].
        apply perm_skip, Hperm.
      * intros Hs. inversion Hs as [|? ? Hsl Hy]; subst.
        constructor; [apply Hsorted, Hsl|].
        apply (Permutation_Forall Hperm).
        constructor; [apply dt_lt_asym, Hyx|exact Hy].
    + intros H. injection H as <-. split; [apply Permutation_refl|].
      intros Hs. inversion Hs as [|? ? Hsl Hy]; subst.
      constructor; [exact Hs|].
      constructor; [exact Hyx|].
      eapply Forall_impl; [|exact Hy].
      intros z Hz. eapply key_le_trans; [exact Hyx|exact Hz].
Qed.

Lemma sort_by_key_ok (l r : list (datetime * job)) :
  ExperienceChecker.sort_by_key l = Ok r ->
  Permutation l r /\ StronglySorted key_le r.
Proof.
  revert r. induction l as [|x l IH]; intros r; simpl.
  - intros H. injection H as <-. split; constructor.
  - destruct (ExperienceChecker.sort_by_key l) as [sorted_rest|e];
      simpl; [|discriminate].
    intros H. destruct (IH sorted_rest eq_refl) as [Hperm Hsorted].
    destruct (insert_by_key_ok x sorted_rest r H) as [Hp Hs]. split.
    + apply perm_trans with (x :: sorted_rest); [apply perm_skip, Hperm|].
      exact Hp.
    + apply Hs, Hsorted.
Qed.

(** Keys that are all aware, or all naive, are sorted without an
    error. *)
Lemma insert_by_key_returns (aware : bool) (x : datetime * job)
    (l : list (datetime * job)) :
  Forall (fun p => is_aware (fst p) = aware) (x :: l) ->
  exists r, ExperienceChecker.insert_by_key x l = Ok r.
Proof.
  intros H. inversion H as [|? ? Hx Hl]; subst. clear H.
  induction Hl as [|y l Hy Hl IH]; simpl.
  - eexists. reflexivity.
  - destruct (dt_lt_returns (fst y) (fst x)) as [v Hv]; [congruence|].
    rewrite Hv. simpl. destruct v; [|eexists; reflexivity].
    destruct IH as [rest Hrest]. rewrite Hrest. simpl.
    eexists. reflexivity.
Qed.

Lemma sort_by_key_returns (aware : bool) (l : list (datetime * job)) :
  Forall (fun p => is_aware (fst p) = aware) l ->
  exists r, ExperienceChecker.sort_by_key l = Ok r.
Proof.
  induction 1 as [|x l Hx Hl [sorted_rest Hrest]]; simpl.
  - eexists. reflexivity.
  - rewrite Hrest. simpl.
    apply (insert_by_key_returns aware).
    constructor; [exact Hx|].
    apply (Permutation_Forall (proj1 (sort_by_key_ok _ _ Hrest))), Hl.
Qed.

(** The sort raises nothing but [TypeError]. *)
Lemma insert_by_key_raises (x : datetime * job) (l : list (datetime * job))
    (e : exn) :
  ExperienceChecker.insert_by_key x l = Raise e -> e = TypeError.
Proof.
  induction l as [|y l IH]; simpl; [discriminate|].
  unfold dt_lt.
  destruct (utcoffset (fst y)), (utcoffset (fst x)); simpl;
    try congruence;
    match goal with
    | |- context [if ?c then _ else _] => destruct c
    end; try discriminate;
    destruct (ExperienceChecker.insert_by_key x l); simpl;
    try discriminate; intros H; injection H as <-; apply IH; reflexivity.
Qed.

Lemma sort_by_key_raises (l : list (datetime * job)) (e : exn) :
  ExperienceChecker.sort_by_key l = Raise e -> e = TypeError.
Proof.
  revert e. induction l as [|x l IH]; intros e; simpl; [discriminate|].
  destruct (ExperienceChecker.sort_by_key l) as [sorted_rest|e'] eqn:Hs;
    simpl.
  - apply insert_by_key_raises.
  - intros H. injection H as <-. apply IH. reflexivity.
Qed.

(** When the sort returns, the keys were all aware or all naive. *)
Lemma sort_by_key_uniform (l r : list (datetime * job)) :
  ExperienceChecker.sort_by_key l = Ok r ->
  forall p q, In p l -> In q l -> is_aware (fst p) = is_aware (fst q).
Proof.
  revert r. induction l as [|x l IH]; intros r; simpl; [contradiction|].
  destruct (ExperienceChecker.sort_by_key l) as [sorted_rest|e] eqn:Hs;
    simpl; [|discriminate].
  intros Hins.
  destruct (sort_by_key_ok l sorted_rest Hs) as [Hperm _].
  assert (Hx : forall z, In z l -> is_aware (fst z) = is_aware (fst x)).
  { intros z Hz. destruct sorted_rest as [|y rest].
    - apply (Permutation_in _ Hperm) in Hz. contradiction.
    - assert (Hy : In y l).
      { apply (Permutation_in _ (Permutation_sym Hperm)). left.
        reflexivity. }
      simpl in Hins.
      destruct (dt_lt (fst y) (fst x)) as [v|e] eqn:Hyx; [|discriminate].
      rewrite (IH _ eq_refl z y Hz Hy).
      apply (dt_lt_same_awareness _ _ v), Hyx. }
  intros p q [->|Hp] [->|Hq].
  - reflexivity.
  - symmetry. apply Hx, Hq.
  - apply Hx, Hp.
  - apply (IH _ eq_refl p q Hp Hq).
Qed.

(** A naive key and an aware key in one list make the sort raise. *)
Lemma sort_by_key_mixed (l : list (datetime * job))
    (p q : datetime * job) :
  In p l -> In q l ->
  is_aware (fst p) = false -> is_aware (fst q) = true ->
  ExperienceChecker.sort_by_key l = Raise TypeError.
Proof.
  intros Hp Hq Hnaive Haware.
  destruct (ExperienceChecker.sort_by_key l) as [r|e] eqn:Hsort.
  - pose proof (sort_by_key_uniform l r Hsort p q Hp Hq). congruence.
  - f_equal. apply (sort_by_key_raises l), Hsort.
Qed.

(** Every job is decorated with its parsed start date. *)
Lemma decorate_some (E : Externals) (wh : list job) :
  Forall (fun j => ExperienceChecker._parse_date E (start_date j) <> None) wh ->
  exists l, ExperienceChecker.decorate E wh = Some l
            /\ map snd l = wh /\ Forall (keyed E) l.
Proof.
  induction 1 as [|j wh Hj _ (l & Hl & Hm & Hk)].
  - exists []. repeat split. constructor.
  - simpl. rewrite Hl.
    destruct (ExperienceChecker._parse_date E (start_date j)) as [k|] eqn:Hp;
      [|congruence].
    exists ((k, j) :: l). repeat split.
    + simpl. rewrite Hm. reflexivity.
    + constructor; [exact Hp|exact Hk].
Qed.

Lemma sorted_jobs_of_sorted_keys (E : Externals) (l : list (datetime * job)) :
  Forall (keyed E) l ->
  StronglySorted key_le l ->
  StronglySorted (start_le E) (map snd l).
Proof.
  intros Hk Hs. induction Hs as [|p l Hs IH Hp]; simpl.
  - constructor.
  - inversion Hk as [|? ? Hkp Hkl]; subst.
    constructor; [apply IH, Hkl|].
    apply Forall_map.
    rewrite Forall_forall in Hp, Hkl. apply Forall_forall.
    intros q Hq. unfold start_le. unfold keyed in Hkp.
    rewrite Hkp, (Hkl q Hq). exact (Hp q Hq).
Qed.

Lemma comparable_starts_parse (E : Externals) (wh : list job) :
  comparable_starts E wh ->
  Forall (fun j => ExperienceChecker._parse_date E (start_date j) <> None) wh.
Proof.
  intros [aware H]. eapply Forall_impl; [|exact H].
  intros j (d & Hd & _). congruence.
Qed.

(** With start dates that can be compared, [sorted] returns a permutation
    of the history that is ordered by start date. *)
Lemma sorted_by_start_ok (E : Externals) (wh : list job) :
  comparable_starts E wh ->
  exists sorted_history,
    ExperienceChecker.sorted_by_start E wh = Ok sorted_history
    /\ Permutation wh sorted_history
    /\ StronglySorted (start_le E) sorted_history.
Proof.
  intros Hwh.
  destruct (decorate_some E wh (comparable_starts_parse E wh Hwh))
    as (l & Hl & Hm & Hk).
  destruct Hwh as [aware Haware].
  assert (Hkeys : Forall (fun p => is_aware (fst p) = aware) l).
  { rewrite <- Hm in Haware. rewrite Forall_map in Haware.
    rewrite Forall_forall in Haware, Hk |- *.
    intros p Hp. destruct (Haware p Hp) as (d & Hd & Ha).
    pose proof (Hk p Hp) as Hkp. unfold keyed in Hkp. congruence. }
  destruct (sort_by_key_returns aware l Hkeys) as [r Hr].
  destruct (sort_by_key_ok l r Hr) as [Hperm Hsorted].
  unfold ExperienceChecker.sorted_by_start. rewrite Hl, Hr. simpl.
  eexists. split; [reflexivity|]. split.
  - rewrite <- Hm. apply Permutation_map, Hperm.
  - apply sorted_jobs_of_sorted_keys; [|exact Hsorted].
    apply (Permutation_Forall Hperm), Hk.
Qed.

(** With two or more jobs, a naive and an aware start date in one history
    make the check raise [TypeError], as an unparseable one does: "now"
    is naive, a date read with its time zone is aware. *)
Lemma mixed_awareness_raises (E : Externals) (wh : list job)
    (a b : job) (da db : datetime) :
  In a wh -> In b wh ->
  ExperienceChecker._parse_date E (start_date a) = Some da ->
  ExperienceChecker._parse_date E (start_date b) = Some db ->
  is_aware da = false -> is_aware db = true ->
  ExperienceChecker.check_employment_gaps E wh = Raise TypeError.
Proof.
  intros Ha Hb Hda Hdb Hnaive Haware.
  unfold ExperienceChecker.check_employment_gaps.
  destruct (List.length wh <? 2)%nat eqn:Hlen.
  - exfalso. destruct wh as [|x [|y wh']]; try discriminate.
    + contradiction.
    + destruct Ha as [->|[]]. destruct Hb as [->|[]]. congruence.
  - unfold ExperienceChecker.sorted_by_start.
    destruct (ExperienceChecker.decorate E wh) as [l|] eqn:Hl;
      [|reflexivity].
    assert (Hkeyed : forall j d,
               In j wh ->
               ExperienceChecker._parse_date E (start_date j) = Some d ->
               In (d, j) l).
    { clear Ha Hb Hlen. revert l Hl.
      induction wh as [|x wh IH]; intros l Hl j d Hj Hd; [contradiction|].
      simpl in Hl.
      destruct (ExperienceChecker._parse_date E (start_date x)) as [k|]
        eqn:Hk; [|discriminate].
      destruct (ExperienceChecker.decorate E wh) as [l'|]; [|discriminate].
      injection Hl as <-. destruct Hj as [->|Hj].
      - left. congruence.
      - right. apply (IH l' eq_refl j d Hj Hd). }
    rewrite (sort_by_key_mixed l (da, a) (db, b)
               (Hkeyed a da Ha Hda) (Hkeyed b db Hb Hdb) Hnaive Haware).
    reflexivity.
Qed.



(** ** Employment gaps *)



(** The history of the analyst with the first start date written with its
    time zone: the sort compares an aware with a naive datetime. *)
Example aware_start_date_raises :
  ExperienceChecker.check_employment_gaps sample_externals
    [ mk_job "Analyst" "Initech" "2015-01-01T00:00:00Z" "01/2017";
      mk_job "Analyst" "Globex" "03/2018" "present" ]
  = Raise TypeError.
Proof.
  apply (mixed_awareness_raises sample_externals _
           (mk_job "Analyst" "Globex" "03/2018" "present")
           (mk_job "Analyst" "Initech" "2015-01-01T00:00:00Z" "01/2017")
           (mk_datetime 2018 3 4 0 None)
           (mk_datetime 2015 1 1 0 (Some 0%Z)));
    try reflexivity; simpl; tauto.
Qed.

(** ** The skill matcher *)

Section MatcherFacts.
Variable E : Externals.
Variables (fuzzy_threshold kb_threshold : Q).

Let is_match := SmartSkillMatcher._is_match E fuzzy_threshold kb_threshold.

Lemma mem_In (x : string) (l : list string) :
  PyStr.mem x l = true <-> In x l.
Proof.
  unfold PyStr.mem. rewrite existsb_exists. split.
  - intros (y & Hy & He). apply String.eqb_eq in He. subst. exact Hy.
  - intros H. exists x. split; [exact H|apply String.eqb_refl].
Qed.

(** Rule 1: a JD skill equal to a resume skill is a match. *)
Lemma exact_match (jd_skill : string) (resume_skills : list string) :
  In jd_skill resume_skills -> is_match jd_skill resume_skills = true.
Proof.
  intros H. unfold is_match, SmartSkillMatcher._is_match.
  apply mem_In in H. rewrite H. reflexivity.
Qed.

Lemma set_add_incl (s : list string) (x y : string) :
  In y s -> In y (SmartSkillMatcher.set_add s x).
Proof.
  intros H. unfold SmartSkillMatcher.set_add.
  destruct (PyStr.mem x s); [exact H|]. apply in_or_app. left. exact H.
Qed.

Lemma set_add_In (s : list string) (x : string) :
  In x (SmartSkillMatcher.set_add s x).
Proof.
  unfold SmartSkillMatcher.set_add.
  destruct (PyStr.mem x s) eqn:Hm.
  - apply mem_In, Hm.
  - apply in_or_app. right. left. reflexivity.
Qed.

(** The loop of [match_skills] keeps what is matched and adds every JD
    skill that matches. *)
Lemma match_loop (resume_normalized jd_skills : list string)
    (matched0 missing0 : list string) :
  let '(matched, _) :=
    fold_left (fun '(matched, missing) jd_skill =>
      let jd_norm := SmartSkillMatcher._normalize jd_skill in
      if is_match jd_norm resume_normalized
      then (SmartSkillMatcher.set_add matched jd_skill, missing)
      else (matched, (missing ++ [jd_skill])%list))
      jd_skills (matched0, missing0) in
  (forall x, In x matched0 -> In x matched)
  /\ (forall j, In j jd_skills ->
                is_match (SmartSkillMatcher._normalize j) resume_normalized
                = true ->
                In j matched).
Proof.
  revert matched0 missing0.
  induction jd_skills as [|j0 js IH]; intros matched0 missing0; simpl.
  - split; [auto|contradiction].
  - destruct (is_match (SmartSkillMatcher._normalize j0) resume_normalized)
      eqn:Hj0.
    + specialize (IH (SmartSkillMatcher.set_add matched0 j0) missing0).
      destruct (fold_left _ js _) as [matched missing].
      destruct IH as [Hkeep Hadd]. split.
      * intros x Hx. apply Hkeep, set_add_incl, Hx.
      * intros j [->|Hj] Hm; [apply Hkeep, set_add_In|apply Hadd; assumption].
    + specialize (IH matched0 (missing0 ++ [j0])%list).
      destruct (fold_left _ js _) as [matched missing].
      destruct IH as [Hkeep Hadd]. split; [exact Hkeep|].
      intros j [->|Hj] Hm; [congruence|apply Hadd; assumption].
Qed.

End MatcherFacts.

(** C9: with no required skills [match_skills] returns 100.0 (and two
    empty lists); a required skill is reported as matched whenever some
    resume skill is equal to it after both are lower-cased and stripped
    of surrounding white space; and [match_skills(["Python "], ["python"])]
    reports "python" as matched (nothing missing, 100 percent), whatever
    the thresholds and the knowledge base. *)
Theorem C9_match_skills :
  forall (E : Externals) (fuzzy_threshold kb_threshold : Q),
    (forall resume_skills : list string,
        SmartSkillMatcher.match_skills E fuzzy_threshold kb_threshold
          resume_skills [] = ([], [], 100.0))
    /\ (forall (resume_skills jd_skills : list string) (r j : string),
           In r resume_skills ->
           In j jd_skills ->
           SmartSkillMatcher._normalize r = SmartSkillMatcher._normalize j ->
           In j (fst (fst (SmartSkillMatcher.match_skills E fuzzy_threshold
                             kb_threshold resume_skills jd_skills))))
    /\ (exists pct,
           SmartSkillMatcher.match_skills E fuzzy_threshold kb_threshold
             ["Python "] ["python"] = (["python"], [], pct)
           /\ pct == 100).
Proof.
  intros E ft kt. split; [reflexivity|]. split.
  - intros resume_skills jd_skills r j Hr Hj Hnorm.
    unfold SmartSkillMatcher.match_skills.
    destruct jd_skills as [|j0 js]; [contradiction|].
    remember (j0 :: js) as jd_skills eqn:Hjs. clear Hjs.
    pose proof (match_loop E ft kt
                  (map SmartSkillMatcher._normalize resume_skills)
                  jd_skills [] []) as Hloop.
    destruct (fold_left _ jd_skills _) as [matched missing].
    destruct Hloop as [_ Hadd]. simpl. apply Hadd; [exact Hj|].
    apply exact_match. rewrite <- Hnorm. apply in_map, Hr.
  - eexists. split; [reflexivity|reflexivity].
Qed.

Lemma C9_match_skills_witness :
  In "python"
     (fst (fst (SmartSkillMatcher.match_skills sample_externals 0.8 0.5
                  ["SQL"; "Python "] ["python"; "Kafka"]))).
Proof.
  apply (proj1 (proj2 (C9_match_skills sample_externals 0.8 0.5))
           ["SQL"; "Python "] ["python"; "Kafka"] "Python " "python").
  - right. left. reflexivity.
  - left. reflexivity.
  - reflexivity.
Defined.

(** ** The sub-scores that stay within the points table *)

Lemma Qlen_nonneg {A : Type} (l : list A) : 0 <= Qlen l.
Proof.
  unfold Qlen. change 0 with (inject_Z 0). rewrite <- Zle_Qle. lia.
Qed.

Lemma Qlen_cons_pos {A : Type} (x : A) (l : list A) : 0 < Qlen (x :: l).
Proof.
  unfold Qlen. change 0 with (inject_Z 0). rewrite <- Zlt_Qlt.
  simpl List.length. lia.
Qed.

(** The share of a list that passes a test is between 0 and 1. *)
Lemma filter_rate_bounds {A : Type} (f : A -> bool) (x : A) (l : list A) :
  0 <= Qlen (filter f (x :: l)) / Qlen (x :: l) <= 1.
Proof.
  pose proof (Qlen_cons_pos x l) as Hpos.
  pose proof (Qlen_nonneg (filter f (x :: l))) as Hnn.
  assert (Hle : Qlen (filter f (x :: l)) <= Qlen (x :: l)).
  { unfold Qlen. rewrite <- Zle_Qle. apply inj_le, filter_length_le. }
  split.
  - apply Qle_shift_div_l; [exact Hpos|]. lra.
  - apply Qle_shift_div_r; [exact Hpos|]. lra.
Qed.

(** Decide every test left in the goal. *)
Ltac split_tests :=
  repeat match goal with
  | |- context [if ?c then _ else _] => destruct c
  end.

Section ScoreBounds.
Variable E : Externals.

Lemma pdf_layout_delta (file_path : string) :
  fst (FormattingChecker._check_pdf_layout E file_path) <= 0.
Proof.
  unfold FormattingChecker._check_pdf_layout.
  assert (H : forall pages (acc : Q * list string),
             fst acc <= 0 ->
             fst (fold_left
                    (fun '(score, feedback) '(tables, images) =>
                       let '(score, feedback) :=
                         if (tables : bool)
                         then (score - 5,
                               (feedback
                                ++ ["Tables detected - may break ATS parsers"])%list)
                         else (score, feedback) in
                       if (images : bool)
                       then (score - 5,
                             (feedback
                              ++ ["Images/graphics detected - avoid visual elements"])%list)
                       else (score, feedback))
                    pages acc) <= 0).
  { induction pages as [|[tables images] pages IH]; intros [score fb] Hacc.
    - exact Hacc.
    - simpl fold_left. apply IH.
      destruct tables, images; simpl in *; lra. }
  apply H. simpl. lra.
Qed.

Lemma docx_layout_delta (file_path : string) :
  fst (FormattingChecker._check_docx_layout E file_path) <= 0.
Proof.
  unfold FormattingChecker._check_docx_layout.
  destruct (docx_tables_images E file_path) as [[tables [images|]]|];
    [destruct (0 <? tables)%nat; destruct (0 <? images)%nat
    |destruct (0 <? tables)%nat|]; simpl; lra.
Qed.

Lemma file_layout_bounds (file_path : string) :
  0 <= fst (FormattingChecker.check_file_layout E file_path) <= 20.
Proof.
  unfold FormattingChecker.check_file_layout.
  pose proof (pdf_layout_delta file_path) as Hpdf.
  pose proof (docx_layout_delta file_path) as Hdocx.
  destruct (PyStr.endswith file_path ".pdf").
  - destruct (FormattingChecker._check_pdf_layout E file_path) as [delta msgs].
    simpl in *. q_minmax; lra.
  - destruct (PyStr.endswith file_path ".docx").
    + destruct (FormattingChecker._check_docx_layout E file_path)
        as [delta msgs].
      simpl in *. q_minmax; lra.
    + destruct (PyStr.endswith file_path ".txt"); simpl; q_minmax; lra.
Qed.

Lemma font_penalties_delta (fonts non_standard : list string)
    (sizes : list Q) (m1 m2 m3 : string) :
  fst (FormattingChecker.font_penalties fonts non_standard sizes m1 m2 m3)
  <= 0.
Proof.
  unfold FormattingChecker.font_penalties.
  destruct (3 <? List.length fonts)%nat; destruct non_standard;
    destruct (FormattingChecker.body_size_issue sizes); simpl; lra.
Qed.

Lemma font_consistency_bounds (file_path : string) :
  0 <= fst (FormattingChecker.check_font_consistency E file_path) <= 10.
Proof.
  unfold FormattingChecker.check_font_consistency,
    FormattingChecker._check_pdf_fonts, FormattingChecker._check_docx_fonts.
  destruct (PyStr.endswith file_path ".pdf").
  - destruct (fitz_fonts E file_path) as [[fonts sizes]|].
    + match goal with
      | |- context [FormattingChecker.font_penalties ?a ?b ?c ?d ?e ?f] =>
          pose proof (font_penalties_delta a b c d e f) as Hd;
          destruct (FormattingChecker.font_penalties a b c d e f)
      end.
      simpl in *. q_minmax; lra.
    + simpl. q_minmax; lra.
  - destruct (PyStr.endswith file_path ".docx").
    + destruct (docx_fonts E file_path) as [[fonts sizes]|].
      * match goal with
        | |- context [FormattingChecker.font_penalties ?a ?b ?c ?d ?e ?f] =>
            pose proof (font_penalties_delta a b c d e f) as Hd;
            destruct (FormattingChecker.font_penalties a b c d e f)
        end.
        simpl in *. q_minmax; lra.
      * simpl. q_minmax; lra.
    + simpl. q_minmax; lra.
Qed.

Lemma readability_bounds (text : string) :
  0 <= fst (ReadabilityChecker.check_readability E text) <= 10.
Proof.
  unfold ReadabilityChecker.check_readability.
  destruct (flesch_reading_ease E text) as [f|]; [|simpl; lra].
  destruct (Qleb 60 f && Qleb f 80); [simpl; lra|].
  destruct (Qltb f 60); [simpl; lra|].
  destruct (Qltb 80 f); simpl; lra.
Qed.

Lemma professional_language_bounds (text : string) (bullets : list string) :
  0 <= fst (ReadabilityChecker.check_professional_language text bullets)
    <= 10.
Proof.
  unfold ReadabilityChecker.check_professional_language.
  destruct bullets as [|b bullets].
  - destruct (3 <? _)%nat; simpl; q_minmax; lra.
  - remember (b :: bullets) as bs eqn:Hbs. clear Hbs.
    destruct (Qleb 0.8 _); [|destruct (Qleb 0.5 _); [|destruct (Qleb 0.3 _)]];
      destruct (3 <? _)%nat; simpl; q_minmax; lra.
Qed.

Lemma date_consistency_bounds (wh : list job) :
  0 <= fst (ExperienceChecker.check_date_consistency E wh) <= 5.
Proof.
  unfold ExperienceChecker.check_date_consistency.
  destruct wh as [|j wh]; [simpl; lra|].
  destruct (flat_map _ _) as [|d0 rest]; [simpl; lra|].
  destruct (find _ _) as [first_pattern|]; [|simpl; q_minmax; lra].
  destruct (filter _ rest); simpl; q_minmax; lra.
Qed.

Lemma employment_gaps_bounds (wh : list job) (g : Q * list string) :
  ExperienceChecker.check_employment_gaps E wh = Ok g ->
  0 <= fst g <= 10.
Proof.
  unfold ExperienceChecker.check_employment_gaps.
  destruct (List.length wh <? 2)%nat.
  - intros H. injection H as <-. simpl. lra.
  - destruct (ExperienceChecker.sorted_by_start E wh) as [sh|e];
      [|discriminate].
    simpl bind. destruct (ExperienceChecker.collect_gaps E sh) as [|z gaps].
    + intros H. injection H as <-. simpl. q_minmax; lra.
    + intros H. injection H as <-. simpl fst.
      pose proof (Qlen_nonneg (z :: gaps)) as Hn.
      q_minmax; lra.
Qed.

Lemma keyword_alignment_bounds (resume_text jd_text : string) :
  0 <= fst (fst (JDAlignmentChecker.check_keyword_alignment E resume_text
                   jd_text)) <= 15.
Proof.
  unfold JDAlignmentChecker.check_keyword_alignment.
  destruct (negb (PyStr.truthy jd_text) || negb (PyStr.truthy resume_text));
    [simpl; lra|].
  destruct (tfidf_jd_terms E jd_text resume_text) as [jd_terms|];
    [|simpl; lra].
  cbv zeta.
  match goal with
  | |- context [match jd_terms with [] => 0 | _ :: _ => ?r end] =>
      assert (Hrate : 0 <= match jd_terms with [] => 0 | _ :: _ => r end <= 1)
  end.
  { destruct jd_terms as [|t ts]; [lra|]. apply filter_rate_bounds. }
  match type of Hrate with
  | 0 <= ?m <= 1 => remember m as match_rate eqn:Hm; clear Hm
  end.
  destruct ((3 <=? _)%nat && Qltb _ 0.4); [simpl; lra|].
  destruct ((3 <=? _)%nat && Qltb _ 0.6); [simpl; lra|].
  destruct (Qltb _ 0.8); simpl; lra.
Qed.

Lemma skill_context_bounds (skills : list string) (text : string) :
  0 <= fst (JDAlignmentChecker.check_skill_context skills text) <= 5.
Proof.
  unfold JDAlignmentChecker.check_skill_context.
  destruct skills as [|s skills]; [simpl; lra|].
  remember (s :: skills) as sk eqn:Hsk. clear Hsk. cbv zeta.
  split_tests; simpl; lra.
Qed.

Lemma quantified_impact_bounds (text : string) :
  0 <= Qmax (fst (ImpactChecker.check_quantified_achievements E text))
            (ExperienceParser.quantify_impact E text / 10) <= 10.
Proof.
  assert (H1 : 0 <= fst (ImpactChecker.check_quantified_achievements E text)
               <= 10).
  { unfold ImpactChecker.check_quantified_achievements.
    destruct (negb (PyStr.truthy text)); [simpl; lra|].
    cbv zeta. split_tests; simpl; lra. }
  assert (H2 : 0 <= ExperienceParser.quantify_impact E text / 10 <= 10).
  { unfold ExperienceParser.quantify_impact.
    destruct (negb (PyStr.truthy text)); [split; vm_compute; discriminate|].
    cbv zeta. split_tests; split; vm_compute; discriminate. }
  q_minmax; lra.
Qed.

Lemma online_presence_bounds (contact : string) :
  0 <= fst (ImpactChecker.check_online_presence contact) <= 5.
Proof.
  unfold ImpactChecker.check_online_presence.
  destruct (negb (PyStr.truthy contact)); [simpl; lra|].
  cbv zeta. split_tests; simpl; lra.
Qed.

(** The checkers of [analyze] leave the dictionary [checked_scores]. *)
Lemma run_checkers_scores (resume_file_path resume_text : string)
    (jd_text : option string) (parsed_data : parsed) (g : Q * list string) :
  ExperienceChecker.check_employment_gaps E (work_history parsed_data) = Ok g ->
  exists fb d,
    PerfectAnalysisEngine.run_checkers E resume_file_path resume_text
      jd_text parsed_data
    = Ok (checked_scores E resume_file_path resume_text jd_text parsed_data
            (fst g), fb, d).
Proof.
  intros Hg. unfold PerfectAnalysisEngine.run_checkers, checked_scores.
  rewrite Hg. destruct g as [gaps_score gaps_feedback].
  unfold ExperienceParser.enhance_impact_score.
  repeat match goal with
  | |- context [match ?e with pair _ _ => _ end] =>
      destruct e as [? ?] eqn:?
  end.
  simpl. do 2 eexists. reflexivity.
Qed.

(** Ten of the twelve entries of every breakdown are within the points
    table; the other two are the career progression and the semantic
    fit. *)
Lemma breakdown_within_table (resume_file_path resume_text : string)
    (jd_text : option string) (parsed_data : parsed) (r : analysis)
    (c : category) :
  PerfectAnalysisEngine.analyze E resume_file_path resume_text jd_text
    parsed_data = Ok r ->
  c <> career_progression ->
  c <> semantic_fit ->
  exists v,
    Dict.get (breakdown r) (category_name c) = Some v
    /\ 0 <= v <= spec_max_points c.
Proof.
  intros Hr Hc1 Hc2.
  destruct (ExperienceChecker.check_employment_gaps E
              (work_history parsed_data)) as [g|e] eqn:Hg.
  - destruct (run_checkers_scores resume_file_path resume_text jd_text
                parsed_data g Hg) as (fb & d & Hrun).
    rewrite (analyze_of_run_checkers _ _ _ _ _ _ _ _ Hrun) in Hr.
    injection Hr as <-.
    destruct (finish_fields jd_text
                (checked_scores E resume_file_path resume_text jd_text
                   parsed_data (fst g)) fb d) as (_ & _ & Hb).
    rewrite Hb. unfold checked_scores.
    destruct c; try congruence; (eexists; split; [reflexivity|]).
    + apply file_layout_bounds.
    + apply font_consistency_bounds.
    + apply readability_bounds.
    + apply professional_language_bounds.
    + apply date_consistency_bounds.
    + apply (employment_gaps_bounds _ _ Hg).
    + apply keyword_alignment_bounds.
    + apply skill_context_bounds.
    + apply quantified_impact_bounds.
    + apply online_presence_bounds.
  - unfold PerfectAnalysisEngine.analyze in Hr.
    rewrite (run_checkers_raise E _ _ _ _ e Hg) in Hr. discriminate.
Qed.

End ScoreBounds.

(** The semantic fit is not clamped: with the knowledge base loaded, every
    critical term found and identical embeddings it is 1 x 20 x 1.2 = 24. *)
Lemma semantic_fit_can_exceed_ceiling :
  fst (JDAlignmentChecker.check_semantic_fit boosting_externals
         "python developer" "python") == 24.
Proof. reflexivity. Qed.

(** * Further properties of the pipeline *)

(** ** The breakdown of the orchestrator *)

(** X1: in every analysis the orchestrator returns, the entry of each
    category other than career progression and semantic fit is between
    0 and its maximum in the points table. *)
Theorem analysis_ten_categories_within_table :
  forall (E : Externals) (resume_file_path resume_text : string)
         (jd_text : option string) (parsed_data : parsed) (r : analysis)
         (c : category),
    PerfectAnalysisEngine.analyze E resume_file_path resume_text jd_text
      parsed_data = Ok r ->
    c <> career_progression ->
    c <> semantic_fit ->
    exists v,
      Dict.get (breakdown r) (category_name c) = Some v
      /\ 0 <= v <= spec_max_points c.
Proof.
  intros E file resume jd_text pd r c Hr Hc1 Hc2.
  exact (breakdown_within_table E file resume jd_text pd r c Hr Hc1 Hc2).
Qed.

Lemma analysis_ten_categories_within_table_witness :
  exists r v,
    PerfectAnalysisEngine.analyze sample_externals "cv.pdf"
      "Some resume text" (Some "Data analyst")
      (sample_parsed promoted_history) = Ok r
    /\ Dict.get (breakdown r) (category_name keyword_alignment) = Some v
    /\ 0 <= v <= spec_max_points keyword_alignment.
Proof.
  destruct (PerfectAnalysisEngine.analyze sample_externals "cv.pdf"
              "Some resume text" (Some "Data analyst")
              (sample_parsed promoted_history)) as [r|e] eqn:Hr;
    [|vm_compute in Hr; discriminate].
  exists r.
  destruct (analysis_ten_categories_within_table sample_externals "cv.pdf"
              "Some resume text" (Some "Data analyst")
              (sample_parsed promoted_history) r keyword_alignment Hr
              ltac:(discriminate) ltac:(discriminate)) as (v & Hv & Hb).
  exists v. split; [reflexivity|]. split; assumption.
Defined.

Lemma detect_progression_values (wh : list job) :
  let p := ExperienceParser.detect_progression wh in
  p = 0 \/ p = 20 \/ p = 40 \/ p = 60 \/ p = 80.
Proof.
  unfold ExperienceParser.detect_progression.
  split_tests; auto.
Qed.

(** X2: the rule-based career-progression score is between 0 and 7 for
    every history (its clamp at 10 is never reached), the pattern-based
    variant divided by 20 is between 0 and 4, and so is their maximum
    between 0 and 7. *)
Theorem career_progression_at_most_seven :
  forall (E : Externals) (wh : list job),
    0 <= fst (ExperienceChecker.check_career_progression E wh) <= 7
    /\ 0 <= ExperienceParser.detect_progression wh / 20 <= 4
    /\ 0 <= Qmax (fst (ExperienceChecker.check_career_progression E wh))
                 (ExperienceParser.detect_progression wh / 20) <= 7.
Proof.
  intros E wh.
  pose proof (career_progression_bounds E wh) as Hc.
  assert (Hd : 0 <= ExperienceParser.detect_progression wh / 20 <= 4).
  { destruct (detect_progression_values wh) as [H|[H|[H|[H|H]]]];
      rewrite H; split; vm_compute; discriminate. }
  split; [exact Hc|]. split; [exact Hd|].
  q_minmax; lra.
Qed.

(** ** The weighted score *)

Lemma max_points_positive (key : string) :
  0 < Dict.get_default PerfectAnalysisEngine.max_points key 10.
Proof.
  unfold Dict.get_default, PerfectAnalysisEngine.max_points. simpl.
  split_tests; reflexivity.
Qed.

Lemma weights_nonneg (key : string) :
  0 <= Dict.get_default PerfectAnalysisEngine.weights key 0.
Proof.
  unfold Dict.get_default, PerfectAnalysisEngine.weights. simpl.
  split_tests; vm_compute; discriminate.
Qed.

Lemma weighted_term_mono (v1 v2 m w : Q) :
  0 < m -> 0 <= w -> v1 <= v2 ->
  (v1 / m) * 100 * w <= (v2 / m) * 100 * w.
Proof.
  intros Hm Hw Hv.
  apply Qmult_le_compat_r; [|exact Hw].
  apply Qmult_le_compat_r; [|vm_compute; discriminate].
  unfold Qdiv. apply Qmult_le_compat_r; [exact Hv|].
  apply Qinv_le_0_compat, Qlt_le_weak, Hm.
Qed.

Lemma weighted_loop_mono (s1 s2 : Dict.t Q) :
  scores_le s1 s2 ->
  forall acc1 acc2 : Q,
    acc1 <= acc2 ->
    fold_left
      (fun final_score '(key, raw_score) =>
         final_score
         + (raw_score / Dict.get_default PerfectAnalysisEngine.max_points key 10)
           * 100 * Dict.get_default PerfectAnalysisEngine.weights key 0)
      s1 acc1
    <= fold_left
         (fun final_score '(key, raw_score) =>
            final_score
            + (raw_score
               / Dict.get_default PerfectAnalysisEngine.max_points key 10)
              * 100 * Dict.get_default PerfectAnalysisEngine.weights key 0)
         s2 acc2.
Proof.
  induction 1 as [|[k1 v1] [k2 v2] s1 s2 [Hk Hv] _ IH]; intros acc1 acc2 Hacc.
  - exact Hacc.
  - simpl in Hk, Hv. subst k2. simpl fold_left. apply IH.
    apply Qplus_le_compat; [exact Hacc|].
    apply weighted_term_mono;
      [apply max_points_positive|apply weights_nonneg|exact Hv].
Qed.

(** X3: the weighted score is monotone: raising raw scores (same
    categories, every value at least as large) never lowers it. *)
Theorem weighted_score_monotone :
  forall s1 s2 : Dict.t Q,
    scores_le s1 s2 ->
    PerfectAnalysisEngine._calculate_weighted_score s1
    <= PerfectAnalysisEngine._calculate_weighted_score s2.
Proof.
  intros s1 s2 H. unfold PerfectAnalysisEngine._calculate_weighted_score.
  pose proof (weighted_loop_mono s1 s2 H 0 0 (Qle_refl 0)) as Hl.
  q_minmax; lra.
Qed.

Lemma weighted_score_monotone_witness :
  PerfectAnalysisEngine._calculate_weighted_score mismatch_breakdown
  <= PerfectAnalysisEngine._calculate_weighted_score rounding_breakdown.
Proof.
  apply weighted_score_monotone.
  unfold scores_le, mismatch_breakdown, rounding_breakdown. simpl.
  repeat (constructor; [split; [reflexivity|vm_compute; discriminate]|]).
  constructor.
Defined.

(** X4: the twelve weights sum to one: a breakdown in which every
    category is at the same fraction [f] (between 0 and 1) of its maximum
    has the weighted score 100 f; at full marks it is 100. *)
Theorem weighted_score_of_uniform_fraction :
  forall (b : category -> Q) (f : Q),
    0 <= f <= 1 ->
    (forall c, b c == f * spec_max_points c) ->
    PerfectAnalysisEngine._calculate_weighted_score
      (breakdown_dict b all_categories) == 100 * f.
Proof.
  intros b f [Hf0 Hf1] Hb.
  rewrite weighted_score_formula.
  assert (Hs : spec_weighted_sum b all_categories == 100 * f).
  { unfold spec_weighted_sum, all_categories. simpl fold_right.
    rewrite !Hb. unfold spec_max_points, spec_weight. field. }
  unfold clamp_0_100. rewrite Hs. q_minmax; lra.
Qed.

Lemma weighted_score_of_uniform_fraction_witness :
  PerfectAnalysisEngine._calculate_weighted_score
    (breakdown_dict spec_max_points all_categories) == 100 * 1.
Proof.
  apply weighted_score_of_uniform_fraction.
  - split; vm_compute; discriminate.
  - intros c. destruct c; reflexivity.
Defined.

(** ** Years of experience *)

Lemma total_months_from (E : Externals) (wh : list job) (acc : Z) :
  fold_left (fun acc j =>
    match ExperienceChecker._parse_date E (start_date j),
          ExperienceChecker._parse_date E (end_date j) with
    | Some s, Some e => (acc + Z.max 0 (months_between s e))%Z
    | _, _ => acc
    end) wh acc
  = (acc + ExperienceChecker.total_months E wh)%Z
  /\ (0 <= ExperienceChecker.total_months E wh)%Z.
Proof.
  unfold ExperienceChecker.total_months. revert acc.
  induction wh as [|j wh IH]; intros acc; simpl.
  - lia.
  - destruct (ExperienceChecker._parse_date E (start_date j)) as [s|];
      [destruct (ExperienceChecker._parse_date E (end_date j)) as [e|]|];
      try (destruct (IH acc) as [H1 H2]; split; [rewrite H1; lia|exact H2]).
    destruct (IH (acc + Z.max 0 (months_between s e))%Z) as [H1 _].
    destruct (IH (Z.max 0 (months_between s e))) as [H2 H3].
    destruct (IH 0%Z) as [_ H4].
    split; [rewrite H1, H2; lia|rewrite H2; lia].
Qed.

(** A job with both dates parsed adds its months, or nothing when they
    are negative. *)
Lemma total_months_adds (E : Externals) (l1 l2 : list job) (j : job)
    (s e : datetime) :
  ExperienceChecker._parse_date E (start_date j) = Some s ->
  ExperienceChecker._parse_date E (end_date j) = Some e ->
  ExperienceChecker.total_months E (l1 ++ j :: l2)
  = (ExperienceChecker.total_months E (l1 ++ l2)
     + Z.max 0 (months_between s e))%Z.
Proof.
  intros Hs He. unfold ExperienceChecker.total_months.
  rewrite !fold_left_app. simpl. rewrite Hs, He.
  fold (ExperienceChecker.total_months E l1).
  destruct (total_months_from E l2
              (ExperienceChecker.total_months E l1
               + Z.max 0 (months_between s e))%Z) as [H1 _].
  destruct (total_months_from E l2 (ExperienceChecker.total_months E l1))
    as [H2 _].
  rewrite H1, H2. lia.
Qed.

(** X5: the years of experience are never negative; a job with a start
    or end date that cannot be parsed adds nothing: the total is the one
    of the history without it; a job with both dates parsed adds its
    months from start to end, (end.year - start.year) * 12 + end.month -
    start.month, over 12, and nothing when that number is negative: a
    job whose end precedes its start leaves the total as it is. *)
Theorem total_years_skips_unparseable :
  (forall (E : Externals) (wh : list job),
      0 <= ExperienceChecker._calculate_total_years E wh)
  /\ (forall (E : Externals) (l1 l2 : list job) (j : job),
         ExperienceChecker._parse_date E (start_date j) = None
         \/ ExperienceChecker._parse_date E (end_date j) = None ->
         ExperienceChecker._calculate_total_years E (l1 ++ j :: l2)
         = ExperienceChecker._calculate_total_years E (l1 ++ l2))
  /\ (forall (E : Externals) (l1 l2 : list job) (j : job)
             (s e : datetime),
         ExperienceChecker._parse_date E (start_date j) = Some s ->
         ExperienceChecker._parse_date E (end_date j) = Some e ->
         let months :=
           ((year e - year s) * 12 + (month e - month s))%Z in
         ((0 <= months)%Z ->
          ExperienceChecker._calculate_total_years E (l1 ++ j :: l2)
          == ExperienceChecker._calculate_total_years E (l1 ++ l2)
             + inject_Z months / 12)
         /\ ((months <= 0)%Z ->
             ExperienceChecker._calculate_total_years E (l1 ++ j :: l2)
             = ExperienceChecker._calculate_total_years E (l1 ++ l2))).
Proof.
  split; [|split].
  - intros E wh. unfold ExperienceChecker._calculate_total_years.
    destruct (total_months_from E wh 0) as [_ H].
    apply Qle_shift_div_l; [reflexivity|].
    rewrite Qmult_0_l. change 0 with (inject_Z 0). rewrite <- Zle_Qle.
    exact H.
  - intros E l1 l2 j Hj. unfold ExperienceChecker._calculate_total_years.
    rewrite (total_months_skips_unparseable E l1 l2 j Hj). reflexivity.
  - intros E l1 l2 j s e Hs He months.
    pose proof (total_months_adds E l1 l2 j s e Hs He) as Hadd.
    fold months in Hadd. change (months_between s e) with months in Hadd.
    unfold ExperienceChecker._calculate_total_years. rewrite Hadd. split.
    + intros Hpos. rewrite Z.max_r by exact Hpos.
      rewrite inject_Z_plus. field.
    + intros Hneg. rewrite Z.max_l by exact Hneg.
      rewrite Z.add_0_r. reflexivity.
Qed.

Lemma total_years_skips_unparseable_witness :
  ExperienceChecker._calculate_total_years sample_externals
    ([] ++ mk_job "Analyst" "Initech" "unknown" "01/2017"
        :: [mk_job "Analyst" "Globex" "01/2018" "01/2021"])
  = ExperienceChecker._calculate_total_years sample_externals
      ([] ++ [mk_job "Analyst" "Globex" "01/2018" "01/2021"])
  /\ ExperienceChecker._calculate_total_years sample_externals
       ([] ++ mk_job "Analyst" "Initech" "01/2017" "01/2015"
           :: [mk_job "Analyst" "Globex" "01/2018" "01/2021"])
     = ExperienceChecker._calculate_total_years sample_externals
         ([] ++ [mk_job "Analyst" "Globex" "01/2018" "01/2021"]).
Proof.
  destruct total_years_skips_unparseable as (_ & Hskip & Hadd). split.
  - apply Hskip. left. reflexivity.
  - apply (Hadd sample_externals [] _
             (mk_job "Analyst" "Initech" "01/2017" "01/2015")
             (mk_datetime 2017 1 4 0 None) (mk_datetime 2015 1 4 0 None));
      [reflexivity|reflexivity|vm_compute; discriminate].
Defined.

(** ** The fusion and the display layer *)

(** X6: for a raw file-layout score within its 20 points the fusion
    subtracts (100 - raw) / 100, between 0.8 and 1 point, so the cap of
    10 is never reached; with rule and ML scores within 0..100 the fused
    score and its rounding stay within 0..100. *)
Theorem fused_score_range :
  forall (rule_score ml_score raw : Q) (raw_breakdown : Dict.t Q),
    Dict.get raw_breakdown "file_layout" = Some raw ->
    0 <= raw <= 20 ->
    let fused :=
      MLEnhancedAnalyzer.fused_score rule_score ml_score raw_breakdown in
    fused
    == Qmax (0.5 * rule_score + 0.5 * ml_score - (100 - raw) / 100) 0
    /\ (0 <= rule_score <= 100 -> 0 <= ml_score <= 100 ->
        0 <= fused <= 100
        /\ 0 <= fst (MLEnhancedAnalyzer.fuse rule_score ml_score
                       raw_breakdown) <= 100).
Proof.
  intros rule ml raw bd Hget Hraw fused.
  destruct (fusion_penalty_range bd raw Hget Hraw) as [Hp [Hp1 Hp2]].
  cbv zeta in Hp, Hp1, Hp2.
  assert (Hf : fused
               == Qmax (0.5 * rule + 0.5 * ml - (100 - raw) / 100) 0).
  { unfold fused, MLEnhancedAnalyzer.fused_score. rewrite Hp. reflexivity. }
  split; [exact Hf|].
  intros Hr Hm.
  assert (Hb : 0 <= fused <= 100).
  { unfold fused, MLEnhancedAnalyzer.fused_score.
    remember (Qmin (0.1 * MLEnhancedAnalyzer.formatting_penalty bd) 10) as p.
    clear Heqp Hp Hf. q_minmax; lra. }
  split; [exact Hb|].
  unfold MLEnhancedAnalyzer.fuse. fold fused. simpl fst. split.
  - apply (round1_ge fused 0), Hb.
  - apply (round1_le fused 100), Hb.
Qed.

Lemma fused_score_range_witness :
  0 <= fst (MLEnhancedAnalyzer.fuse 80 80 perfect_layout_breakdown) <= 100.
Proof.
  destruct (fused_score_range 80 80 20 perfect_layout_breakdown
              ltac:(reflexivity)
              ltac:(split; vm_compute; discriminate)) as [_ H].
  apply H; split; vm_compute; discriminate.
Defined.

Lemma round_half_even_inject_Z (z : Z) : round_half_even (inject_Z z) = z.
Proof.
  unfold round_half_even. rewrite Qfloor_Z.
  destruct (Qcompare_spec (inject_Z z - inject_Z z) (1 # 2)) as [H|H|H].
  - exfalso. lra.
  - reflexivity.
  - exfalso. lra.
Qed.

Lemma round1_idempotent (x : Q) : round1 (round1 x) = round1 x.
Proof.
  unfold round1 at 1 3.
  rewrite (round_half_even_comp (round1 x * 10)
             (inject_Z (round_half_even (x * 10)))).
  - rewrite round_half_even_inject_Z. reflexivity.
  - unfold round1. field.
Qed.

(** X7: the display layer carries the orchestrator's result over
    unchanged: for every result of the orchestrator, the enhanced
    analysis has the same final score (already rounded to one decimal),
    grade, feedback and number of checks. *)
Theorem enhance_keeps_score_and_grade :
  forall (jd_text : option string) (scores : Dict.t Q) (fb : list string)
         (d : skill_details) (email phone : string),
    let r := PerfectAnalysisEngine.finish jd_text scores fb d in
    let e := AdaptiveScorer.enhance_analysis r email phone in
    enhanced_final_score e = final_score r
    /\ enhanced_grade e = grade_of r
    /\ enhanced_feedback e = feedback r
    /\ enhanced_total_checks e = total_checks r.
Proof.
  intros jd_text scores fb d email phone r e.
  destruct (finish_fields jd_text scores fb d) as (Hf & _ & _).
  fold r in Hf. unfold e, AdaptiveScorer.enhance_analysis. simpl.
  rewrite Hf, round1_idempotent. repeat split.
Qed.

(** ** The ML score *)

Lemma round2_le (x : Q) (n : Z) : x <= inject_Z n -> round2 x <= inject_Z n.
Proof.
  intros H. unfold round2.
  assert (Hr : (round_half_even (x * 100) <= n * 100)%Z).
  { apply round_half_even_le. rewrite inject_Z_mult.
    change (inject_Z 100) with 100. lra. }
  rewrite Zle_Qle, inject_Z_mult in Hr. change (inject_Z 100) with 100 in Hr.
  apply Qle_shift_div_r; [reflexivity|]. exact Hr.
Qed.

Lemma round2_ge (x : Q) (n : Z) : inject_Z n <= x -> inject_Z n <= round2 x.
Proof.
  intros H. unfold round2.
  assert (Hr : (n * 100 <= round_half_even (x * 100))%Z).
  { apply round_half_even_ge. rewrite inject_Z_mult.
    change (inject_Z 100) with 100. lra. }
  rewrite Zle_Qle, inject_Z_mult in Hr. change (inject_Z 100) with 100 in Hr.
  apply Qle_shift_div_l; [reflexivity|]. exact Hr.
Qed.

Lemma clip_bounds (x lo hi : Q) : lo <= hi -> lo <= clip x lo hi <= hi.
Proof. intros H. unfold clip. q_minmax; lra. Qed.

Lemma clip_mono (x y lo hi : Q) : x <= y -> clip x lo hi <= clip y lo hi.
Proof. intros H. unfold clip. q_minmax; lra. Qed.

(** The rescaling before the clip is the line through (0.25, 40) and
    (0.85, 95). *)
Lemma rescale_line (similarity : Q) :
  (similarity - 0.25) / (0.85 - 0.25) * 55 + 40
  == (similarity - 0.25) * (275 # 3) + 40.
Proof. field. Qed.

(** X8: the ML score is (0.0, "Invalid input") when either text is
    empty; with the embedding model loaded and encoding succeeding it is
    between 40 and 95; and whenever the TF-IDF fallback similarity, if it
    is reached, is within 0..1, the score is between 0 and 100. *)
Theorem ml_score_bounds :
  forall (K : Collaborators) (resume_text jd_text : string),
    (resume_text = "" \/ jd_text = "" ->
     MLScorer.ml_score K resume_text jd_text = (0.0, "Invalid input"))
    /\ (forall similarity : Q,
           resume_text <> "" -> jd_text <> "" ->
           embedder_loaded K = true ->
           embedder_dot K (PyStr.take 2000 resume_text)
             (PyStr.take 2000 jd_text) = Some similarity ->
           40 <= fst (MLScorer.ml_score K resume_text jd_text) <= 95)
    /\ ((forall s, tfidf_cosine K jd_text resume_text = Some s ->
                   0 <= s <= 1) ->
        0 <= fst (MLScorer.ml_score K resume_text jd_text) <= 100).
Proof.
  intros K resume jd. split; [|split].
  - intros [H|H]; subst; unfold MLScorer.ml_score.
    + reflexivity.
    + destruct (PyStr.truthy resume); reflexivity.
  - intros sim Hr Hj Hl Hd. unfold MLScorer.ml_score.
    rewrite (truthy_nonempty _ Hr), (truthy_nonempty _ Hj), Hl, Hd.
    simpl fst.
    pose proof (clip_bounds ((sim - 0.25) / (0.85 - 0.25) * 55 + 40) 40 95
                  ltac:(vm_compute; discriminate)) as Hc.
    fold (MLScorer.rescale_similarity sim) in Hc.
    split; [apply (round2_ge _ 40)|apply (round2_le _ 95)]; apply Hc.
  - intros Htf.
    assert (Hfb : 0 <= MLScorer._fallback_score K resume jd <= 1).
    { unfold MLScorer._fallback_score.
      destruct (tfidf_cosine K jd resume) as [s|] eqn:Hs.
      - apply Htf. reflexivity.
      - split; vm_compute; discriminate. }
    assert (Hce : 0 <= MLScorer._cross_encoder_score K resume jd <= 1).
    { unfold MLScorer._cross_encoder_score.
      destruct (negb (cross_encoder_loaded K)); [exact Hfb|].
      destruct (cross_encoder_sigmoid K _ _) as [n|]; [|exact Hfb].
      apply clip_bounds. vm_compute. discriminate. }
    assert (Hpath : 0 <= round2 (MLScorer._cross_encoder_score K resume jd
                                 * 100) <= 100).
    { split; [apply (round2_ge _ 0)|apply (round2_le _ 100)];
        unfold inject_Z; lra. }
    unfold MLScorer.ml_score.
    destruct (negb (PyStr.truthy resume) || negb (PyStr.truthy jd));
      [simpl; split; vm_compute; discriminate|].
    cbv zeta.
    destruct (embedder_loaded K); [|exact Hpath].
    destruct (embedder_dot K _ _) as [sim|]; [|exact Hpath].
    simpl fst.
    pose proof (clip_bounds ((sim - 0.25) / (0.85 - 0.25) * 55 + 40) 40 95
                  ltac:(vm_compute; discriminate)) as Hc.
    fold (MLScorer.rescale_similarity sim) in Hc.
    split; [apply (round2_ge _ 0)|apply (round2_le _ 100)];
      unfold inject_Z; lra.
Qed.

Lemma ml_score_bounds_witness :
  MLScorer.ml_score sample_collaborators "" "Data analyst"
  = (0.0, "Invalid input")
  /\ 40 <= fst (MLScorer.ml_score sample_collaborators "Python developer"
                  "Data analyst") <= 95
  /\ 0 <= fst (MLScorer.ml_score sample_collaborators "Python developer"
                 "Data analyst") <= 100.
Proof.
  destruct (ml_score_bounds sample_collaborators "" "Data analyst")
    as (H1 & _ & _).
  destruct (ml_score_bounds sample_collaborators "Python developer"
              "Data analyst") as (_ & H2 & H3).
  split; [apply H1; left; reflexivity|]. split.
  - apply (H2 0.7); try discriminate; reflexivity.
  - apply H3. intros s Hs. injection Hs as <-.
    split; vm_compute; discriminate.
Defined.

(** X9: the rescaling of the embedding similarity is monotone, is 40 up
    to a similarity of 0.25 and 95 from 0.85 on, and in between lies on
    the line through (0.25, 40) and (0.85, 95). *)
Theorem rescale_similarity_shape :
  (forall s1 s2 : Q,
      s1 <= s2 ->
      MLScorer.rescale_similarity s1 <= MLScorer.rescale_similarity s2)
  /\ (forall s : Q, s <= 0.25 -> MLScorer.rescale_similarity s == 40)
  /\ (forall s : Q, 0.85 <= s -> MLScorer.rescale_similarity s == 95)
  /\ (forall s : Q,
         0.25 <= s <= 0.85 ->
         MLScorer.rescale_similarity s == 40 + (s - 0.25) * (275 # 3)).
Proof.
  unfold MLScorer.rescale_similarity. repeat split.
  - intros s1 s2 H. apply clip_mono. rewrite !rescale_line. lra.
  - intros s H. unfold clip. rewrite rescale_line. q_minmax; lra.
  - intros s H. unfold clip. rewrite rescale_line. q_minmax; lra.
  - intros s [H1 H2]. unfold clip. rewrite rescale_line. q_minmax; lra.
Qed.

Lemma rescale_similarity_shape_witness :
  MLScorer.rescale_similarity 0.3 <= MLScorer.rescale_similarity 0.7
  /\ MLScorer.rescale_similarity 0.1 == 40
  /\ MLScorer.rescale_similarity 0.9 == 95
  /\ MLScorer.rescale_similarity 0.55 == 40 + (0.55 - 0.25) * (275 # 3).
Proof.
  destruct rescale_similarity_shape as (H1 & H2 & H3 & H4).
  split; [apply H1; vm_compute; discriminate|].
  split; [apply H2; vm_compute; discriminate|].
  split; [apply H3; vm_compute; discriminate|].
  apply H4. split; vm_compute; discriminate.
Defined.

(** ** The date-consistency check *)

(** X10: the date-consistency check returns 5 with no feedback or 2 with
    its one message; it returns 2 exactly when the first date string of
    the history matches one of the four patterns and some later date
    string does not match the first pattern it matches.  (So a history
    whose first date fits no pattern always gets 5.) *)
Theorem date_consistency_characterised :
  forall (E : Externals) (wh : list job),
    let r := ExperienceChecker.check_date_consistency E wh in
    ((fst r == 2
      /\ snd r
         = ["Inconsistent date formatting - use same format throughout"])
     \/ (fst r == 5 /\ snd r = []))
    /\ (fst r == 2 <->
        exists d0 rest p d,
          date_strings_of wh = d0 :: rest
          /\ find (fun p => re_match E p d0) ExperienceChecker.DATE_PATTERNS
             = Some p
          /\ In d rest
          /\ re_match E p d = false).
Proof.
  intros E wh r. subst r. unfold ExperienceChecker.check_date_consistency.
  destruct wh as [|j wh'].
  - split; [right; split; reflexivity|]. split.
    + intros H. exfalso. revert H. vm_compute. discriminate.
    + intros (d0 & rest & p & d & H & _). discriminate.
  - remember (j :: wh') as wh eqn:Hwh. clear Hwh.
    change (flat_map _ wh) with (date_strings_of wh).
    destruct (date_strings_of wh) as [|d0 rest].
    + split; [right; split; reflexivity|]. split.
      * intros H. exfalso. revert H. vm_compute. discriminate.
      * intros (d0 & rest & p & d & H & _). discriminate.
    + destruct (find (fun p => re_match E p d0)
                  ExperienceChecker.DATE_PATTERNS) as [p|] eqn:Hfind.
      * destruct (filter (fun d => negb (re_match E p d)) rest)
          as [|d bad] eqn:Hf.
        -- split; [right; split; reflexivity|]. split.
           ++ intros H. exfalso. revert H. vm_compute. discriminate.
           ++ intros (d0' & rest' & p' & d & H & Hp & Hin & Hd).
              injection H as <- <-. rewrite Hfind in Hp.
              injection Hp as <-.
              assert (Hd' : In d (filter (fun d => negb (re_match E p d)) rest)).
              { apply filter_In. split; [exact Hin|]. rewrite Hd. reflexivity. }
              rewrite Hf in Hd'. contradiction.
        -- split; [left; split; reflexivity|]. split.
           ++ intros _. exists d0, rest, p, d.
              assert (Hd : In d (filter (fun d => negb (re_match E p d)) rest))
                by (rewrite Hf; left; reflexivity).
              apply filter_In in Hd. destruct Hd as [Hin Hd].
              apply negb_true_iff in Hd. repeat split; assumption.
           ++ intros _. reflexivity.
      * split; [right; split; reflexivity|]. split.
        -- intros H. exfalso. revert H. vm_compute. discriminate.
        -- intros (d0' & rest' & p' & d & H & Hp & _).
           injection H as <- <-. rewrite Hfind in Hp. discriminate.
Qed.

(** ** The semantic fit inside the orchestrator *)

Lemma finish_capped (jd : string) (scores : Dict.t Q) (fb : list string)
    (d : skill_details) :
  jd <> "" ->
  let r := PerfectAnalysisEngine.finish (Some jd) scores fb d in
  let sem := Dict.get_default scores "semantic_fit" 0 in
  (sem < 4 ->
   final_score r <= 30 /\ grade_of r = GradeF
   /\ feedback r = PerfectAnalysisEngine.CRITICAL_MISMATCH :: fb)
  /\ (4 <= sem -> sem < 7 ->
      final_score r <= 50 /\ grade_of r = GradeF
      /\ feedback r = PerfectAnalysisEngine.WEAK_ALIGNMENT :: fb).
Proof.
  intros Hjd r sem.
  assert (Hp : PerfectAnalysisEngine.jd_present (Some jd) = true)
    by (apply truthy_nonempty, Hjd).
  subst r. unfold PerfectAnalysisEngine.finish,
    PerfectAnalysisEngine.mismatch_override.
  rewrite Hp. fold sem. simpl andb. split.
  - intros Hs.
    assert (Hb : Qltb sem 4.0 = true) by (apply Qltb_lt; lra).
    rewrite Hb. simpl. repeat split.
    + apply (round1_le _ 30). unfold inject_Z. q_minmax; lra.
    + apply grade_F_below_60. q_minmax; lra.
  - intros Hs4 Hs7.
    assert (Hb4 : Qltb sem 4.0 = false) by (apply Qltb_ge; lra).
    assert (Hb7 : Qltb sem 7.0 = true) by (apply Qltb_lt; lra).
    rewrite Hb4, Hb7. simpl. repeat split.
    + apply (round1_le _ 50). unfold inject_Z. q_minmax; lra.
    + apply grade_F_below_60. q_minmax; lra.
Qed.

Lemma critical_rate_nonneg (resume_text : string) (t : string)
    (ts : list string) :
  0 <= critical_match_rate resume_text (t :: ts) <= 1.
Proof. unfold critical_match_rate. apply filter_rate_bounds. Qed.

(** X11: a critical keyword mismatch always triggers the cap at 30.  With
    the knowledge base loaded, when fewer than a quarter of the JD's
    critical terms occur in the resume, the semantic fit is ten times
    that rate (under 2.5), and every analysis with that JD has a final
    score of at most 30, grade F and the critical-mismatch message
    first. *)
Theorem critical_mismatch_caps_at_30 :
  forall (E : Externals) (resume_file_path resume_text jd : string)
         (parsed_data : parsed) (g : Q * list string)
         (critical_terms : list string),
    resume_text <> "" ->
    jd <> "" ->
    kb_loaded E = true ->
    tfidf_critical_terms E jd = Some critical_terms ->
    critical_terms <> [] ->
    critical_match_rate resume_text critical_terms < 0.25 ->
    ExperienceChecker.check_employment_gaps E (work_history parsed_data)
    = Ok g ->
    fst (JDAlignmentChecker.check_semantic_fit E resume_text jd)
    == critical_match_rate resume_text critical_terms * 10
    /\ exists r fb,
         PerfectAnalysisEngine.analyze E resume_file_path resume_text
           (Some jd) parsed_data = Ok r
         /\ final_score r <= 30
         /\ grade_of r = GradeF
         /\ feedback r = PerfectAnalysisEngine.CRITICAL_MISMATCH :: fb.
Proof.
  intros E file resume jd pd g terms Hr Hj Hkb Ht Hne Hrate Hg.
  assert (Hsem : fst (JDAlignmentChecker.check_semantic_fit E resume jd)
                 == critical_match_rate resume terms * 10).
  { unfold JDAlignmentChecker.check_semantic_fit.
    rewrite (truthy_nonempty _ Hr), (truthy_nonempty _ Hj), Hkb. simpl negb.
    cbv iota. unfold JDAlignmentChecker._kb_enhanced_semantic_fit.
    rewrite Ht. destruct terms as [|t ts]; [congruence|].
    unfold critical_match_rate in *. apply Qltb_lt in Hrate.
    cbv beta zeta iota. rewrite Hrate. simpl fst. apply Qplus_0_l. }
  split; [exact Hsem|].
  destruct (run_checkers_ok E file resume (Some jd) pd g Hg)
    as (scores & fb & d & Hrun & _ & Hs & _).
  exists (PerfectAnalysisEngine.finish (Some jd) scores fb d), fb.
  split; [apply analyze_of_run_checkers, Hrun|].
  destruct (finish_capped jd scores fb d Hj) as [H30 _].
  apply H30. unfold Dict.get_default. rewrite Hs.
  simpl PerfectAnalysisEngine.jd_or_empty. rewrite Hsem. lra.
Qed.

Lemma critical_mismatch_caps_at_30_witness :
  exists r fb,
    PerfectAnalysisEngine.analyze mismatch_externals "cv.pdf"
      "Mechanical engineer, CAD, SolidWorks" (Some "Python Django AWS")
      (sample_parsed promoted_history) = Ok r
    /\ final_score r <= 30
    /\ grade_of r = GradeF
    /\ feedback r = PerfectAnalysisEngine.CRITICAL_MISMATCH :: fb.
Proof.
  apply (critical_mismatch_caps_at_30 mismatch_externals "cv.pdf"
           "Mechanical engineer, CAD, SolidWorks" "Python Django AWS"
           (sample_parsed promoted_history) (10, [])
           ["python"; "django"; "aws"; "kafka"]);
    try discriminate; try reflexivity.
Defined.

(** X12: when the embeddings cannot be computed the analysis is capped.
    With a non-empty resume and JD and an encoding that raises, the
    semantic-fit check gives either its fallback, 5.0 with "Semantic
    analysis failed", or, with the knowledge base loaded and under a
    quarter of the JD's critical terms in the resume, the early mismatch
    score of ten times that rate (under 2.5).  The breakdown of every
    analysis holds that score; with the fallback the final score is at
    most 50 with the warning first, with the early mismatch at most 30
    with the critical message first; the grade is F in both cases. *)
Theorem embedding_failure_caps_at_50 :
  forall (E : Externals) (resume_file_path resume_text jd : string)
         (parsed_data : parsed) (g : Q * list string),
    resume_text <> "" ->
    jd <> "" ->
    embedding_similarity E (PyStr.take 2000 resume_text)
      (PyStr.take 2000 jd) = None ->
    ExperienceChecker.check_employment_gaps E (work_history parsed_data)
    = Ok g ->
    exists r fb,
      PerfectAnalysisEngine.analyze E resume_file_path resume_text
        (Some jd) parsed_data = Ok r
      /\ Dict.get (breakdown r) "semantic_fit"
         = Some (fst (JDAlignmentChecker.check_semantic_fit E resume_text jd))
      /\ ((JDAlignmentChecker.check_semantic_fit E resume_text jd
           = (5, ["Semantic analysis failed"])
           /\ final_score r <= 50
           /\ feedback r = PerfectAnalysisEngine.WEAK_ALIGNMENT :: fb)
          \/ (kb_loaded E = true
              /\ (exists terms,
                     tfidf_critical_terms E jd = Some terms
                     /\ terms <> []
                     /\ critical_match_rate resume_text terms < 0.25
                     /\ fst (JDAlignmentChecker.check_semantic_fit E
                               resume_text jd)
                        == critical_match_rate resume_text terms * 10)
              /\ fst (JDAlignmentChecker.check_semantic_fit E resume_text jd)
                 < 2.5
              /\ final_score r <= 30
              /\ feedback r = PerfectAnalysisEngine.CRITICAL_MISMATCH :: fb))
      /\ final_score r <= 50
      /\ grade_of r = GradeF.
Proof.
  intros E file resume jd pd g Hr Hj Hemb Hg.
  assert (Hsem :
            JDAlignmentChecker.check_semantic_fit E resume jd
            = (5, ["Semantic analysis failed"])
            \/ (kb_loaded E = true
                /\ (exists terms,
                       tfidf_critical_terms E jd = Some terms
                       /\ terms <> []
                       /\ critical_match_rate resume terms < 0.25
                       /\ fst (JDAlignmentChecker.check_semantic_fit E
                                 resume jd)
                          == critical_match_rate resume terms * 10)
                /\ fst (JDAlignmentChecker.check_semantic_fit E resume jd)
                   < 2.5)).
  { unfold JDAlignmentChecker.check_semantic_fit.
    rewrite (truthy_nonempty _ Hr), (truthy_nonempty _ Hj). simpl negb.
    cbv iota.
    assert (Hstage : forall rate,
               JDAlignmentChecker.embedding_stage E resume jd rate
               = (5, ["Semantic analysis failed"])).
    { intros rate. unfold JDAlignmentChecker.embedding_stage.
      change JDAlignmentChecker.MAX_TEXT_LENGTH with 2000%nat.
      rewrite Hemb. reflexivity. }
    destruct (kb_loaded E).
    - unfold JDAlignmentChecker._kb_enhanced_semantic_fit.
      destruct (tfidf_critical_terms E jd) as [terms|].
      + cbv zeta. destruct terms as [|t ts].
        * change (Qltb 0.5 0.25) with false. cbv iota.
          left. apply Hstage.
        * fold (critical_match_rate resume (t :: ts)).
          destruct (Qltb (critical_match_rate resume (t :: ts)) 0.25)
            eqn:Hrate.
          -- right. apply Qltb_lt in Hrate. simpl fst.
             split; [reflexivity|]. split.
             ++ exists (t :: ts). split; [reflexivity|].
                split; [discriminate|]. split; [exact Hrate|].
                apply Qplus_0_l.
             ++ lra.
          -- left. apply Hstage.
      + left. apply Hstage.
    - unfold JDAlignmentChecker._direct_semantic_fit. rewrite Hemb.
      left. reflexivity. }
  destruct (run_checkers_ok E file resume (Some jd) pd g Hg)
    as (scores & fb & d & Hrun & _ & Hs & _).
  simpl PerfectAnalysisEngine.jd_or_empty in Hs.
  exists (PerfectAnalysisEngine.finish (Some jd) scores fb d), fb.
  split; [apply analyze_of_run_checkers, Hrun|].
  destruct (finish_fields (Some jd) scores fb d) as (_ & _ & Hb).
  cbv zeta in Hb. rewrite Hb.
  split; [exact Hs|].
  destruct (finish_capped jd scores fb d Hj) as [H30 H50].
  assert (Hget : Dict.get_default scores "semantic_fit" 0
                 = fst (JDAlignmentChecker.check_semantic_fit E resume jd)).
  { unfold Dict.get_default. rewrite Hs. reflexivity. }
  cbv zeta in H30, H50. rewrite Hget in H30, H50.
  destruct Hsem as [Hfb|(Hkb & Hterms & Hlt)].
  - assert (Hfive : fst (JDAlignmentChecker.check_semantic_fit E resume jd)
                    == 5) by (rewrite Hfb; reflexivity).
    destruct H50 as (H1 & H2 & H3); [lra|lra|].
    split; [|split; assumption].
    left. repeat split; assumption.
  - destruct H30 as (H1 & H2 & H3); [lra|].
    split; [|split; [lra|exact H2]].
    right. repeat split; assumption.
Qed.

Lemma embedding_failure_caps_at_50_witness :
  exists r fb,
    PerfectAnalysisEngine.analyze mismatch_externals "cv.pdf"
      "Python and Django developer on AWS" (Some "Python Django AWS")
      (sample_parsed promoted_history) = Ok r
    /\ Dict.get (breakdown r) "semantic_fit" = Some 5
    /\ final_score r <= 50
    /\ grade_of r = GradeF
    /\ feedback r = PerfectAnalysisEngine.WEAK_ALIGNMENT :: fb.
Proof.
  destruct (embedding_failure_caps_at_50 mismatch_externals "cv.pdf"
              "Python and Django developer on AWS" "Python Django AWS"
              (sample_parsed promoted_history) (10, [])
              ltac:(discriminate) ltac:(discriminate) ltac:(reflexivity)
              ltac:(reflexivity))
    as (r & fb & Ha & Hsem & Hcase & H50 & HF).
  exists r, fb. split; [exact Ha|]. split; [exact Hsem|].
  split; [exact H50|]. split; [exact HF|].
  destruct Hcase as [(_ & _ & Hfb)|(_ & _ & Hlt & _)]; [exact Hfb|].
  exfalso. vm_compute in Hlt. discriminate.
Defined.

(** ** The keyword details, the skill context and the online presence *)

Lemma In_firstn {A : Type} (n : nat) (l : list A) (x : A) :
  In x (firstn n l) -> In x l.
Proof.
  revert l. induction n as [|n IH]; intros [|y l] H; simpl in *;
    try contradiction.
  destruct H as [H|H]; [left; exact H|right; apply IH, H].
Qed.

Lemma In_firstn_filter {A : Type} (f : A -> bool) (n : nat) (l : list A)
    (x : A) :
  In x (firstn n (filter f l)) -> In x l /\ f x = true.
Proof. intros H. apply In_firstn in H. apply filter_In in H. exact H. Qed.

Lemma valid_tech_not_soft (term : string) :
  JDAlignmentChecker.is_valid_tech term = true ->
  JDAlignmentChecker.is_soft_skill term = false.
Proof.
  unfold JDAlignmentChecker.is_valid_tech.
  destruct (JDAlignmentChecker.is_soft_skill term); [|reflexivity].
  rewrite !orb_true_r. discriminate.
Qed.

(** X13: the skill details of the keyword check are sound: every term
    reported as matched (overall, technical or soft) occurs in the
    lower-cased resume and no term reported as missing does; no term is
    both technical and soft; and the six lists hold at most 15, 10, 15,
    10, 10 and 5 terms. *)
Theorem keyword_details_sound :
  forall (E : Externals) (resume_text jd_text : string),
    let d := snd (JDAlignmentChecker.check_keyword_alignment E resume_text
                    jd_text) in
    let occurs t :=
      PyStr.contains (PyStr.lower t) (PyStr.lower resume_text) in
    (forall t, In t (matched d) \/ In t (matched_technical d)
               \/ In t (matched_soft d) -> occurs t = true)
    /\ (forall t, In t (missing d) \/ In t (missing_technical d)
                  \/ In t (missing_soft d) -> occurs t = false)
    /\ (forall t, In t (matched_technical d) \/ In t (missing_technical d) ->
                  ~ In t (matched_soft d) /\ ~ In t (missing_soft d))
    /\ (List.length (matched d) <= 15
        /\ List.length (missing d) <= 10
        /\ List.length (matched_technical d) <= 15
        /\ List.length (matched_soft d) <= 10
        /\ List.length (missing_technical d) <= 10
        /\ List.length (missing_soft d) <= 5)%nat.
Proof.
  intros E resume jd d occurs. subst d.
  unfold JDAlignmentChecker.check_keyword_alignment.
  assert (Hempty :
    let d := empty_skill_details in
    (forall t, In t (matched d) \/ In t (matched_technical d)
               \/ In t (matched_soft d) -> occurs t = true)
    /\ (forall t, In t (missing d) \/ In t (missing_technical d)
                  \/ In t (missing_soft d) -> occurs t = false)
    /\ (forall t, In t (matched_technical d) \/ In t (missing_technical d) ->
                  ~ In t (matched_soft d) /\ ~ In t (missing_soft d))
    /\ (List.length (matched d) <= 15
        /\ List.length (missing d) <= 10
        /\ List.length (matched_technical d) <= 15
        /\ List.length (matched_soft d) <= 10
        /\ List.length (missing_technical d) <= 10
        /\ List.length (missing_soft d) <= 5)%nat).
  { simpl. repeat split; try lia; intros t H; intuition. }
  destruct (negb (PyStr.truthy jd) || negb (PyStr.truthy resume));
    [exact Hempty|].
  destruct (tfidf_jd_terms E jd resume) as [jd_terms|]; [|exact Hempty].
  clear Hempty. cbv zeta.
  set (in_resume := fun t : string =>
         PyStr.contains (PyStr.lower t) (PyStr.lower resume)).
  set (m := filter in_resume jd_terms).
  set (mi := filter (fun t => negb (in_resume t)) jd_terms).
  assert (Hm : forall t, In t m -> occurs t = true).
  { intros t H. apply filter_In in H. exact (proj2 H). }
  assert (Hmi : forall t, In t mi -> occurs t = false).
  { intros t H. apply filter_In in H. apply negb_true_iff. exact (proj2 H). }
  assert (Hd :
    let d := mk_skill_details (firstn 15 m) (firstn 10 mi)
               (firstn 15 (filter JDAlignmentChecker.is_valid_tech m))
               (firstn 10 (filter JDAlignmentChecker.is_soft_skill m))
               (firstn 10 (filter JDAlignmentChecker.is_valid_tech mi))
               (firstn 5 (filter JDAlignmentChecker.is_soft_skill mi)) in
    (forall t, In t (matched d) \/ In t (matched_technical d)
               \/ In t (matched_soft d) -> occurs t = true)
    /\ (forall t, In t (missing d) \/ In t (missing_technical d)
                  \/ In t (missing_soft d) -> occurs t = false)
    /\ (forall t, In t (matched_technical d) \/ In t (missing_technical d) ->
                  ~ In t (matched_soft d) /\ ~ In t (missing_soft d))
    /\ (List.length (matched d) <= 15
        /\ List.length (missing d) <= 10
        /\ List.length (matched_technical d) <= 15
        /\ List.length (matched_soft d) <= 10
        /\ List.length (missing_technical d) <= 10
        /\ List.length (missing_soft d) <= 5)%nat).
  { cbv zeta.
    cbn [matched missing matched_technical matched_soft missing_technical
         missing_soft].
    split; [|split; [|split]].
    - intros t [H|[H|H]].
      + apply Hm. eapply In_firstn, H.
      + apply Hm. apply In_firstn_filter in H. exact (proj1 H).
      + apply Hm. apply In_firstn_filter in H. exact (proj1 H).
    - intros t [H|[H|H]].
      + apply Hmi. eapply In_firstn, H.
      + apply Hmi. apply In_firstn_filter in H. exact (proj1 H).
      + apply Hmi. apply In_firstn_filter in H. exact (proj1 H).
    - intros t Ht.
      assert (Hs : JDAlignmentChecker.is_soft_skill t = false).
      { destruct Ht as [H|H]; apply In_firstn_filter in H;
          apply valid_tech_not_soft, (proj2 H). }
      split; intros H; apply In_firstn_filter in H; destruct H as [_ H];
        congruence.
    - repeat split; apply firstn_le_length. }
  split_tests; exact Hd.
Qed.

Lemma keyword_details_sound_witness :
  PyStr.contains (PyStr.lower "python")
    (PyStr.lower "Python and teamwork") = true
  /\ PyStr.contains (PyStr.lower "django")
       (PyStr.lower "Python and teamwork") = false.
Proof.
  destruct (keyword_details_sound mismatch_externals "Python and teamwork"
              "Python Django AWS") as (Hm & Hmi & _).
  split.
  - apply Hm. left. vm_compute. left. reflexivity.
  - apply Hmi. left. vm_compute. left. reflexivity.
Defined.

(** X14: the skill-context check gives (0, "No skills listed") for an
    empty skill list; for a non-empty one its score is 2.5, 3.5, 4 or 5,
    so never under 2.5, and it gives exactly one feedback message. *)
Theorem skill_context_floor :
  forall (experience_text : string),
    JDAlignmentChecker.check_skill_context [] experience_text
    = (0, ["No skills listed"])
    /\ forall (skill : string) (skills : list string),
         let r := JDAlignmentChecker.check_skill_context (skill :: skills)
                    experience_text in
         (fst r = 2.5 \/ fst r = 3.5 \/ fst r = 4 \/ fst r = 5)
         /\ 2.5 <= fst r
         /\ List.length (snd r) = 1%nat.
Proof.
  intros text. split; [reflexivity|].
  intros skill skills r. subst r.
  unfold JDAlignmentChecker.check_skill_context.
  cbv iota zeta.
  split_tests; simpl; repeat split; auto 8;
    try (vm_compute; discriminate).
Qed.

(** X15: the online-presence check gives its full 5 points exactly when
    the lower-cased contact text contains both "linkedin.com" and
    "github.com"; an empty contact text gives 0 and no feedback. *)
Theorem online_presence_full_marks :
  forall contact_text : string,
    (fst (ImpactChecker.check_online_presence contact_text) == 5 <->
     PyStr.contains "linkedin.com" (PyStr.lower contact_text) = true
     /\ PyStr.contains "github.com" (PyStr.lower contact_text) = true)
    /\ ImpactChecker.check_online_presence "" = (0, []).
Proof.
  intros contact. split; [|reflexivity].
  unfold ImpactChecker.check_online_presence.
  destruct contact as [|c s].
  - simpl. split; [intros H; exfalso; revert H; vm_compute; discriminate|].
    intros [H _]. discriminate.
  - remember (String c s) as contact eqn:Hc.
    rewrite Hc at 1. simpl negb. cbv iota zeta. clear Hc.
    destruct (PyStr.contains "linkedin.com" (PyStr.lower contact));
      destruct (PyStr.contains "github.com" (PyStr.lower contact));
      [|destruct (_ || _)| |destruct (_ || _)]; simpl;
      (split; [intros H; try (exfalso; revert H; vm_compute; discriminate);
               split; reflexivity
              |intros [H1 H2]; try discriminate; reflexivity]).
Qed.

(** ** More on the skill matcher *)

Section MatcherOrder.
Variable E : Externals.
Variables (fuzzy_threshold kb_threshold : Q).

Let is_match := SmartSkillMatcher._is_match E fuzzy_threshold kb_threshold.
Let kb_loop := SmartSkillMatcher.kb_loop E kb_threshold.

(** [_is_match] holds when one of its five rules does. *)
Lemma is_match_rules (jd_skill : string) (resume_skills : list string) :
  is_match jd_skill resume_skills
  = (PyStr.mem jd_skill resume_skills
     || existsb (fun resume_skill =>
                   PyStr.contains jd_skill resume_skill
                   || PyStr.contains resume_skill jd_skill) resume_skills
     || SmartSkillMatcher.kb_match E kb_threshold jd_skill resume_skills
     || SmartSkillMatcher.equivalents_match jd_skill resume_skills
     || existsb (fun resume_skill =>
                   Qleb fuzzy_threshold
                     (sequence_ratio E jd_skill resume_skill))
                resume_skills).
Proof.
  unfold is_match, SmartSkillMatcher._is_match.
  destruct (PyStr.mem jd_skill resume_skills); [reflexivity|].
  destruct (existsb _ resume_skills); [reflexivity|].
  destruct (SmartSkillMatcher.kb_match E kb_threshold jd_skill resume_skills);
    [reflexivity|].
  destruct (SmartSkillMatcher.equivalents_match jd_skill resume_skills);
    reflexivity.
Qed.

Lemma kb_loop_app (jd_skill label : string) (l l' : list string) :
  kb_loop jd_skill label l = true -> kb_loop jd_skill label (l ++ l') = true.
Proof.
  unfold kb_loop. induction l as [|x l IH]; simpl; [discriminate|].
  destruct (kb_search E x 1) as [[|[lbl score] rest]|]; try discriminate;
    [exact IH|].
  destruct (String.eqb label (PyStr.lower lbl) && Qleb kb_threshold score);
    [reflexivity|].
  destruct (Qleb kb_threshold score && _); [reflexivity|exact IH].
Qed.

Lemma kb_loop_single (jd_skill label : string) (l : list string) :
  kb_loop jd_skill label l = true ->
  exists x, In x l /\ kb_loop jd_skill label [x] = true.
Proof.
  unfold kb_loop. induction l as [|x l IH]; simpl; [discriminate|].
  destruct (kb_search E x 1) as [[|[lbl score] rest]|] eqn:Hs;
    try discriminate.
  - intros H. destruct (IH H) as (y & Hy & Hk). exists y. split; [right|]; auto.
  - destruct (String.eqb label (PyStr.lower lbl) && Qleb kb_threshold score)
      eqn:H1.
    + intros _. exists x. split; [left; reflexivity|].
      simpl. rewrite Hs, H1. reflexivity.
    + destruct (Qleb kb_threshold score && _) eqn:H2.
      * intros _. exists x. split; [left; reflexivity|].
        simpl. rewrite Hs, H1, H2. reflexivity.
      * intros H. destruct (IH H) as (y & Hy & Hk).
        exists y. split; [right|]; auto.
Qed.

Lemma existsb_single {A : Type} (f : A -> bool) (l : list A) :
  existsb f l = true -> exists x, In x l /\ existsb f [x] = true.
Proof.
  intros H. apply existsb_exists in H. destruct H as (x & Hx & Hf).
  exists x. split; [exact Hx|]. simpl. rewrite Hf. reflexivity.
Qed.

Lemma equivalents_single (jd_skill : string) (l : list string) :
  SmartSkillMatcher.equivalents_match jd_skill l = true ->
  exists x, In x l /\ SmartSkillMatcher.equivalents_match jd_skill [x] = true.
Proof.
  unfold SmartSkillMatcher.equivalents_match. intros H.
  apply existsb_exists in H. destruct H as ([base variants] & Hin & H).
  apply andb_true_iff in H. destruct H as [Hjd Hl].
  apply existsb_exists in Hl. destruct Hl as (x & Hx & Hf).
  exists x. split; [exact Hx|].
  apply existsb_exists. exists (base, variants). split; [exact Hin|].
  rewrite Hjd. simpl. rewrite Hf. reflexivity.
Qed.

Lemma equivalents_app (jd_skill : string) (l l' : list string) :
  SmartSkillMatcher.equivalents_match jd_skill l = true ->
  SmartSkillMatcher.equivalents_match jd_skill (l ++ l') = true.
Proof.
  unfold SmartSkillMatcher.equivalents_match. intros H.
  apply existsb_exists in H. destruct H as ([base variants] & Hin & H).
  apply andb_true_iff in H. destruct H as [Hjd Hl].
  apply existsb_exists. exists (base, variants). split; [exact Hin|].
  rewrite Hjd, existsb_app, Hl. reflexivity.
Qed.

(** More resume skills never lose a match. *)
Lemma is_match_app (jd_skill : string) (l l' : list string) :
  is_match jd_skill l = true -> is_match jd_skill (l ++ l') = true.
Proof.
  rewrite !is_match_rules. unfold PyStr.mem. rewrite !existsb_app.
  intros H.
  repeat rewrite orb_true_iff in H.
  destruct H as [[[[H|H]|H]|H]|H].
  - rewrite H. reflexivity.
  - rewrite H. rewrite !orb_true_r. reflexivity.
  - assert (Hk : SmartSkillMatcher.kb_match E kb_threshold jd_skill (l ++ l')
                 = true).
    { unfold SmartSkillMatcher.kb_match in *.
      destruct (kb_loaded E); [|discriminate].
      destruct (kb_search E jd_skill 5) as [[|[lbl s] rest]|];
        try discriminate.
      simpl in *. apply kb_loop_app, H. }
    rewrite Hk. rewrite !orb_true_r. reflexivity.
  - rewrite (equivalents_app _ _ _ H). rewrite !orb_true_r. reflexivity.
  - rewrite H. rewrite !orb_true_r. reflexivity.
Qed.

(** A match against a list is a match against one of its skills. *)
Lemma is_match_single (jd_skill : string) (l : list string) :
  is_match jd_skill l = true ->
  exists x, In x l /\ is_match jd_skill [x] = true.
Proof.
  rewrite is_match_rules. intros H.
  repeat rewrite orb_true_iff in H.
  assert (Hx : exists x, In x l /\
             (PyStr.mem jd_skill [x] = true
              \/ existsb (fun resume_skill =>
                            PyStr.contains jd_skill resume_skill
                            || PyStr.contains resume_skill jd_skill) [x] = true
              \/ SmartSkillMatcher.kb_match E kb_threshold jd_skill [x] = true
              \/ SmartSkillMatcher.equivalents_match jd_skill [x] = true
              \/ existsb (fun resume_skill =>
                            Qleb fuzzy_threshold
                              (sequence_ratio E jd_skill resume_skill)) [x]
                 = true)).
  { destruct H as [[[[H|H]|H]|H]|H].
    - destruct (existsb_single _ _ H) as (x & Hx & Hf). exists x. auto.
    - destruct (existsb_single _ _ H) as (x & Hx & Hf). exists x. auto.
    - unfold SmartSkillMatcher.kb_match in H.
      destruct (kb_loaded E) eqn:Hkb; [|discriminate].
      destruct (kb_search E jd_skill 5) as [[|[lbl s] rest]|] eqn:Hs;
        try discriminate.
      simpl in H. destruct (kb_loop_single _ _ _ H) as (x & Hx & Hk).
      exists x. split; [exact Hx|]. right. right. left.
      unfold SmartSkillMatcher.kb_match. rewrite Hkb, Hs. exact Hk.
    - destruct (equivalents_single _ _ H) as (x & Hx & Hf). exists x. auto 6.
    - destruct (existsb_single _ _ H) as (x & Hx & Hf). exists x. auto 6. }
  destruct Hx as (x & Hx & Hr). exists x. split; [exact Hx|].
  rewrite is_match_rules.
  destruct Hr as [Hr|[Hr|[Hr|[Hr|Hr]]]]; rewrite Hr;
    rewrite ?orb_true_r; reflexivity.
Qed.

Lemma set_add_iff (s : list string) (x y : string) :
  In y (SmartSkillMatcher.set_add s x) <-> In y s \/ y = x.
Proof.
  unfold SmartSkillMatcher.set_add.
  destruct (PyStr.mem x s) eqn:Hm.
  - apply mem_In in Hm. split; [auto|]. intros [H| ->]; assumption.
  - rewrite in_app_iff. simpl. intuition.
Qed.

Lemma set_add_NoDup (s : list string) (x : string) :
  NoDup s -> NoDup (SmartSkillMatcher.set_add s x).
Proof.
  intros H. unfold SmartSkillMatcher.set_add.
  destruct (PyStr.mem x s) eqn:Hm; [exact H|].
  apply NoDup_app; [exact H|constructor; [intros []|constructor]|].
  intros y Hy [<-|[]].
  apply mem_In in Hy. congruence.
Qed.

Lemma set_add_length (s : list string) (x : string) :
  (List.length (SmartSkillMatcher.set_add s x) <= S (List.length s))%nat.
Proof.
  unfold SmartSkillMatcher.set_add.
  destruct (PyStr.mem x s); [lia|]. rewrite length_app. simpl. lia.
Qed.

(** What the loop of [match_skills] leaves in its two lists. *)
Lemma match_loop_spec (resume_normalized jd_skills : list string)
    (matched0 missing0 : list string) :
  let '(matched, missing) :=
    fold_left (fun '(matched, missing) jd_skill =>
      let jd_norm := SmartSkillMatcher._normalize jd_skill in
      if is_match jd_norm resume_normalized
      then (SmartSkillMatcher.set_add matched jd_skill, missing)
      else (matched, (missing ++ [jd_skill])%list))
      jd_skills (matched0, missing0) in
  (forall x, In x matched <->
             In x matched0
             \/ (In x jd_skills
                 /\ is_match (SmartSkillMatcher._normalize x) resume_normalized
                    = true))
  /\ (forall x, In x missing <->
                In x missing0
                \/ (In x jd_skills
                    /\ is_match (SmartSkillMatcher._normalize x)
                         resume_normalized = false))
  /\ (NoDup matched0 -> NoDup matched)
  /\ (List.length matched <= List.length matched0 + List.length jd_skills)%nat.
Proof.
  revert matched0 missing0.
  induction jd_skills as [|j0 js IH]; intros matched0 missing0; simpl.
  - repeat split; try tauto; try lia; intros [H|[[] _]]; exact H.
  - destruct (is_match (SmartSkillMatcher._normalize j0) resume_normalized)
      eqn:Hj0.
    + specialize (IH (SmartSkillMatcher.set_add matched0 j0) missing0).
      destruct (fold_left _ js _) as [matched missing].
      destruct IH as (Hm & Hs & Hn & Hl). repeat split.
      * intros H. apply Hm in H. rewrite set_add_iff in H.
        destruct H as [[H| ->]|[H1 H2]]; auto.
      * intros H. apply Hm. rewrite set_add_iff.
        destruct H as [H|[[<-|H1] H2]]; auto.
      * intros H. apply Hs in H. destruct H as [H|[H1 H2]]; auto.
      * intros H. apply Hs. destruct H as [H|[[<-|H1] H2]]; auto.
        congruence.
      * intros H. apply Hn, set_add_NoDup, H.
      * pose proof (set_add_length matched0 j0). lia.
    + specialize (IH matched0 (missing0 ++ [j0])%list).
      destruct (fold_left _ js _) as [matched missing].
      destruct IH as (Hm & Hs & Hn & Hl). repeat split.
      * intros H. apply Hm in H. destruct H as [H|[H1 H2]]; auto.
      * intros H. apply Hm. destruct H as [H|[[<-|H1] H2]]; auto.
        congruence.
      * intros H. apply Hs in H. rewrite in_app_iff in H. simpl in H.
        destruct H as [[H|[<-|[]]]|[H1 H2]]; auto.
      * intros H. apply Hs. rewrite in_app_iff. simpl.
        destruct H as [H|[[<-|H1] H2]]; auto.
      * exact Hn.
      * lia.
Qed.

(** The result of [match_skills], list by list. *)
Lemma match_skills_spec (resume_skills jd_skills : list string) :
  let r := SmartSkillMatcher.match_skills E fuzzy_threshold kb_threshold
             resume_skills jd_skills in
  let rn := map SmartSkillMatcher._normalize resume_skills in
  (forall x, In x (fst (fst r)) <->
             In x jd_skills
             /\ is_match (SmartSkillMatcher._normalize x) rn = true)
  /\ (forall x, In x (snd (fst r)) <->
                In x jd_skills
                /\ is_match (SmartSkillMatcher._normalize x) rn = false)
  /\ NoDup (fst (fst r))
  /\ (List.length (fst (fst r)) <= List.length jd_skills)%nat
  /\ (jd_skills <> [] ->
      snd r == Qlen (fst (fst r)) / Qlen jd_skills * 100).
Proof.
  intros r rn. subst r. unfold SmartSkillMatcher.match_skills.
  destruct jd_skills as [|j0 js].
  - simpl. repeat split; try tauto; try constructor; try lia.
  - remember (j0 :: js) as jd_skills eqn:Hjs.
    pose proof (match_loop_spec rn jd_skills [] []) as Hloop.
    fold rn.
    destruct (fold_left _ jd_skills _) as [matched missing].
    destruct Hloop as (Hm & Hs & Hn & Hl). simpl.
    split; [|split; [|split; [|split]]].
    + intros x. rewrite Hm. simpl. tauto.
    + intros x. rewrite Hs. simpl. tauto.
    + apply Hn. constructor.
    + exact Hl.
    + intros _. reflexivity.
Qed.

End MatcherOrder.

(** X16: [match_skills] sorts every required skill into exactly one of
    its two lists: a required skill is matched or missing and never
    both, the lists hold required skills only, and the matched list has
    no repetition. *)
Theorem match_skills_partition :
  forall (E : Externals) (fuzzy_threshold kb_threshold : Q)
         (resume_skills jd_skills : list string),
    let r := SmartSkillMatcher.match_skills E fuzzy_threshold kb_threshold
               resume_skills jd_skills in
    (forall j, In j jd_skills ->
               (In j (fst (fst r)) /\ ~ In j (snd (fst r)))
               \/ (In j (snd (fst r)) /\ ~ In j (fst (fst r))))
    /\ (forall j, In j (fst (fst r)) \/ In j (snd (fst r)) -> In j jd_skills)
    /\ NoDup (fst (fst r)).
Proof.
  intros E ft kt rs js r.
  destruct (match_skills_spec E ft kt rs js) as (Hm & Hs & Hn & _).
  fold r in Hm, Hs, Hn. split; [|split; [|exact Hn]].
  - intros j Hj.
    destruct (SmartSkillMatcher._is_match E ft kt
                (SmartSkillMatcher._normalize j)
                (map SmartSkillMatcher._normalize rs)) eqn:Hmatch.
    + left. split; [apply Hm; auto|].
      intros H. apply Hs in H. destruct H as [_ H]. congruence.
    + right. split; [apply Hs; auto|].
      intros H. apply Hm in H. destruct H as [_ H]. congruence.
  - intros j [H|H]; [apply Hm in H|apply Hs in H]; exact (proj1 H).
Qed.

Lemma match_skills_partition_witness :
  (In "Kafka" (fst (fst (SmartSkillMatcher.match_skills sample_externals
                           0.8 0.5 ["SQL"; "Python "] ["python"; "Kafka"])))
   /\ ~ In "Kafka"
          (snd (fst (SmartSkillMatcher.match_skills sample_externals
                       0.8 0.5 ["SQL"; "Python "] ["python"; "Kafka"]))))
  \/ (In "Kafka"
        (snd (fst (SmartSkillMatcher.match_skills sample_externals
                     0.8 0.5 ["SQL"; "Python "] ["python"; "Kafka"])))
      /\ ~ In "Kafka"
             (fst (fst (SmartSkillMatcher.match_skills sample_externals
                          0.8 0.5 ["SQL"; "Python "] ["python"; "Kafka"])))).
Proof.
  apply (proj1 (match_skills_partition sample_externals 0.8 0.5
                  ["SQL"; "Python "] ["python"; "Kafka"])).
  right. left. reflexivity.
Defined.

(** X17: the match percentage is between 0 and 100; for a non-empty list
    of required skills it is 100 times the number of distinct matched
    skills over the number of required skills. *)
Theorem match_percentage_bounds :
  forall (E : Externals) (fuzzy_threshold kb_threshold : Q)
         (resume_skills jd_skills : list string),
    let r := SmartSkillMatcher.match_skills E fuzzy_threshold kb_threshold
               resume_skills jd_skills in
    0 <= snd r <= 100
    /\ (jd_skills <> [] ->
        snd r == Qlen (fst (fst r)) / Qlen jd_skills * 100).
Proof.
  intros E ft kt rs js r.
  destruct (match_skills_spec E ft kt rs js) as (_ & _ & _ & Hl & Hp).
  fold r in Hl, Hp. split; [|exact Hp].
  destruct js as [|j0 js'].
  - subst r. simpl. split; vm_compute; discriminate.
  - rewrite Hp by discriminate.
    pose proof (Qlen_cons_pos j0 js') as Hpos.
    pose proof (Qlen_nonneg (fst (fst r))) as Hnn.
    assert (Hle : Qlen (fst (fst r)) <= Qlen (j0 :: js')).
    { unfold Qlen. rewrite <- Zle_Qle. apply inj_le, Hl. }
    assert (Hrate : 0 <= Qlen (fst (fst r)) / Qlen (j0 :: js') <= 1).
    { split.
      - apply Qle_shift_div_l; [exact Hpos|]. lra.
      - apply Qle_shift_div_r; [exact Hpos|]. lra. }
    remember (Qlen (fst (fst r)) / Qlen (j0 :: js')) as rate.
    lra.
Qed.

Lemma match_percentage_bounds_witness :
  snd (SmartSkillMatcher.match_skills sample_externals 0.8 0.5
         ["SQL"; "Python "] ["python"; "Kafka"])
  == Qlen (fst (fst (SmartSkillMatcher.match_skills sample_externals 0.8 0.5
                       ["SQL"; "Python "] ["python"; "Kafka"])))
     / Qlen ["python"; "Kafka"] * 100.
Proof.
  apply (proj2 (match_percentage_bounds sample_externals 0.8 0.5
                  ["SQL"; "Python "] ["python"; "Kafka"])).
  discriminate.
Defined.

(** X18: more resume skills never lose a match: a required skill matched
    against a resume is still matched when further skills are appended
    to the resume's list. *)
Theorem match_skills_monotone :
  forall (E : Externals) (fuzzy_threshold kb_threshold : Q)
         (resume_skills more_skills jd_skills : list string) (j : string),
    In j (fst (fst (SmartSkillMatcher.match_skills E fuzzy_threshold
                      kb_threshold resume_skills jd_skills))) ->
    In j (fst (fst (SmartSkillMatcher.match_skills E fuzzy_threshold
                      kb_threshold (resume_skills ++ more_skills)
                      jd_skills))).
Proof.
  intros E ft kt rs more js j H.
  destruct (match_skills_spec E ft kt rs js) as (Hm & _).
  destruct (match_skills_spec E ft kt (rs ++ more) js) as (Hm' & _).
  apply Hm in H. destruct H as [Hj Hmatch].
  apply Hm'. split; [exact Hj|].
  rewrite map_app. apply is_match_app, Hmatch.
Qed.

Lemma match_skills_monotone_witness :
  In "python"
     (fst (fst (SmartSkillMatcher.match_skills sample_externals 0.8 0.5
                  (["Python "] ++ ["SQL"; "Kafka"]) ["python"; "Go"]))).
Proof.
  apply match_skills_monotone. vm_compute. left. reflexivity.
Defined.

Lemma dict_get_set {V : Type} (d : Dict.t V) (k k' : string) (v : V) :
  Dict.get (Dict.set d k v) k'
  = if String.eqb k' k then Some v else Dict.get d k'.
Proof.
  induction d as [|[k0 v0] d IH]; simpl.
  - reflexivity.
  - destruct (String.eqb k k0) eqn:Hk; simpl.
    + apply String.eqb_eq in Hk. subst k0.
      destruct (String.eqb k' k); reflexivity.
    + rewrite IH. destruct (String.eqb k' k0) eqn:Hk'; [|reflexivity].
      apply String.eqb_eq in Hk'. subst k0.
      destruct (String.eqb k' k) eqn:Hkk; [|reflexivity].
      apply String.eqb_eq in Hkk. subst k'.
      rewrite String.eqb_refl in Hk. discriminate.
Qed.

(** The dictionary built by setting, key after key, the value [f] finds
    for it holds that value for every key of the list that has one. *)
Lemma dict_fold_get (f : string -> option string) (keys : list string)
    (d0 : Dict.t string) (j r : string) :
  f j = Some r ->
  In j keys \/ Dict.get d0 j = Some r ->
  Dict.get
    (fold_left (fun d k =>
                  match f k with
                  | Some v => Dict.set d k v
                  | None => d
                  end) keys d0) j = Some r.
Proof.
  intros Hf. revert d0.
  induction keys as [|k keys IH]; intros d0 H; simpl.
  - destruct H as [[]|H]. exact H.
  - apply IH.
    destruct (String.eqb j k) eqn:Hjk.
    + apply String.eqb_eq in Hjk. subst k. right.
      rewrite Hf, dict_get_set, String.eqb_refl. reflexivity.
    + destruct H as [[->|H]|H].
      * rewrite String.eqb_refl in Hjk. discriminate.
      * left. exact H.
      * right. destruct (f k); [|exact H].
        rewrite dict_get_set, Hjk. exact H.
Qed.

(** What [find] returns is the first element that passes the test. *)
Lemma find_first {A : Type} (f : A -> bool) (l : list A) (x : A) :
  find f l = Some x ->
  exists before after,
    l = (before ++ x :: after)%list
    /\ f x = true
    /\ Forall (fun y => f y = false) before.
Proof.
  induction l as [|y l IH]; simpl; [discriminate|].
  destruct (f y) eqn:Hy.
  - intros H. injection H as <-. exists [], l. repeat split.
    + exact Hy.
    + constructor.
  - intros H. destruct (IH H) as (before & after & -> & Hx & Hb).
    exists (y :: before), after. repeat split.
    + exact Hx.
    + constructor; assumption.
Qed.

(** A key of the dictionary built key after key is one of the keys, or
    was there before. *)
Lemma dict_fold_keys (f : string -> option string) (keys : list string)
    (d0 : Dict.t string) (j r : string) :
  Dict.get
    (fold_left (fun d k =>
                  match f k with
                  | Some v => Dict.set d k v
                  | None => d
                  end) keys d0) j = Some r ->
  In j keys \/ Dict.get d0 j = Some r.
Proof.
  revert d0. induction keys as [|k keys IH]; intros d0; simpl.
  - intros H. right. exact H.
  - intros H. destruct (IH _ H) as [Hin|Hget]; [left; right; exact Hin|].
    destruct (f k) as [v|]; [|right; exact Hget].
    rewrite dict_get_set in Hget.
    destruct (String.eqb j k) eqn:Hjk; [|right; exact Hget].
    apply String.eqb_eq in Hjk. left. left. symmetry. exact Hjk.
Qed.

(** X19: the match map of [get_match_details] has an entry for every
    matched skill and for no other skill: the entry of a matched skill is
    the first skill of the resume, in the order of the resume, that
    matches it on its own; no skill before it in the resume does. *)
Theorem match_map_covers_matched :
  forall (E : Externals) (fuzzy_threshold kb_threshold : Q)
         (resume_skills jd_skills : list string) (j : string),
    let details :=
      SmartSkillMatcher.get_match_details E fuzzy_threshold kb_threshold
        resume_skills jd_skills in
    let matches_alone resume_skill :=
      SmartSkillMatcher._is_match E fuzzy_threshold kb_threshold
        (SmartSkillMatcher._normalize j)
        [SmartSkillMatcher._normalize resume_skill] in
    (In j (SmartSkillMatcher.matched_skills details) ->
     exists before r after,
       Dict.get (SmartSkillMatcher.match_map details) j = Some r
       /\ resume_skills = (before ++ r :: after)%list
       /\ matches_alone r = true
       /\ Forall (fun s => matches_alone s = false) before)
    /\ (forall r,
           Dict.get (SmartSkillMatcher.match_map details) j = Some r ->
           In j (SmartSkillMatcher.matched_skills details)).
Proof.
  intros E ft kt rs js j details matches_alone. subst details.
  unfold SmartSkillMatcher.get_match_details in *.
  destruct (match_skills_spec E ft kt rs js) as (Hm & _).
  destruct (SmartSkillMatcher.match_skills E ft kt rs js)
    as [[matched missing] pct].
  simpl in Hm |- *. split.
  - intros Hj.
    destruct (proj1 (Hm j) Hj) as [_ Hmatch].
    destruct (is_match_single E ft kt _ _ Hmatch) as (x & Hx & Hsingle).
    apply in_map_iff in Hx. destruct Hx as (r0 & <- & Hr0).
    destruct (find matches_alone rs) as [r|] eqn:Hfind.
    + destruct (find_first matches_alone rs r Hfind)
        as (before & after & Hrs & Hr & Hbefore).
      exists before, r, after.
      split; [|split; [exact Hrs|split; [exact Hr|exact Hbefore]]].
      apply (dict_fold_get
               (fun k => find (fun resume_skill =>
                                 SmartSkillMatcher._is_match E ft kt
                                   (SmartSkillMatcher._normalize k)
                                   [SmartSkillMatcher._normalize resume_skill])
                              rs)).
      * exact Hfind.
      * left. exact Hj.
    + exfalso. pose proof (find_none _ _ Hfind r0 Hr0) as Hn.
      unfold matches_alone in Hn. congruence.
  - intros r Hget.
    destruct (dict_fold_keys
                (fun k => find (fun resume_skill =>
                                  SmartSkillMatcher._is_match E ft kt
                                    (SmartSkillMatcher._normalize k)
                                    [SmartSkillMatcher._normalize resume_skill])
                               rs) matched [] j r Hget) as [Hin|Hnone].
    + exact Hin.
    + discriminate.
Qed.

Lemma match_map_covers_matched_witness :
  exists before after,
    Dict.get
      (SmartSkillMatcher.match_map
         (SmartSkillMatcher.get_match_details sample_externals 0.8 0.5
            ["SQL"; "Python "; "python"] ["python"; "Kafka"])) "python"
    = Some "Python "
    /\ ["SQL"; "Python "; "python"] = (before ++ "Python " :: after)%list.
Proof.
  destruct (proj1 (match_map_covers_matched sample_externals 0.8 0.5
                     ["SQL"; "Python "; "python"] ["python"; "Kafka"]
                     "python"))
    as (before & r & after & Hr & Hrs & _ & _).
  - vm_compute. left. reflexivity.
  - assert (Hpy : r = "Python ").
    { vm_compute in Hr. congruence. }
    subst r. exists before, after. split; assumption.
Defined.

(** ** The display layer *)

Lemma sort_by_score_perm (l : list (string * Q)) :
  Permutation l (AdaptiveScorer.sort_by_score l).
Proof.
  assert (Hins : forall x l', Permutation (x :: l')
                                (AdaptiveScorer.insert_by_score x l')).
  { intros x l'. induction l' as [|y l' IH]; simpl.
    - apply Permutation_refl.
    - destruct (Qltb (snd y) (snd x)).
      + apply perm_trans with (y :: x :: l'); [apply perm_swap|].
        apply perm_skip, IH.
      + apply Permutation_refl. }
  induction l as [|x l IH]; simpl.
  - apply perm_nil.
  - apply perm_trans with (x :: AdaptiveScorer.sort_by_score l).
    + apply perm_skip, IH.
    + apply Hins.
Qed.

Lemma flat_map_length_le {A B : Type} (f : A -> list B) (l : list A) :
  (forall x, List.length (f x) <= 1)%nat ->
  (List.length (flat_map f l) <= List.length l)%nat.
Proof.
  intros Hf. induction l as [|x l IH]; simpl; [lia|].
  rewrite length_app. specialize (Hf x). lia.
Qed.

(** X20: the improvement tips are at most three; each one is the tip of
    an entry of the display breakdown whose score is under 70; and there
    is none when every display score is 70 or more. *)
Theorem improvements_at_most_three :
  forall scores : Dict.t Q,
    (List.length (AdaptiveScorer._generate_improvements scores) <= 3)%nat
    /\ (forall tip,
           In tip (AdaptiveScorer._generate_improvements scores) ->
           exists key score,
             In (key, score) scores /\ score < 70
             /\ tip = AdaptiveScorer._get_improvement_tip key score)
    /\ (Forall (fun kv => 70 <= snd kv) scores ->
        AdaptiveScorer._generate_improvements scores = []).
Proof.
  intros scores. unfold AdaptiveScorer._generate_improvements.
  split; [|split].
  - eapply Nat.le_trans.
    + apply flat_map_length_le. intros [k v].
      destruct (Qltb v 70); simpl; lia.
    + rewrite length_firstn. lia.
  - intros tip H. apply in_flat_map in H.
    destruct H as ([k v] & Hin & Htip).
    apply In_firstn in Hin.
    apply (Permutation_in _ (Permutation_sym (sort_by_score_perm scores)))
      in Hin.
    destruct (Qltb v 70) eqn:Hv; [|contradiction].
    destruct Htip as [<-|[]]. exists k, v.
    apply Qltb_lt in Hv. repeat split; assumption.
  - intros Hall.
    assert (Hsorted : Forall (fun kv => 70 <= snd kv)
                        (firstn 3 (AdaptiveScorer.sort_by_score scores))).
    { apply Forall_forall. intros kv Hin. apply In_firstn in Hin.
      apply (Permutation_in _ (Permutation_sym (sort_by_score_perm scores)))
        in Hin.
      rewrite Forall_forall in Hall. apply Hall, Hin. }
    induction Hsorted as [|[k v] l Hkv _ IH]; [reflexivity|].
    simpl. simpl in Hkv. apply Qltb_ge in Hkv. rewrite Hkv. exact IH.
Qed.

Lemma improvements_at_most_three_witness :
  AdaptiveScorer._generate_improvements
    (AdaptiveScorer.normalize_scores
       (breakdown_dict spec_max_points all_categories)) = []
  /\ exists key score,
       In (key, score) (AdaptiveScorer.normalize_scores mismatch_breakdown)
       /\ score < 70.
Proof.
  destruct (improvements_at_most_three
              (AdaptiveScorer.normalize_scores
                 (breakdown_dict spec_max_points all_categories)))
    as (_ & _ & Hnone).
  destruct (improvements_at_most_three
              (AdaptiveScorer.normalize_scores mismatch_breakdown))
    as (_ & Htip & _).
  split.
  - apply Hnone. apply Forall_forall. intros kv Hin.
    vm_compute in Hin.
    repeat (destruct Hin as [<-|Hin]; [vm_compute; discriminate|]).
    contradiction.
  - destruct (Htip "Tailor content to match job requirements more closely")
      as (key & score & Hin & Hlt & _).
    + vm_compute. left. reflexivity.
    + exists key, score. split; assumption.
Defined.

(** The display breakdown of twelve named entries. *)
Lemma normalize_twelve (v1 v2 v3 v4 v5 v6 v7 v8 v9 v10 v11 v12 : Q) :
  AdaptiveScorer.normalize_scores
    [ ("file_layout", v1); ("font_consistency", v2); ("readability", v3);
      ("professional_language", v4); ("date_consistency", v5);
      ("employment_gaps", v6); ("career_progression", v7);
      ("keyword_alignment", v8); ("skill_context", v9);
      ("semantic_fit", v10); ("quantified_impact", v11);
      ("online_presence", v12) ]
  = [ ("file_layout", v1 / 20 * 100); ("font_consistency", v2 / 10 * 100);
      ("readability", v3 / 10 * 100);
      ("professional_language", v4 / 10 * 100);
      ("date_consistency", v5 / 5 * 100);
      ("employment_gaps", v6 / 10 * 100);
      ("career_progression", v7 / 5 * 100);
      ("keyword_alignment", v8 / 15 * 100);
      ("skill_context", v9 / 5 * 100);
      ("semantic_fit", v10 / 20 * 100);
      ("quantified_impact", v11 / 10 * 100);
      ("online_presence", v12 / 5 * 100) ].
Proof. reflexivity. Qed.

Lemma boost_twelve (v1 v2 v3 v4 v5 v6 v7 v8 v9 v10 v11 v12 : Q)
    (email phone : string) :
  AdaptiveScorer.apply_adaptive_boost
    [ ("file_layout", v1); ("font_consistency", v2); ("readability", v3);
      ("professional_language", v4); ("date_consistency", v5);
      ("employment_gaps", v6); ("career_progression", v7);
      ("keyword_alignment", v8); ("skill_context", v9);
      ("semantic_fit", v10); ("quantified_impact", v11);
      ("online_presence", v12) ] email phone
  = [ ("file_layout", v1); ("font_consistency", v2); ("readability", v3);
      ("professional_language", v4); ("date_consistency", v5);
      ("employment_gaps", v6); ("career_progression", v7);
      ("keyword_alignment", v8); ("skill_context", v9);
      ("semantic_fit", v10); ("quantified_impact", v11);
      ("online_presence",
       if PyStr.truthy email && PyStr.truthy phone
       then Qmin 100 (v12 + 5) else v12) ].
Proof.
  unfold AdaptiveScorer.apply_adaptive_boost.
  destruct (PyStr.truthy email && PyStr.truthy phone); reflexivity.
Qed.

Lemma display_bounds (v m : Q) :
  0 < m -> 0 <= v <= m -> 0 <= v / m * 100 <= 100.
Proof.
  intros Hm [H0 H1].
  assert (Hr : 0 <= v / m <= 1).
  { split.
    - apply Qle_shift_div_l; [exact Hm|]. lra.
    - apply Qle_shift_div_r; [exact Hm|]. lra. }
  remember (v / m) as q. lra.
Qed.

Lemma round1_unit_interval (x : Q) : 0 <= x <= 100 -> 0 <= round1 x <= 100.
Proof.
  intros [H0 H1]. split; [apply (round1_ge x 0)|apply (round1_le x 100)];
    assumption.
Qed.

(** X21: the display breakdown stays on its scale: in the enhanced
    analysis of every result of the orchestrator, the entry of each
    category other than career progression and semantic fit is between
    0 and 100, the five-point boost of the online presence included. *)
Theorem display_breakdown_within_scale :
  forall (E : Externals) (resume_file_path resume_text : string)
         (jd_text : option string) (parsed_data : parsed) (r : analysis)
         (email phone : string) (c : category),
    PerfectAnalysisEngine.analyze E resume_file_path resume_text jd_text
      parsed_data = Ok r ->
    c <> career_progression ->
    c <> semantic_fit ->
    exists v,
      Dict.get (enhanced_breakdown
                  (AdaptiveScorer.enhance_analysis r email phone))
               (category_name c) = Some v
      /\ 0 <= v <= 100.
Proof.
  intros E file resume jd_text pd r email phone c Hr Hc1 Hc2.
  destruct (ExperienceChecker.check_employment_gaps E (work_history pd))
    as [g|e] eqn:Hg.
  - destruct (run_checkers_scores E file resume jd_text pd g Hg)
      as (fb & d & Hrun).
    rewrite (analyze_of_run_checkers _ _ _ _ _ _ _ _ Hrun) in Hr.
    injection Hr as <-.
    unfold AdaptiveScorer.enhance_analysis.
    cbn [enhanced_breakdown].
    destruct (finish_fields jd_text
                (checked_scores E file resume jd_text pd (fst g)) fb d)
      as (_ & _ & Hb).
    rewrite Hb. unfold checked_scores. cbv zeta.
    rewrite normalize_twelve, boost_twelve.
    pose proof (file_layout_bounds E file) as B1.
    pose proof (font_consistency_bounds E file) as B2.
    pose proof (readability_bounds E resume) as B3.
    pose proof (professional_language_bounds resume
                  (experience_bullets pd)) as B4.
    pose proof (date_consistency_bounds E (work_history pd)) as B5.
    pose proof (employment_gaps_bounds E _ _ Hg) as B6.
    pose proof (keyword_alignment_bounds E resume
                  (PerfectAnalysisEngine.jd_or_empty jd_text)) as B8.
    pose proof (skill_context_bounds (skills pd) (experience_text pd)) as B9.
    pose proof (quantified_impact_bounds E (experience_text pd)) as B11.
    pose proof (online_presence_bounds (contact_text pd)) as B12.
    destruct c; try congruence;
      (eexists; split; [reflexivity|]); apply round1_unit_interval.
    + apply display_bounds; [reflexivity|exact B1].
    + apply display_bounds; [reflexivity|exact B2].
    + apply display_bounds; [reflexivity|exact B3].
    + apply display_bounds; [reflexivity|exact B4].
    + apply display_bounds; [reflexivity|exact B5].
    + apply display_bounds; [reflexivity|exact B6].
    + apply display_bounds; [reflexivity|exact B8].
    + apply display_bounds; [reflexivity|exact B9].
    + apply display_bounds; [reflexivity|exact B11].
    + pose proof (display_bounds _ 5 ltac:(reflexivity) B12) as Hd.
      destruct (PyStr.truthy email && PyStr.truthy phone); [|exact Hd].
      q_minmax; lra.
  - unfold PerfectAnalysisEngine.analyze in Hr.
    rewrite (run_checkers_raise E _ _ _ _ e Hg) in Hr. discriminate.
Qed.

Lemma display_breakdown_within_scale_witness :
  exists r v,
    PerfectAnalysisEngine.analyze sample_externals "cv.pdf"
      "Some resume text" (Some "Data analyst")
      (sample_parsed promoted_history) = Ok r
    /\ Dict.get (enhanced_breakdown
                   (AdaptiveScorer.enhance_analysis r "a@example.org"
                      "5550100100"))
                (category_name online_presence) = Some v
    /\ 0 <= v <= 100.
Proof.
  destruct (PerfectAnalysisEngine.analyze sample_externals "cv.pdf"
              "Some resume text" (Some "Data analyst")
              (sample_parsed promoted_history)) as [r|e] eqn:Hr;
    [|vm_compute in Hr; discriminate].
  exists r.
  destruct (display_breakdown_within_scale sample_externals "cv.pdf"
              "Some resume text" (Some "Data analyst")
              (sample_parsed promoted_history) r "a@example.org"
              "5550100100" online_presence Hr
              ltac:(discriminate) ltac:(discriminate)) as (v & Hv & Hb).
  exists v. split; [reflexivity|]. split; assumption.
Defined.

(** ** From the parser to the orchestrator *)

Lemma jobs_from (job_titles companies : list string) (s : nat) :
  let jobs :=
    map (fun '(i, company) => mk_job (nth i job_titles "") company "" "")
        (combine (seq s (List.length companies)) companies) in
  map company jobs = companies
  /\ map title jobs
     = map (fun i => nth i job_titles "") (seq s (List.length companies))
  /\ Forall (fun j => start_date j = "" /\ end_date j = "") jobs.
Proof.
  revert s. induction companies as [|c cs IH]; intros s; simpl.
  - repeat split. constructor.
  - destruct (IH (S s)) as (H1 & H2 & H3). cbv zeta in H1, H2, H3.
    rewrite H1, H2. repeat split. constructor; [split; reflexivity|exact H3].
Qed.

Lemma adapter_jobs (K : Collaborators) (ents : entities)
    (resume_text : string) :
  let wh :=
    work_history (data (DataAdapter.adapt_ner_to_analysis K ents
                          resume_text)) in
  Forall undated wh
  /\ (ent_companies ents <> [] -> ent_job_titles ents <> [] ->
      map company wh = ent_companies ents
      /\ map title wh
         = map (fun i => nth i (ent_job_titles ents) "")
               (seq 0 (List.length (ent_companies ents))))
  /\ (ent_companies ents = [] \/ ent_job_titles ents = [] -> wh = []).
Proof.
  intros wh. subst wh.
  unfold DataAdapter.adapt_ner_to_analysis. cbn [data work_history].
  destruct (jobs_from (ent_job_titles ents) (ent_companies ents) 0)
    as (H1 & H2 & H3). cbv zeta in H1, H2, H3.
  fold (DataAdapter.jobs_of (ent_companies ents) (ent_job_titles ents))
    in H1, H2, H3.
  destruct (ent_companies ents) as [|c cs] eqn:Hc;
    [|destruct (ent_job_titles ents) as [|t ts] eqn:Ht].
  - split; [constructor|]. split; [intros H; congruence|reflexivity].
  - split; [constructor|]. split; [intros _ H; congruence|reflexivity].
  - split; [exact H3|]. split; [intros _ _; split; assumption|].
    intros [H|H]; discriminate.
Qed.

(** X22: the adapter builds one job per company, in order, with the job
    title of the same rank (the empty string when the titles run out) and
    with empty start and end dates; with no company or no job title the
    work history is empty. *)
Theorem adapter_work_history :
  forall (K : Collaborators) (ents : entities) (resume_text : string),
    let wh :=
      work_history (data (DataAdapter.adapt_ner_to_analysis K ents
                            resume_text)) in
    Forall (fun j => start_date j = "" /\ end_date j = "") wh
    /\ (ent_companies ents <> [] -> ent_job_titles ents <> [] ->
        map company wh = ent_companies ents
        /\ map title wh
           = map (fun i => nth i (ent_job_titles ents) "")
                 (seq 0 (List.length (ent_companies ents))))
    /\ (ent_companies ents = [] \/ ent_job_titles ents = [] -> wh = []).
Proof.
  intros K ents resume_text. exact (adapter_jobs K ents resume_text).
Qed.

Lemma adapter_work_history_witness :
  map company
    (work_history (data (DataAdapter.adapt_ner_to_analysis
                           sample_collaborators sample_entities
                           "Developed services in Python")))
  = ent_companies sample_entities.
Proof.
  apply (adapter_work_history sample_collaborators sample_entities
           "Developed services in Python"); discriminate.
Defined.

(** *** Histories without dates *)

Section Undated.
Variable E : Externals.

Lemma parse_empty :
  ExperienceChecker._parse_date E "" = Some (naive (datetime_now E)).
Proof. reflexivity. Qed.

Lemma months_between_same (d : datetime) : months_between d d = 0%Z.
Proof. unfold months_between. lia. Qed.

Lemma undated_collect_gaps (l : list job) :
  Forall undated l -> ExperienceChecker.collect_gaps E l = [].
Proof.
  induction 1 as [|a l [Ha1 Ha2] Hl IH]; [reflexivity|].
  destruct Hl as [|b l [Hb1 Hb2] Hl]; [reflexivity|].
  change (ExperienceChecker.collect_gaps E (a :: b :: l)) with
    (match ExperienceChecker._parse_date E (end_date a),
           ExperienceChecker._parse_date E (start_date b) with
     | Some end_dt, Some next_start =>
         if (6 <? months_between end_dt next_start)%Z
         then months_between end_dt next_start
              :: ExperienceChecker.collect_gaps E (b :: l)
         else ExperienceChecker.collect_gaps E (b :: l)
     | _, _ => ExperienceChecker.collect_gaps E (b :: l)
     end).
  rewrite Ha2, Hb1, parse_empty, months_between_same. exact IH.
Qed.

Lemma undated_parse (l : list job) :
  Forall undated l -> comparable_starts E l.
Proof.
  intros H. exists false. eapply Forall_impl; [|exact H].
  intros j [Hj _]. rewrite Hj, parse_empty. eexists. split; reflexivity.
Qed.

Lemma undated_gaps (wh : list job) :
  Forall undated wh ->
  ExperienceChecker.check_employment_gaps E wh = Ok (10, []).
Proof.
  intros H. unfold ExperienceChecker.check_employment_gaps.
  destruct (List.length wh <? 2)%nat; [reflexivity|].
  destruct (sorted_by_start_ok E wh (undated_parse wh H))
    as (sh & Hsort & Hperm & _).
  rewrite Hsort. simpl bind.
  rewrite (undated_collect_gaps sh); [reflexivity|].
  apply (Permutation_Forall Hperm), H.
Qed.

Lemma undated_date_strings (wh : list job) :
  Forall undated wh -> date_strings_of wh = [].
Proof.
  induction 1 as [|j l [H1 H2] _ IH]; [reflexivity|].
  unfold date_strings_of in *. simpl. rewrite H1, H2. simpl. exact IH.
Qed.

Lemma undated_date_consistency (wh : list job) :
  Forall undated wh ->
  ExperienceChecker.check_date_consistency E wh = (5, []).
Proof.
  intros H. unfold ExperienceChecker.check_date_consistency.
  destruct wh as [|j wh']; [reflexivity|].
  remember (j :: wh') as wh eqn:Hwh. clear Hwh.
  change (flat_map _ wh) with (date_strings_of wh).
  rewrite (undated_date_strings wh H). reflexivity.
Qed.

Lemma undated_total_months (wh : list job) :
  Forall undated wh -> ExperienceChecker.total_months E wh = 0%Z.
Proof.
  unfold ExperienceChecker.total_months.
  induction 1 as [|j l [H1 H2] _ IH]; [reflexivity|].
  simpl. rewrite H1, H2, parse_empty, months_between_same. exact IH.
Qed.

Lemma undated_career_progression (wh : list job) :
  Forall undated wh ->
  0 <= Qmax (fst (ExperienceChecker.check_career_progression E wh))
            (ExperienceParser.detect_progression wh / 20) <= 5.
Proof.
  intros H.
  assert (Hd : 0 <= ExperienceParser.detect_progression wh / 20 <= 4).
  { destruct (detect_progression_values wh) as [Hv|[Hv|[Hv|[Hv|Hv]]]];
      rewrite Hv; split; vm_compute; discriminate. }
  assert (Hc : 0 <= fst (ExperienceChecker.check_career_progression E wh)
               <= 5).
  { destruct wh as [|j wh']; [simpl; lra|].
    rewrite career_progression_score by discriminate.
    unfold ExperienceChecker._calculate_total_years.
    rewrite (undated_total_months _ H).
    change (Qltb (inject_Z 0 / 12) 2) with true. cbv iota.
    destruct (0 <? _)%nat; destruct (negb _ && _); q_minmax; lra. }
  q_minmax; lra.
Qed.

End Undated.

(** X23: an analysis fed by the adapter never raises.  For every parser
    output and resume text the orchestrator returns on the adapted data;
    in its breakdown the employment gaps are 10 and the date consistency
    is 5 (the adapter leaves all dates empty), and the career progression
    is between 0 and 5. *)
Theorem adapted_analysis_returns :
  forall (E : Externals) (K : Collaborators) (ents : entities)
         (resume_file_path resume_text : string) (jd_text : option string),
    exists r v,
      PerfectAnalysisEngine.analyze E resume_file_path resume_text jd_text
        (data (DataAdapter.adapt_ner_to_analysis K ents resume_text)) = Ok r
      /\ Dict.get (breakdown r) "employment_gaps" = Some 10
      /\ Dict.get (breakdown r) "date_consistency" = Some 5
      /\ Dict.get (breakdown r) "career_progression" = Some v
      /\ 0 <= v <= 5.
Proof.
  intros E K ents file resume jd_text.
  set (pd := data (DataAdapter.adapt_ner_to_analysis K ents resume)).
  assert (Hund : Forall undated (work_history pd)).
  { apply (adapter_jobs K ents resume). }
  pose proof (undated_gaps E _ Hund) as Hg.
  destruct (run_checkers_scores E file resume jd_text pd (10, []) Hg)
    as (fb & d & Hrun).
  cbn [fst] in Hrun.
  eexists. eexists.
  split; [apply analyze_of_run_checkers, Hrun|].
  destruct (finish_fields jd_text
              (checked_scores E file resume jd_text pd 10) fb d)
    as (_ & _ & Hb).
  rewrite Hb. unfold checked_scores. cbv zeta.
  split; [reflexivity|].
  split; [cbn [Dict.get String.eqb Ascii.eqb Bool.eqb];
          rewrite (undated_date_consistency E _ Hund); reflexivity|].
  split; [reflexivity|].
  apply undated_career_progression, Hund.
Qed.

(** ** The two analyzers built on the adapter *)

Lemma adapted_analysis_finish (E : Externals) (K : Collaborators)
    (ents : entities) (resume_file_path resume_text : string)
    (jd_text : option string) :
  let pd := data (DataAdapter.adapt_ner_to_analysis K ents resume_text) in
  exists fb d,
    PerfectAnalysisEngine.analyze E resume_file_path resume_text jd_text pd
    = Ok (PerfectAnalysisEngine.finish jd_text
            (checked_scores E resume_file_path resume_text jd_text pd 10)
            fb d).
Proof.
  intros pd.
  assert (Hund : Forall undated (work_history pd))
    by apply (adapter_jobs K ents resume_text).
  pose proof (undated_gaps E _ Hund) as Hg.
  destruct (run_checkers_scores E resume_file_path resume_text jd_text pd
              (10, []) Hg) as (fb & d & Hrun).
  cbn [fst] in Hrun. exists fb, d.
  apply analyze_of_run_checkers, Hrun.
Qed.

Lemma status_not_ok (s : string) :
  negb (String.eqb s "ok") = true <-> s <> "ok".
Proof.
  destruct (String.eqb_spec s "ok") as [H|H]; simpl; split; intros H';
    congruence.
Qed.

(** X24: the integrated analyzer raises only what the parser or the
    preprocessor raises: the error of the sort of the work history cannot
    occur behind the adapter.  When the parser returns with a status
    other than ok, its output is returned; with status ok and no job
    description (or an empty one) the extraction is returned without
    calling the preprocessor; with a non-empty job description and a
    preprocessor that returns, the extraction is returned with the
    analysis of the orchestrator on the adapted data. *)
Theorem integrated_analyze_returns :
  forall (E : Externals) (K : Collaborators) (resume_path : string)
         (job_description : option string),
    let result := IntegratedResumeAnalyzer.analyze E K resume_path
                    job_description in
    (forall e,
        result = Raise e ->
        parser_output K resume_path = Raise e
        \/ (preprocess_clean_text K resume_path = Raise e
            /\ PerfectAnalysisEngine.jd_present job_description = true
            /\ exists p, parser_output K resume_path = Ok p
                         /\ ent_status p = "ok"))
    /\ (forall p,
           parser_output K resume_path = Ok p ->
           (ent_status p <> "ok" ->
            result = Ok (IntegratedResumeAnalyzer.ParseFailed p))
           /\ (ent_status p = "ok" ->
               PerfectAnalysisEngine.jd_present job_description = false ->
               result = Ok (IntegratedResumeAnalyzer.Analysed p None))
           /\ (forall text jd,
                  ent_status p = "ok" ->
                  job_description = Some jd -> jd <> "" ->
                  preprocess_clean_text K resume_path = Ok text ->
                  exists r,
                    result
                    = Ok (IntegratedResumeAnalyzer.Analysed p (Some r))
                    /\ PerfectAnalysisEngine.analyze E resume_path text
                         (Some jd)
                         (data (DataAdapter.adapt_ner_to_analysis K p text))
                       = Ok r)).
Proof.
  intros E K path jd result.
  assert (Hres : result = IntegratedResumeAnalyzer.analyze E K path jd)
    by reflexivity.
  clearbody result. unfold IntegratedResumeAnalyzer.analyze in Hres.
  destruct (parser_output K path) as [p|e0]; cbn [bind] in Hres.
  2:{ subst result.
      split; [intros e He; left; congruence|intros p Hp; discriminate]. }
  destruct (negb (String.eqb (ent_status p) "ok")) eqn:Hst.
  { apply status_not_ok in Hst. subst result. split; [discriminate|].
    intros p' Hp. injection Hp as <-.
    split; [reflexivity|]. split; intros; congruence. }
  assert (Hok : ent_status p = "ok").
  { destruct (String.eqb_spec (ent_status p) "ok");
      [assumption|discriminate]. }
  unfold PerfectAnalysisEngine.jd_present.
  destruct jd as [j|]; [destruct (PyStr.truthy j) eqn:Hj|];
    simpl PerfectAnalysisEngine.jd_or_empty.
  - destruct (preprocess_clean_text K path) as [text|e1];
      cbn [bind] in Hres.
    + destruct (adapted_analysis_finish E K p path text (Some j))
        as (fb & d & Ha).
      cbv zeta in Ha. rewrite Ha in Hres. cbn [bind] in Hres.
      subst result. split; [discriminate|].
      intros p' Hp. injection Hp as <-.
      split; [congruence|]. split; [congruence|].
      intros text' jd' _ Hjd _ Htext.
      injection Hjd as <-. injection Htext as <-.
      eexists. split; [reflexivity|exact Ha].
    + subst result. split.
      * intros e He. right. split; [congruence|]. split; [exact Hj|].
        exists p. split; [reflexivity|exact Hok].
      * intros p' Hp. injection Hp as <-.
        split; [congruence|]. split; [congruence|].
        intros text' jd' _ _ _ Htext. discriminate.
  - subst result. split; [discriminate|].
    intros p' Hp. injection Hp as <-.
    split; [congruence|]. split; [reflexivity|].
    intros text' jd' _ Hjd Hne _. injection Hjd as <-.
    destruct j; [congruence|discriminate].
  - subst result. split; [discriminate|].
    intros p' Hp. injection Hp as <-.
    split; [congruence|]. split; [reflexivity|].
    intros text' jd' _ Hjd. discriminate.
Qed.

Lemma integrated_analyze_returns_witness :
  exists r,
    IntegratedResumeAnalyzer.analyze sample_externals sample_collaborators
      "resume.pdf" (Some "Python developer")
    = Ok (IntegratedResumeAnalyzer.Analysed sample_entities (Some r))
    /\ PerfectAnalysisEngine.analyze sample_externals "resume.pdf"
         "Developed services in Python" (Some "Python developer")
         (data (DataAdapter.adapt_ner_to_analysis sample_collaborators
                  sample_entities "Developed services in Python"))
       = Ok r.
Proof.
  apply (proj2 (proj2 (proj2 (integrated_analyze_returns sample_externals
                                sample_collaborators "resume.pdf"
                                (Some "Python developer"))
                         sample_entities eq_refl))
           "Developed services in Python" "Python developer");
    [reflexivity|reflexivity|discriminate|reflexivity].
Defined.

Lemma rule_features_eleven (parsed_data : analysis_data)
    (resume_text : string) :
  List.length (FeatureFusion.extract_rule_features parsed_data resume_text)
  = 11%nat.
Proof. reflexivity. Qed.

(** The body of [if job_description:] behind the adapter: it raises what
    [compute_similarity] raises, and nothing else. *)
Lemma analyze_with_jd_ok (E : Externals) (K : Collaborators)
    (ents : entities) (resume_path resume_text jd : string) :
  let adapted := DataAdapter.adapt_ner_to_analysis K ents resume_text in
  exists fb d,
    (forall e,
        compute_similarity K resume_text jd = Raise e ->
        MLEnhancedAnalyzer.analyze_with_jd E K resume_path resume_text jd
          adapted = Raise e)
    /\ (forall similarity,
           compute_similarity K resume_text jd = Ok similarity ->
           exists w,
             MLEnhancedAnalyzer.analyze_with_jd E K resume_path resume_text
               jd adapted = Ok w
             /\ MLEnhancedAnalyzer.ml_score_entry w
                = Some (fst (MLScorer.ml_score K resume_text jd))
             /\ MLEnhancedAnalyzer.semantic_score w
                = round1 (similarity * 100)
             /\ enhanced_final_score (MLEnhancedAnalyzer.analysis_entry w)
                = let raw_analysis :=
                    PerfectAnalysisEngine.finish (Some jd)
                      (checked_scores E resume_path resume_text (Some jd)
                         (data adapted) 10) fb d in
                  fst (MLEnhancedAnalyzer.fuse
                         (enhanced_final_score
                            (AdaptiveScorer.enhance_analysis raw_analysis
                               (data_email adapted) (data_phone adapted)))
                         (fst (MLScorer.ml_score K resume_text jd))
                         (breakdown raw_analysis))).
Proof.
  intros adapted.
  destruct (adapted_analysis_finish E K ents resume_path resume_text
              (Some jd)) as (fb & d & Ha).
  cbv zeta in Ha. fold adapted in Ha. exists fb, d.
  unfold MLEnhancedAnalyzer.analyze_with_jd. rewrite Ha. cbn [bind].
  destruct (MLScorer.ml_score K resume_text jd) as [ml ex].
  destruct (MLEnhancedAnalyzer.fuse _ ml _) as [fused_final fused_grade]
    eqn:Hfuse.
  split.
  - intros e He. rewrite He. reflexivity.
  - intros similarity Hsim. rewrite Hsim. cbn [bind].
    eexists. split; [reflexivity|].
    cbn [MLEnhancedAnalyzer.ml_score_entry MLEnhancedAnalyzer.analysis_entry
         MLEnhancedAnalyzer.semantic_score enhanced_final_score fst].
    split; [reflexivity|]. split; [reflexivity|].
    cbv zeta. rewrite Hfuse. reflexivity.
Qed.

(** X25: the ML-enhanced analyzer raises only what the parser, the
    preprocessor, the encoder of the feature extraction or
    [compute_similarity] raises.  When the parser returns with a status
    other than ok, its output is returned.  With status ok and a
    preprocessor and an encoder that return, the feature dimensions are
    the embedding dimension, eleven rule features and their sum; the
    analysis entries are absent without a job description (or with an
    empty one) and present, with the similarity as semantic score, with a
    non-empty one for which [compute_similarity] returns. *)
Theorem ml_enhanced_analyze_returns :
  forall (E : Externals) (K : Collaborators) (resume_path : string)
         (job_description : option string),
    let result := MLEnhancedAnalyzer.analyze E K resume_path
                    job_description in
    (forall e,
        result = Raise e ->
        parser_output K resume_path = Raise e
        \/ preprocess_clean_text K resume_path = Raise e
        \/ (exists text,
               preprocess_clean_text K resume_path = Ok text
               /\ (encode_dim K text = Raise e
                   \/ exists jd,
                        job_description = Some jd
                        /\ compute_similarity K text jd = Raise e)))
    /\ (forall p,
           parser_output K resume_path = Ok p ->
           (ent_status p <> "ok" ->
            result = Ok (MLEnhancedAnalyzer.ParseFailed p))
           /\ (forall text dim,
                  ent_status p = "ok" ->
                  preprocess_clean_text K resume_path = Ok text ->
                  encode_dim K text = Ok dim ->
                  let feats := (dim, 11%nat, (dim + 11)%nat) in
                  (PerfectAnalysisEngine.jd_present job_description = false ->
                   result = Ok (MLEnhancedAnalyzer.Analysed p feats None))
                  /\ (forall jd similarity,
                         job_description = Some jd -> jd <> "" ->
                         compute_similarity K text jd = Ok similarity ->
                         exists w,
                           result
                           = Ok (MLEnhancedAnalyzer.Analysed p feats
                                   (Some w))
                           /\ MLEnhancedAnalyzer.semantic_score w
                              = round1 (similarity * 100)))).
Proof.
  intros E K path jd result.
  assert (Hres : result = MLEnhancedAnalyzer.analyze E K path jd)
    by reflexivity.
  clearbody result. unfold MLEnhancedAnalyzer.analyze in Hres.
  destruct (parser_output K path) as [p|e0]; cbn [bind] in Hres.
  2:{ subst result.
      split; [intros e He; left; congruence|intros p Hp; discriminate]. }
  destruct (negb (String.eqb (ent_status p) "ok")) eqn:Hst.
  { apply status_not_ok in Hst. subst result. split; [discriminate|].
    intros p' Hp. injection Hp as <-.
    split; [reflexivity|]. intros; congruence. }
  assert (Hok : ent_status p = "ok").
  { destruct (String.eqb_spec (ent_status p) "ok");
      [assumption|discriminate]. }
  destruct (preprocess_clean_text K path) as [text|e1]; cbn [bind] in Hres.
  2:{ subst result. split; [intros e He; right; left; congruence|].
      intros p' Hp. injection Hp as <-. split; [congruence|].
      intros text dim _ Htext. discriminate. }
  destruct (encode_dim K text) as [dim|e2] eqn:Hdim; cbn [bind] in Hres.
  2:{ subst result. split.
      - intros e He. right. right. exists text.
        split; [reflexivity|]. left. congruence.
      - intros p' Hp. injection Hp as <-. split; [congruence|].
        intros text' dim _ Htext Hdim'. injection Htext as <-.
        congruence. }
  rewrite rule_features_eleven in Hres.
  unfold PerfectAnalysisEngine.jd_present.
  destruct jd as [j|]; [destruct (PyStr.truthy j) eqn:Hj|];
    simpl PerfectAnalysisEngine.jd_or_empty.
  - destruct (analyze_with_jd_ok E K p path text j)
      as (fb & d & Hraise & Hreturn).
    cbv zeta in Hraise, Hreturn.
    destruct (compute_similarity K text j) as [similarity|e3] eqn:Hsim.
    + destruct (Hreturn similarity eq_refl) as (w & Hw & _ & Hsem & _).
      rewrite Hw in Hres. cbn [bind] in Hres. subst result.
      split; [discriminate|].
      intros p' Hp. injection Hp as <-. split; [congruence|].
      intros text' dim' _ Htext Hdim'.
      injection Htext as <-. rewrite Hdim in Hdim'. injection Hdim' as <-.
      cbv zeta. split; [congruence|].
      intros jd' similarity' Hjd _ Hsim'. injection Hjd as <-.
      rewrite Hsim in Hsim'. injection Hsim' as <-.
      exists w. split; [reflexivity|exact Hsem].
    + rewrite (Hraise e3 eq_refl) in Hres. cbn [bind] in Hres.
      subst result. split.
      * intros e He. injection He as <-. right. right. exists text.
        split; [reflexivity|]. right. exists j. split; [reflexivity|].
        exact Hsim.
      * intros p' Hp. injection Hp as <-. split; [congruence|].
        intros text' dim' _ Htext Hdim'. injection Htext as <-.
        cbv zeta. split; [congruence|].
        intros jd' similarity' Hjd _ Hsim'. injection Hjd as <-.
        congruence.
  - subst result. split; [discriminate|].
    intros p' Hp. injection Hp as <-. split; [congruence|].
    intros text' dim' _ Htext Hdim'.
    injection Htext as <-. rewrite Hdim in Hdim'. injection Hdim' as <-.
    cbv zeta. split; [reflexivity|].
    intros jd' similarity' Hjd Hne _. injection Hjd as <-.
    destruct j; [congruence|discriminate].
  - subst result. split; [discriminate|].
    intros p' Hp. injection Hp as <-. split; [congruence|].
    intros text' dim' _ Htext Hdim'.
    injection Htext as <-. rewrite Hdim in Hdim'. injection Hdim' as <-.
    cbv zeta. split; [reflexivity|].
    intros jd' similarity' Hjd. discriminate.
Qed.

Lemma ml_enhanced_analyze_returns_witness :
  exists w,
    MLEnhancedAnalyzer.analyze sample_externals sample_collaborators
      "resume.pdf" (Some "Python developer")
    = Ok (MLEnhancedAnalyzer.Analysed sample_entities
            (384%nat, 11%nat, 395%nat) (Some w))
    /\ MLEnhancedAnalyzer.semantic_score w = round1 (0.7 * 100).
Proof.
  apply (proj2 (proj2 (proj2 (ml_enhanced_analyze_returns sample_externals
                                sample_collaborators "resume.pdf"
                                (Some "Python developer"))
                         sample_entities eq_refl)
                  "Developed services in Python" 384%nat eq_refl eq_refl
                  eq_refl)
           "Python developer" 0.7);
    [reflexivity|discriminate|reflexivity].
Defined.

Lemma ml_score_range (K : Collaborators) (resume_text jd_text : string) :
  (forall s, tfidf_cosine K jd_text resume_text = Some s -> 0 <= s <= 1) ->
  0 <= fst (MLScorer.ml_score K resume_text jd_text) <= 100.
Proof.
  intros Htf.
  assert (Hfb : 0 <= MLScorer._fallback_score K resume_text jd_text <= 1).
  { unfold MLScorer._fallback_score.
    destruct (tfidf_cosine K jd_text resume_text) as [s|] eqn:Hs.
    - apply Htf. reflexivity.
    - split; vm_compute; discriminate. }
  assert (Hce : 0 <= MLScorer._cross_encoder_score K resume_text jd_text
                <= 1).
  { unfold MLScorer._cross_encoder_score.
    destruct (negb (cross_encoder_loaded K)); [exact Hfb|].
    destruct (cross_encoder_sigmoid K _ _) as [n|]; [|exact Hfb].
    apply clip_bounds. vm_compute. discriminate. }
  assert (Hpath : 0 <= round2 (MLScorer._cross_encoder_score K resume_text
                                 jd_text * 100) <= 100).
  { split; [apply (round2_ge _ 0)|apply (round2_le _ 100)];
      unfold inject_Z; lra. }
  unfold MLScorer.ml_score.
  destruct (negb (PyStr.truthy resume_text) || negb (PyStr.truthy jd_text));
    [simpl; split; vm_compute; discriminate|].
  cbv zeta.
  destruct (embedder_loaded K); [|exact Hpath].
  destruct (embedder_dot K _ _) as [sim|]; [|exact Hpath].
  simpl fst.
  pose proof (clip_bounds ((sim - 0.25) / (0.85 - 0.25) * 55 + 40) 40 95
                ltac:(vm_compute; discriminate)) as Hc.
  fold (MLScorer.rescale_similarity sim) in Hc.
  split; [apply (round2_ge _ 0)|apply (round2_le _ 100)];
    unfold inject_Z; lra.
Qed.

Lemma fused_final_range (rule_score ml_score raw : Q)
    (raw_breakdown : Dict.t Q) :
  Dict.get raw_breakdown "file_layout" = Some raw ->
  0 <= raw <= 20 ->
  0 <= rule_score <= 100 -> 0 <= ml_score <= 100 ->
  0 <= fst (MLEnhancedAnalyzer.fuse rule_score ml_score raw_breakdown)
    <= 99.2.
Proof.
  intros Hget Hraw Hr Hm.
  destruct (fusion_penalty_range raw_breakdown raw Hget Hraw) as [_ Hp].
  cbv zeta in Hp. unfold MLEnhancedAnalyzer.fuse. cbv zeta. simpl fst.
  unfold MLEnhancedAnalyzer.fused_score. cbv zeta.
  remember (Qmin (0.1 * MLEnhancedAnalyzer.formatting_penalty raw_breakdown)
              10) as p eqn:Hq. clear Hq.
  set (f := Qmax (0.5 * rule_score + 0.5 * ml_score - p) 0).
  assert (Hf : 0 <= f <= 99.2) by (unfold f; q_minmax; lra).
  split.
  - apply (round1_ge f 0), Hf.
  - unfold round1.
    assert (Hz : (round_half_even (f * 10) <= 992)%Z).
    { apply round_half_even_le. unfold inject_Z. lra. }
    rewrite Zle_Qle in Hz. apply Qle_shift_div_r; [reflexivity|].
    unfold inject_Z in Hz |- *. lra.
Qed.

(** X26: an ML-enhanced analysis never reaches 100.  When the analyzer
    returns an analysis (a job description was given) and the TF-IDF
    similarity of the fallback path, when it is computed, is within
    [0, 1], the fused final score is between 0 and 99.2, and the ML
    score it reports is the scorer's on the preprocessed text, between 0
    and 100. *)
Theorem ml_enhanced_final_score_range :
  forall (E : Externals) (K : Collaborators) (resume_path jd : string)
         (ext : entities) (feats : nat * nat * nat)
         (a : MLEnhancedAnalyzer.jd_analysis),
    MLEnhancedAnalyzer.analyze E K resume_path (Some jd)
    = Ok (MLEnhancedAnalyzer.Analysed ext feats (Some a)) ->
    (forall text s,
        preprocess_clean_text K resume_path = Ok text ->
        tfidf_cosine K jd text = Some s ->
        0 <= s <= 1) ->
    0 <= enhanced_final_score (MLEnhancedAnalyzer.analysis_entry a) <= 99.2
    /\ (exists ml text,
           preprocess_clean_text K resume_path = Ok text
           /\ MLEnhancedAnalyzer.ml_score_entry a = Some ml
           /\ ml = fst (MLScorer.ml_score K text jd)
           /\ 0 <= ml <= 100).
Proof.
  intros E K path jd ext feats a Ha Htf.
  unfold MLEnhancedAnalyzer.analyze in Ha.
  destruct (parser_output K path) as [p|e0]; cbn [bind] in Ha;
    [|discriminate].
  destruct (negb (String.eqb (ent_status p) "ok")); [discriminate|].
  destruct (preprocess_clean_text K path) as [text|e1];
    cbn [bind] in Ha; [|discriminate].
  destruct (encode_dim K text) as [dim|e2]; cbn [bind] in Ha;
    [|discriminate].
  destruct (PyStr.truthy jd); [|discriminate].
  destruct (analyze_with_jd_ok E K p path text jd)
    as (fb & d & Hraise & Hreturn).
  cbv zeta in Hraise, Hreturn.
  destruct (compute_similarity K text jd) as [similarity|e3].
  2:{ rewrite (Hraise e3 eq_refl) in Ha. discriminate. }
  destruct (Hreturn similarity eq_refl)
    as (w & Hw & Hml_entry & _ & Hfinal).
  rewrite Hw in Ha. cbn [bind] in Ha.
  assert (Hwa : w = a) by congruence. subst a. clear Ha Hw.
  rewrite Hfinal, Hml_entry. cbv zeta.
  pose proof (ml_score_range K text jd (fun s => Htf text s eq_refl))
    as Hml.
  split.
  - set (pd := data (DataAdapter.adapt_ner_to_analysis K p text)).
    destruct (finish_fields (Some jd)
                (checked_scores E path text (Some jd) pd 10) fb d)
      as (Hfin & _ & Hb).
    cbv zeta in Hfin, Hb.
    apply (fused_final_range _ _
             (fst (FormattingChecker.check_file_layout E path))).
    + rewrite Hb. reflexivity.
    + apply file_layout_bounds.
    + unfold AdaptiveScorer.enhance_analysis. cbv zeta.
      cbn [enhanced_final_score]. rewrite Hfin, round1_idempotent.
      pose proof (unrounded_score_bounds (Some jd)
                    (checked_scores E path text (Some jd) pd 10)) as Hu.
      split; [apply (round1_ge _ 0)|apply (round1_le _ 100)];
        unfold inject_Z; lra.
    + exact Hml.
  - eexists. exists text. split; [reflexivity|].
    split; [reflexivity|]. split; [reflexivity|exact Hml].
Qed.

Lemma ml_enhanced_final_score_range_witness :
  match MLEnhancedAnalyzer.analyze sample_externals sample_collaborators
          "resume.pdf" (Some "Python developer") with
  | Ok (MLEnhancedAnalyzer.Analysed _ _ (Some a)) =>
      0 <= enhanced_final_score (MLEnhancedAnalyzer.analysis_entry a) <= 99.2
  | _ => False
  end.
Proof.
  destruct (MLEnhancedAnalyzer.analyze sample_externals sample_collaborators
              "resume.pdf" (Some "Python developer"))
    as [[p|ext feats [a|]]|e] eqn:Ha;
    try (vm_compute in Ha; discriminate).
  apply (ml_enhanced_final_score_range sample_externals sample_collaborators
           "resume.pdf" "Python developer" ext feats a Ha).
  intros text s _ Hs. injection Hs as <-. split; vm_compute; discriminate.
Defined.

(** ** The feedback list and the normalisation of skills *)

Lemma keyword_feedback_single (skills : list string) (jd_text : string) :
  exists item,
    FeedbackGenerator._generate_keyword_feedback skills jd_text = [item].
Proof.
  unfold FeedbackGenerator._generate_keyword_feedback.
  destruct (negb (PyStr.truthy jd_text)); [eexists; reflexivity|].
  cbv zeta. destruct (filter _ FeedbackGenerator.common_tech);
    eexists; reflexivity.
Qed.

(** X27: the enhanced feedback has at most five items; it is empty
    exactly when no rule fires, that is when keyword
    alignment and semantic fit are at least 50, quantified impact and
    professional language at least 70 and file layout and readability at
    least 85 in the display breakdown (a missing entry counting as 100);
    and the readability advice is given only when another rule is
    silent. *)
Theorem generate_feedback_shape :
  forall (scores : Dict.t Q) (skills : list string) (jd_text : string),
    let fb := FeedbackGenerator.generate_feedback scores skills jd_text in
    let score key := Dict.get_default scores key 100 in
    (List.length fb <= 5)%nat
    /\ (fb = []
        <-> 50 <= score "keyword_alignment" /\ 50 <= score "semantic_fit"
            /\ 70 <= score "quantified_impact"
            /\ 70 <= score "professional_language"
            /\ 85 <= score "file_layout" /\ 85 <= score "readability")
    /\ (In "Simplify complex sentences for better clarity" fb ->
        score "readability" < 85
        /\ (50 <= score "keyword_alignment" \/ 50 <= score "semantic_fit"
            \/ 70 <= score "quantified_impact"
            \/ 70 <= score "professional_language"
            \/ 85 <= score "file_layout")).
Proof.
  intros scores skills jd fb score. subst fb.
  unfold FeedbackGenerator.generate_feedback. cbv zeta.
  destruct (keyword_feedback_single skills jd) as [item Hitem].
  rewrite Hitem.
  fold (score "keyword_alignment") (score "semantic_fit")
    (score "quantified_impact") (score "professional_language")
    (score "file_layout") (score "readability").
  assert (Hitem' : item <> "Simplify complex sentences for better clarity").
  { intros ->. revert Hitem.
    unfold FeedbackGenerator._generate_keyword_feedback.
    destruct (negb (PyStr.truthy jd)); [discriminate|].
    cbv zeta. destruct (filter _ FeedbackGenerator.common_tech);
      discriminate. }
  destruct (Qltb (score "keyword_alignment") 50) eqn:H1;
    [apply Qltb_lt in H1|apply Qltb_ge in H1];
  (destruct (Qltb (score "semantic_fit") 50) eqn:H2;
    [apply Qltb_lt in H2|apply Qltb_ge in H2]);
  (destruct (Qltb (score "quantified_impact") 70) eqn:H3;
    [apply Qltb_lt in H3|apply Qltb_ge in H3]);
  (destruct (Qltb (score "professional_language") 70) eqn:H4;
    [apply Qltb_lt in H4|apply Qltb_ge in H4]);
  (destruct (Qltb (score "file_layout") 85) eqn:H5;
    [apply Qltb_lt in H5|apply Qltb_ge in H5]);
  (destruct (Qltb (score "readability") 85) eqn:H6;
    [apply Qltb_lt in H6|apply Qltb_ge in H6]);
  cbv beta iota delta [Datatypes.app firstn Datatypes.length];
  (split; [lia|]);
  (split;
   [split;
    [first [discriminate | intros _; repeat split; assumption]
    |first [reflexivity | intros (G1 & G2 & G3 & G4 & G5 & G6); lra]]
   |]);
  intros Hin; cbn [In] in Hin;
  repeat match type of Hin with
  | _ \/ _ => destruct Hin as [Hin|Hin]
  end;
  try contradiction; try discriminate; try congruence;
  (split; [assumption|tauto]).
Qed.







